(** * SILIC Digital Signer: a shallow embedding of the multi-document,
    multi-signer model and of its simulated signing workflow.

    The first part follows the JavaScript sources:
    - [Utils] (utility functions: file type check, id generation, alerts,
      escaping of text),
    - [I18nManager] (js/i18n.js: translation lookup, language detection, the
      tables),
    - [MultipleItemsManager] (file and signer collections, assignment matrix),
    - [DigitalSignerApp] (submission and the signing simulator),
    - [FormValidator] (js/validation.js),
    - [DigitalSignerAppInit] (the start of the application).
    The second part names the events, invariants and sample runs the
    properties speak about; the third part proves the properties, and the
    fourth part proves further properties of the code.

    Conventions of the embedding.
    - A JavaScript string is a Rocq [string], one [ascii] per UTF-16 code
      unit, for code units below 256; this covers every character class the
      sources mention ([\s], [a-zA-Z], the range from U+00C0 to U+00FF).
      The texts of the messages are copied from the sources as they are.
    - Integers that the code only compares, adds or counts (file sizes,
      lengths, instants in milliseconds) are [Z] or [nat]; numbers the code
      multiplies by a fraction or compares with one are binary64 [float]s.
    - [Math.random()], and [Date.now()] or [new Date()], are read from an
      explicit source kept in the state; every call consumes the next value.
    - A call to [Utils.showAlert] is recorded in the state, in call order.
    - The page is taken to hold the elements the code looks up by id.
    - [Utils.trackEvent] and [Utils.logError] only write to the console and
      are left out, once their arguments are evaluated.
    - Of the HTML text the code renders, the markup of the assignment matrix
      is built as the code builds it, because a file name goes into it as it
      is; the other texts go through [Utils.sanitizeHTML] and are left out.
    - Where a text handed to the browser is not well formed, a markup in
      which a file name ends an attribute or a selector made of a name that
      ends its string, what the browser makes of it is read from the
      environment: [html_inputs] in the state, [selector_engine] for a form. *)

From Stdlib Require Import ZArith Floats Ascii.
From stdpp Require Import gmap strings list pretty.

Local Open Scope Z_scope.
Set Warnings "-inexact-float".

(** ** JavaScript strings *)

Module JsString.

(** [WhiteSpace] and [LineTerminator] code units below 256: the characters
    [String.prototype.trim] strips and the class [\s] matches. *)
Definition is_white_space (c : ascii) : bool :=
  match N_of_ascii c with
  | 9%N | 10%N | 11%N | 12%N | 13%N | 32%N | 160%N => true
  | _ => false
  end.

Fixpoint trimStart (s : string) : string :=
  match s with
  | EmptyString => EmptyString
  | String c s' => if is_white_space c then trimStart s' else s
  end.

Definition trimEnd (s : string) : string :=
  String.rev (trimStart (String.rev s)).

Definition trim (s : string) : string := trimEnd (trimStart s).

Definition in_range (lo hi : N) (c : ascii) : bool :=
  ((lo <=? N_of_ascii c) && (N_of_ascii c <=? hi))%N.

(** Upper-case letters below 256 and their lower-case forms lie 32 apart:
    A-Z, and the Latin-1 letters from U+00C0 to U+00DE except U+00D7. *)
Definition lower_unit (c : ascii) : ascii :=
  if in_range 65 90 c || in_range 192 214 c || in_range 216 222 c
  then ascii_of_N (N_of_ascii c + 32) else c.

Fixpoint toLowerCase (s : string) : string :=
  match s with
  | EmptyString => EmptyString
  | String c s' => String (lower_unit c) (toLowerCase s')
  end.

(** [toUpperCase] is only applied to generated ids, whose alphabet is
    [0-9a-z] and punctuation: the ASCII letters are mapped, every other
    code unit is kept. *)
Definition upper_unit (c : ascii) : ascii :=
  if in_range 97 122 c then ascii_of_N (N_of_ascii c - 32) else c.

Fixpoint toUpperCase (s : string) : string :=
  match s with
  | EmptyString => EmptyString
  | String c s' => String (upper_unit c) (toUpperCase s')
  end.

(** [s.split(sep)] for a one-character separator: the segments between the
    occurrences of [sep], in order; one segment when [sep] does not occur. *)
Fixpoint split (sep : ascii) (s : string) : list string :=
  match s with
  | EmptyString => [EmptyString]
  | String c s' =>
      if decide (c = sep) then EmptyString :: split sep s'
      else match split sep s' with
           | seg :: segs => String c seg :: segs
           | [] => [String c EmptyString]
           end
  end.

(** [a.pop()] read for its value: the last element ([undefined] on an empty
    array, which [split] never returns, see [split_not_nil]). *)
Definition pop (a : list string) : option string := last a.

(** [s.substr(start, len)]. *)
Fixpoint substr (start len : nat) (s : string) : string :=
  match start, len, s with
  | _, _, EmptyString => EmptyString
  | O, O, _ => EmptyString
  | O, S len', String c s' => String c (substr O len' s')
  | S start', _, String c s' => substr start' len s'
  end.

(** A string is truthy when it is not empty. *)
Definition truthy (s : string) : bool :=
  match s with EmptyString => false | _ => true end.

(** [s.replace(pattern, replacement)] for a pattern that is a string: the
    first occurrence of the pattern is replaced.  In the replacement [$$]
    stands for a dollar sign, [$&] for the occurrence, [$`] for the text
    before it and [$'] for the text after it; a string pattern has no groups,
    so every other character of the replacement stands for itself. *)
Fixpoint strip_prefix (pattern s : string) : option string :=
  match pattern, s with
  | EmptyString, _ => Some s
  | String c pattern', String d s' =>
      if decide (c = d) then strip_prefix pattern' s' else None
  | String _ _, EmptyString => None
  end.

Fixpoint find_first (pattern s : string) : option (string * string) :=
  match strip_prefix pattern s with
  | Some after => Some (EmptyString, after)
  | None =>
      match s with
      | EmptyString => None
      | String c s' =>
          (λ found : string * string, (String c found.1, found.2))
          <$> find_first pattern s'
      end
  end.

Fixpoint substitution (matched before after template : string) : string :=
  match template with
  | EmptyString => EmptyString
  | String c template' =>
      if bool_decide (c = "$"%char) then
        match template' with
        | String d rest =>
            if bool_decide (d = "$"%char) then
              String "$" (substitution matched before after rest)
            else if bool_decide (d = "&"%char) then
              matched +:+ substitution matched before after rest
            else if bool_decide (d = "`"%char) then
              before +:+ substitution matched before after rest
            else if bool_decide (d = "'"%char) then
              after +:+ substitution matched before after rest
            else String c (substitution matched before after template')
        | EmptyString => String c EmptyString
        end
      else String c (substitution matched before after template')
  end.

Definition replace (pattern replacement s : string) : string :=
  match find_first pattern s with
  | Some (before, after) =>
      before +:+ substitution pattern before after replacement +:+ after
  | None => s
  end.

(** *** Regular expressions
    The two patterns of the sources are anchored at both ends and built from
    character classes, concatenation and repetition; [test] decides a whole
    string by derivatives. *)
Inductive regex : Type :=
| Void
| Eps
| Class (p : ascii → bool)
| Cat (r1 r2 : regex)
| Alt (r1 r2 : regex)
| Star (r : regex).

Fixpoint nullable (r : regex) : bool :=
  match r with
  | Void => false
  | Eps => true
  | Class _ => false
  | Cat r1 r2 => nullable r1 && nullable r2
  | Alt r1 r2 => nullable r1 || nullable r2
  | Star _ => true
  end.

Definition cat (r1 r2 : regex) : regex :=
  match r1, r2 with
  | Void, _ => Void
  | _, Void => Void
  | Eps, _ => r2
  | _, _ => Cat r1 r2
  end.

Definition alt (r1 r2 : regex) : regex :=
  match r1, r2 with
  | Void, _ => r2
  | _, Void => r1
  | _, _ => Alt r1 r2
  end.

Fixpoint deriv (c : ascii) (r : regex) : regex :=
  match r with
  | Void => Void
  | Eps => Void
  | Class p => if p c then Eps else Void
  | Cat r1 r2 =>
      alt (cat (deriv c r1) r2) (if nullable r1 then deriv c r2 else Void)
  | Alt r1 r2 => alt (deriv c r1) (deriv c r2)
  | Star r1 => cat (deriv c r1) (Star r1)
  end.

Fixpoint test (r : regex) (s : string) : bool :=
  match s with
  | EmptyString => nullable r
  | String c s' => test (deriv c r) s'
  end.

Definition Char (c : ascii) : regex := Class (λ x, bool_decide (x = c)).
Definition Plus (r : regex) : regex := Cat r (Star r).

(** [r{n}] and [r{0,n}]. *)
Fixpoint Exactly (n : nat) (r : regex) : regex :=
  match n with O => Eps | S n' => Cat r (Exactly n' r) end.
Fixpoint AtMost (n : nat) (r : regex) : regex :=
  match n with O => Eps | S n' => Alt Eps (Cat r (AtMost n' r)) end.
(** [r{lo,hi}]. *)
Definition Between (lo hi : nat) (r : regex) : regex :=
  Cat (Exactly lo r) (AtMost (hi - lo) r).

End JsString.

(** ** The state monad of the page *)

Definition State (S A : Type) : Type := S → A * S.

Global Instance State_ret {S} : MRet (State S) := λ A a s, (a, s).
Global Instance State_bind {S} : MBind (State S) :=
  λ A B f m s, let '(a, s') := m s in f a s'.

Definition get {S} : State S S := λ s, (s, s).
Definition modify {S} (f : S → S) : State S unit := λ s, (tt, f s).
Definition when {S} (b : bool) (m : State S unit) : State S unit :=
  if b then m else mret tt.

(** [a.forEach(f)]: the calls run from the first element to the last. *)
Fixpoint forEach {S A} (f : A → State S unit) (a : list A) : State S unit :=
  match a with
  | [] => mret tt
  | x :: a' => f x;; forEach f a'
  end.

(** ** Data model *)

(** One value of [Math.random()]: the number, and the text that
    [Number.prototype.toString(36)] gives for it. *)
Module Draw.
Record t : Type := mk { number : float; base36 : string }.
End Draw.

(** A [File] handle of the browser. *)
Module File.
Record t : Type := mk { name : string; size : Z; type : string }.
End File.

(** The record [addFile] builds for a selected file. *)
Module FileObj.
Record t : Type :=
  mk { id : string; file : File.t; name : string; size : Z; type : string }.
End FileObj.

Module Alert.
Inductive level : Type := success | error | warning | info.
Record t : Type := mk { message : string; type : level; duration : Z }.
End Alert.

(** An [input] or [select] element of a signer row: its value and whether
    its class list holds [field-error]. *)
Module Input.
Record t : Type := mk { value : string; field_error : bool }.
Definition empty : t := mk "" false.
End Input.

(** A [.signer-item] element: the [data-signer-index] attribute it was created
    with, its three fields and the text of its [.error-message] element. *)
Module SignerItem.
Record t : Type :=
  mk { data_signer_index : nat;
       name_input : Input.t;
       email_input : Input.t;
       role_select : Input.t;
       error_message : string }.
Definition blank (index : nat) : t :=
  mk index Input.empty Input.empty Input.empty "".
End SignerItem.

(** A checkbox of the assignment matrix.  [updateDocumentAssignmentMatrix]
    names it [assignment[signer][file]] after a signer position and a file id,
    and [getFormData] reads the two back from the name with the pattern
    [/assignment\[(\d+)\]\[(.+)\]/]: the record keeps them apart. *)
Module Checkbox.
Record t : Type := mk { signer : nat; file : string; checked : bool }.
End Checkbox.

(** The state the managers read and write. *)
Record Page : Type := mkPage {
  (** [MultipleItemsManager.selectedFiles] *)
  selectedFiles : list FileObj.t;
  (** the file list held by the [#docUpload] input *)
  docUpload : list File.t;
  (** the children of [#signersContainer], in document order *)
  signersContainer : list SignerItem.t;
  (** [#sequentialSigning.checked] *)
  sequentialSigning : bool;
  (** [#enableDocumentAssignment.checked] *)
  enableDocumentAssignment : bool;
  (** the checkboxes under [#assignmentMatrix], in document order *)
  assignmentMatrix : list Checkbox.t;
  (** the calls to [Utils.showAlert], oldest first *)
  alerts : list Alert.t;
  (** the values [Math.random()] returns, and how many were taken *)
  random_source : nat → Draw.t;
  random_calls : nat;
  (** the instants [Date.now()] and [new Date()] return, and how many were
      read *)
  clock_source : nat → Z;
  clock_calls : nat;
  (** the HTML parser of the browser, read where a markup text is not
      well-formed: the inputs named [assignment[k][id]] of the tree it builds
      from the text, in document order *)
  html_inputs : string → list Checkbox.t
}.

Definition set_selectedFiles (v : list FileObj.t) (p : Page) : Page :=
  mkPage v (docUpload p) (signersContainer p) (sequentialSigning p)
    (enableDocumentAssignment p) (assignmentMatrix p) (alerts p)
    (random_source p) (random_calls p) (clock_source p) (clock_calls p)
    (html_inputs p).
Definition set_docUpload (v : list File.t) (p : Page) : Page :=
  mkPage (selectedFiles p) v (signersContainer p) (sequentialSigning p)
    (enableDocumentAssignment p) (assignmentMatrix p) (alerts p)
    (random_source p) (random_calls p) (clock_source p) (clock_calls p)
    (html_inputs p).
Definition set_signersContainer (v : list SignerItem.t) (p : Page) : Page :=
  mkPage (selectedFiles p) (docUpload p) v (sequentialSigning p)
    (enableDocumentAssignment p) (assignmentMatrix p) (alerts p)
    (random_source p) (random_calls p) (clock_source p) (clock_calls p)
    (html_inputs p).
Definition set_sequentialSigning (v : bool) (p : Page) : Page :=
  mkPage (selectedFiles p) (docUpload p) (signersContainer p) v
    (enableDocumentAssignment p) (assignmentMatrix p) (alerts p)
    (random_source p) (random_calls p) (clock_source p) (clock_calls p)
    (html_inputs p).
Definition set_enableDocumentAssignment (v : bool) (p : Page) : Page :=
  mkPage (selectedFiles p) (docUpload p) (signersContainer p)
    (sequentialSigning p) v (assignmentMatrix p) (alerts p)
    (random_source p) (random_calls p) (clock_source p) (clock_calls p)
    (html_inputs p).
Definition set_assignmentMatrix (v : list Checkbox.t) (p : Page) : Page :=
  mkPage (selectedFiles p) (docUpload p) (signersContainer p)
    (sequentialSigning p) (enableDocumentAssignment p) v (alerts p)
    (random_source p) (random_calls p) (clock_source p) (clock_calls p)
    (html_inputs p).
Definition set_alerts (v : list Alert.t) (p : Page) : Page :=
  mkPage (selectedFiles p) (docUpload p) (signersContainer p)
    (sequentialSigning p) (enableDocumentAssignment p) (assignmentMatrix p) v
    (random_source p) (random_calls p) (clock_source p) (clock_calls p)
    (html_inputs p).
Definition set_random_calls (v : nat) (p : Page) : Page :=
  mkPage (selectedFiles p) (docUpload p) (signersContainer p)
    (sequentialSigning p) (enableDocumentAssignment p) (assignmentMatrix p)
    (alerts p) (random_source p) v (clock_source p) (clock_calls p)
    (html_inputs p).
Definition set_clock_calls (v : nat) (p : Page) : Page :=
  mkPage (selectedFiles p) (docUpload p) (signersContainer p)
    (sequentialSigning p) (enableDocumentAssignment p) (assignmentMatrix p)
    (alerts p) (random_source p) (random_calls p) (clock_source p) v
    (html_inputs p).

(** [Math.random()], and [Date.now()] or [new Date()]. *)
Definition Math_random : State Page Draw.t :=
  p ← get;
  modify (set_random_calls (S (random_calls p)));;
  mret (random_source p (random_calls p)).

Definition Date_now : State Page Z :=
  p ← get;
  modify (set_clock_calls (S (clock_calls p)));;
  mret (clock_source p (clock_calls p)).

(** ** Utils *)

Module Utils.

(** [isFileTypeAllowed(fileName, allowedTypes)]; [default_allowedTypes] is
    the default value of the second parameter. *)
Definition default_allowedTypes : list string := [".pdf"; ".docx"; ".txt"].

Definition isFileTypeAllowed (fileName : string) (allowedTypes : list string)
  : bool :=
  let fileExtension :=
    "." +:+ JsString.toLowerCase
              (default "" (JsString.pop (JsString.split "." fileName))) in
  bool_decide (fileExtension ∈ allowedTypes).

(** [generateId()]: ['id-' + Math.random().toString(36).substr(2, 9)]. *)
Definition generateId : State Page string :=
  r ← Math_random;
  mret ("id-" +:+ JsString.substr 2 9 (Draw.base36 r)).

(** [sanitizeHTML(str)]: the text is made the content of a new element and
    read back as markup, which writes the four characters below as
    references and every other one as it is. *)
Definition escape_unit (c : ascii) : string :=
  if bool_decide (c = "&"%char) then "&amp;"
  else if bool_decide (c = "<"%char) then "&lt;"
  else if bool_decide (c = ">"%char) then "&gt;"
  else if bool_decide (c = ascii_of_nat 160) then "&nbsp;"
  else String c EmptyString.

Fixpoint sanitizeHTML (str : string) : string :=
  match str with
  | EmptyString => EmptyString
  | String c str' => escape_unit c +:+ sanitizeHTML str'
  end.

(** [showAlert(message, type = 'info', duration = 5000)].  The element gets
    the id ['alert-' + Date.now()], for which the clock is read; the record
    of the call keeps the message, the type and the duration. *)
Definition default_duration : Z := 5000.

Definition showAlert (message : string) (type : Alert.level) (duration : Z)
  : State Page unit :=
  Date_now;;
  modify (λ p, set_alerts (alerts p ++ [Alert.mk message type duration]) p).

(** [clearAlerts()]. *)
Definition clearAlerts : State Page unit := modify (set_alerts []).

End Utils.

(** ** I18nManager *)

Module I18nManager.

Record t : Type :=
  mk { currentLanguage : string;
       translations : gmap string (gmap string string) }.

(** [getTranslation(key)], called without parameters to substitute. *)
Definition getTranslation (i18n : t) (key : string) : string :=
  match translations i18n !! currentLanguage i18n with
  | None => key
  | Some table =>
      match table !! key with
      | None => key
      | Some translation =>
          if JsString.truthy translation then translation else key
      end
  end.

(** [getTranslation(key, params)]: the parameters are substituted in the
    order of the keys of [params]. *)
Definition getTranslation_params (i18n : t) (key : string)
    (params : list (string * string)) : string :=
  match translations i18n !! currentLanguage i18n with
  | None => key
  | Some table =>
      match table !! key with
      | None => key
      | Some translation =>
          if JsString.truthy translation then
            foldl (λ translation (param : string * string),
                     JsString.replace ("{" +:+ param.1 +:+ "}") param.2
                       translation)
                  translation params
          else key
      end
  end.

(** [new I18nManager()]: Portuguese, no table loaded. *)
Definition new : t := mk "pt-BR" ∅.

(** [this.supportedLanguages], written by the constructor only. *)
Definition supportedLanguages : list string := ["pt-BR"; "en-US"; "es-ES"].

(** The manager and the item [preferred-language] of [localStorage], [None]
    while the item is not set. *)
Record Env : Type := mkEnv { manager : t; preferred_language : option string }.

Definition set_currentLanguage (language : string) (env : Env) : Env :=
  mkEnv (mk language (translations (manager env))) (preferred_language env).

(** The second half of [detectLanguage()], reached when there is no usable
    saved language.  [browserLang] is the value of
    [navigator.language || navigator.userLanguage], [None] for [undefined], on
    which [substring] throws a [TypeError]: the answer is [None] then. *)
Definition detect_from_browser (browserLang : option string) (env : Env)
  : option Env :=
  match browserLang with
  | None => None
  | Some browserLang =>
      let shortLang := JsString.substr 0 2 browserLang in
      match List.find (λ lang, String.prefix shortLang lang) supportedLanguages with
      | Some matchedLang =>
          if JsString.truthy matchedLang
          then Some (set_currentLanguage matchedLang env) else Some env
      | None => Some env
      end
  end.

(** [detectLanguage()] *)
Definition detectLanguage (browserLang : option string) (env : Env) : option Env :=
  match preferred_language env with
  | Some savedLang =>
      if JsString.truthy savedLang && bool_decide (savedLang ∈ supportedLanguages)
      then Some (set_currentLanguage savedLang env)
      else detect_from_browser browserLang env
  | None => detect_from_browser browserLang env
  end.

(** [setLanguage(language)]; the call of [applyTranslations] writes to the
    document only. *)
Definition setLanguage (language : string) (env : Env) : Env :=
  if bool_decide (language ∈ supportedLanguages)
  then mkEnv (mk language (translations (manager env))) (Some language)
  else env.

Definition getCurrentLanguage (i18n : t) : string := currentLanguage i18n.

(** The three tables of [loadTranslations()], entry by entry. *)
Definition pt_BR : list (string * string) :=
  [("skip-to-content", "Pular para o conteúdo principal");
   ("app-title", "SILIC Digital Signer");
   ("service-name", "Assinador Digital");
   ("portal-title", "Portal de Assinatura Digital");
   ("portal-description", "Assine seus documentos de forma segura e digital com certificação válida.");
   ("select-document", "Selecione o documento:");
   ("select-documents", "Selecione os documentos:");
   ("doc-help", "Formatos aceitos: PDF, DOCX, TXT (máximo 10MB por arquivo, até 10 arquivos)");
   ("signer-name", "Nome do signatário:");
   ("signers", "Signatários:");
   ("signers-help", "Adicione todos os signatários que devem assinar os documentos");
   ("name-help", "Digite seu nome completo como aparece no documento");
   ("sign-button", "Assinar Digitalmente");
   ("result-title", "Resultado da Assinatura");
   ("download-document", "Baixar Documento Assinado");
   ("new-signature", "Nova Assinatura");
   ("prototype", "Protótipo");
   ("privacy-policy", "Política de Privacidade");
   ("terms-of-use", "Termos de Uso");
   ("help", "Ajuda");
   ("success-message", "Documento assinado com sucesso por {name}");
   ("error-file-required", "Por favor, selecione um documento");
   ("error-name-required", "Por favor, informe o nome do signatário");
   ("error-name-min-length", "O nome deve ter pelo menos 3 caracteres");
   ("error-file-size", "O arquivo deve ter no máximo 10MB");
   ("error-file-type", "Formato de arquivo não suportado");
   ("loading", "Processando assinatura...");
   ("signing", "Assinando...");
   ("document", "Documento");
   ("signature-date", "Data da Assinatura");
   ("certificate", "Certificado");
   ("file-size", "Tamanho do Arquivo");
   ("process-id", "ID do Processo");
   ("start-date", "Data de Início");
   ("signature-type", "Tipo de Assinatura");
   ("sequential", "Sequencial");
   ("parallel", "Paralela");
   ("total-documents", "Total de Documentos");
   ("documents-summary", "Resumo dos Documentos");
   ("signed", "Assinado");
   ("pending", "Pendente");
   ("next-steps", "Próximos Passos");
   ("sequential-info-1", "Os signatários receberão convites por e-mail na ordem definida");
   ("sequential-info-2", "Cada signatário poderá assinar apenas após o anterior concluir");
   ("sequential-info-3", "Você receberá notificações sobre o progresso");
   ("parallel-info-1", "Todos os signatários receberão convites por e-mail simultaneamente");
   ("parallel-info-2", "Cada um pode assinar independentemente");
   ("parallel-info-3", "Você receberá notificações conforme as assinaturas forem concluídas");
   ("download-report", "Baixar Relatório do Processo");
   ("signer-name-placeholder", "Digite o nome completo do signatário");
   ("signer-email-placeholder", "Digite o e-mail do signatário");
   ("signer-role-placeholder", "Função/Cargo (opcional)");
   ("add-signer", "Adicionar Signatário");
   ("remove-signer", "Remover");
   ("signature-options", "Opções de Assinatura");
   ("sequential-signature", "Assinatura Sequencial");
   ("sequential-signature-help", "Os signatários assinarão na ordem especificada");
   ("document-assignment", "Atribuição de Documentos por Signatário");
   ("document-assignment-help", "Permitir que cada signatário seja responsável por documentos específicos");
   ("email", "E-mail");
   ("role", "Função/Cargo");
   ("actions", "Ações");
   ("name-required", "Nome é obrigatório");
   ("name-min-length", "Nome deve ter pelo menos 3 caracteres");
   ("email-required", "E-mail é obrigatório");
   ("email-invalid", "E-mail inválido");
   ("preview", "Visualizar");
   ("remove", "Remover");
   ("file-preview", "Visualização do Arquivo")].

Definition en_US : list (string * string) :=
  [("skip-to-content", "Skip to main content");
   ("app-title", "SILIC Digital Signer");
   ("service-name", "Digital Signer");
   ("portal-title", "Digital Signature Portal");
   ("portal-description", "Sign your documents securely and digitally with valid certification.");
   ("select-document", "Select document:");
   ("select-documents", "Select documents:");
   ("doc-help", "Accepted formats: PDF, DOCX, TXT (maximum 10MB per file, up to 10 files)");
   ("signer-name", "Signer name:");
   ("signers", "Signers:");
   ("signers-help", "Add all signers who must sign the documents");
   ("name-help", "Enter your full name as it appears in the document");
   ("sign-button", "Sign Digitally");
   ("result-title", "Signature Result");
   ("download-document", "Download Signed Document");
   ("new-signature", "New Signature");
   ("prototype", "Prototype");
   ("privacy-policy", "Privacy Policy");
   ("terms-of-use", "Terms of Use");
   ("help", "Help");
   ("success-message", "Document successfully signed by {name}");
   ("error-file-required", "Please select a document");
   ("error-name-required", "Please enter the signer name");
   ("error-name-min-length", "Name must be at least 3 characters long");
   ("error-file-size", "File must be maximum 10MB");
   ("error-file-type", "File format not supported");
   ("loading", "Processing signature...");
   ("signing", "Signing...");
   ("document", "Document");
   ("signature-date", "Signature Date");
   ("certificate", "Certificate");
   ("file-size", "File Size");
   ("process-id", "Process ID");
   ("start-date", "Start Date");
   ("signature-type", "Signature Type");
   ("sequential", "Sequential");
   ("parallel", "Parallel");
   ("total-documents", "Total Documents");
   ("documents-summary", "Documents Summary");
   ("signed", "Signed");
   ("pending", "Pending");
   ("next-steps", "Next Steps");
   ("sequential-info-1", "Signers will receive email invitations in the defined order");
   ("sequential-info-2", "Each signer can only sign after the previous one completes");
   ("sequential-info-3", "You will receive notifications about the progress");
   ("parallel-info-1", "All signers will receive email invitations simultaneously");
   ("parallel-info-2", "Each one can sign independently");
   ("parallel-info-3", "You will receive notifications as signatures are completed");
   ("download-report", "Download Process Report");
   ("signer-name-placeholder", "Enter the full name of the signer");
   ("signer-email-placeholder", "Enter the signer email");
   ("signer-role-placeholder", "Role/Position (optional)");
   ("add-signer", "Add Signer");
   ("remove-signer", "Remove");
   ("signature-options", "Signature Options");
   ("sequential-signature", "Sequential Signature");
   ("sequential-signature-help", "Signers will sign in the specified order");
   ("document-assignment", "Document Assignment per Signer");
   ("document-assignment-help", "Allow each signer to be responsible for specific documents");
   ("email", "Email");
   ("role", "Role/Position");
   ("actions", "Actions");
   ("name-required", "Name is required");
   ("name-min-length", "Name must be at least 3 characters long");
   ("email-required", "Email is required");
   ("email-invalid", "Invalid email");
   ("preview", "Preview");
   ("remove", "Remove");
   ("file-preview", "File Preview")].

Definition es_ES : list (string * string) :=
  [("skip-to-content", "Saltar al contenido principal");
   ("app-title", "SILIC Digital Signer");
   ("service-name", "Firmador Digital");
   ("portal-title", "Portal de Firma Digital");
   ("portal-description", "Firme sus documentos de forma segura y digital con certificación válida.");
   ("select-document", "Seleccionar documento:");
   ("select-documents", "Seleccionar documentos:");
   ("doc-help", "Formatos aceptados: PDF, DOCX, TXT (máximo 10MB por archivo, hasta 10 archivos)");
   ("signer-name", "Nombre del firmante:");
   ("signers", "Firmantes:");
   ("signers-help", "Agregue todos los firmantes que deben firmar los documentos");
   ("name-help", "Ingrese su nombre completo como aparece en el documento");
   ("sign-button", "Firmar Digitalmente");
   ("result-title", "Resultado de la Firma");
   ("download-document", "Descargar Documento Firmado");
   ("new-signature", "Nueva Firma");
   ("prototype", "Prototipo");
   ("privacy-policy", "Política de Privacidad");
   ("terms-of-use", "Términos de Uso");
   ("help", "Ayuda");
   ("success-message", "Documento firmado exitosamente por {name}");
   ("error-file-required", "Por favor, seleccione un documento");
   ("error-name-required", "Por favor, ingrese el nombre del firmante");
   ("error-name-min-length", "El nombre debe tener al menos 3 caracteres");
   ("error-file-size", "El archivo debe tener máximo 10MB");
   ("error-file-type", "Formato de archivo no soportado");
   ("loading", "Procesando firma...");
   ("signing", "Firmando...");
   ("document", "Documento");
   ("signature-date", "Fecha de Firma");
   ("certificate", "Certificado");
   ("file-size", "Tamaño del Archivo");
   ("process-id", "ID del Proceso");
   ("start-date", "Fecha de Inicio");
   ("signature-type", "Tipo de Firma");
   ("sequential", "Secuencial");
   ("parallel", "Paralela");
   ("total-documents", "Total de Documentos");
   ("documents-summary", "Resumen de Documentos");
   ("signed", "Firmado");
   ("pending", "Pendiente");
   ("next-steps", "Próximos Pasos");
   ("sequential-info-1", "Los firmantes recibirán invitaciones por email en el orden definido");
   ("sequential-info-2", "Cada firmante solo puede firmar después de que el anterior complete");
   ("sequential-info-3", "Recibirás notificaciones sobre el progreso");
   ("parallel-info-1", "Todos los firmantes recibirán invitaciones por email simultáneamente");
   ("parallel-info-2", "Cada uno puede firmar independientemente");
   ("parallel-info-3", "Recibirás notificaciones conforme se completen las firmas");
   ("download-report", "Descargar Reporte del Proceso");
   ("signer-name-placeholder", "Ingrese el nombre completo del firmante");
   ("signer-email-placeholder", "Ingrese el email del firmante");
   ("signer-role-placeholder", "Función/Cargo (opcional)");
   ("add-signer", "Agregar Firmante");
   ("remove-signer", "Remover");
   ("signature-options", "Opciones de Firma");
   ("sequential-signature", "Firma Secuencial");
   ("sequential-signature-help", "Los firmantes firmarán en el orden especificado");
   ("document-assignment", "Asignación de Documentos por Firmante");
   ("document-assignment-help", "Permitir que cada firmante sea responsable de documentos específicos");
   ("email", "Email");
   ("role", "Función/Cargo");
   ("actions", "Acciones");
   ("name-required", "Nombre es obligatorio");
   ("name-min-length", "El nombre debe tener al menos 3 caracteres");
   ("email-required", "Email es obligatorio");
   ("email-invalid", "Email inválido");
   ("preview", "Vista Previa");
   ("remove", "Remover");
   ("file-preview", "Vista Previa del Archivo")].

Definition translation_tables : gmap string (gmap string string) :=
  list_to_map [("pt-BR", list_to_map pt_BR); ("en-US", list_to_map en_US);
               ("es-ES", list_to_map es_ES)].

Definition loadTranslations (env : Env) : Env :=
  mkEnv (mk (currentLanguage (manager env)) translation_tables)
    (preferred_language env).

(** [init()]: [detectLanguage], then [loadTranslations]; [applyTranslations]
    writes to the document only. *)
Definition init (browserLang : option string) (env : Env) : option Env :=
  loadTranslations <$> detectLanguage browserLang env.

(** The listener of [DOMContentLoaded]: [window.i18n] is the new manager, also
    when [init] throws, in which case the error is logged and the manager
    stays as the constructor left it. *)
Definition startup (browserLang : option string) (storage : option string) : Env :=
  let env := mkEnv new storage in
  default env (init browserLang env).

End I18nManager.

(** ** MultipleItemsManager *)

(** What [getFormData] returns. *)
Module Signer.
Record t : Type :=
  mk { name : string; email : string; role : string; index : nat }.
End Signer.

Module FormData.
Record t : Type :=
  mk { files : list FileObj.t;
       signers : list Signer.t;
       sequentialSigning : bool;
       documentAssignments : option (gmap nat (list string)) }.
End FormData.

Module MultipleItemsManager.

Definition maxFiles : nat := 10.
Definition maxSigners : nat := 10.
Definition maxFileSize : Z := 10 * 1024 * 1024.

Definition dquote : string := String (ascii_of_nat 34) EmptyString.
Definition newline : string := String (ascii_of_nat 10) EmptyString.

(** [a.join('')] *)
Definition join_all (a : list string) : string := foldr String.append "" a.

(** The word [Signatário], the letter after the t being U+00E1. *)
Definition Signatario : string := "Signat" +:+ String (ascii_of_nat 225) "rio".

(** The markup that [updateDocumentAssignmentMatrix] writes into
    [#assignmentMatrix]: the three template literals of the method, from the
    innermost to the outermost, with the white space they hold. *)
Definition box_markup (signerIndex : nat) (file : FileObj.t) : string :=
  newline +:+ "                            <div class=" +:+ dquote +:+
  "document-checkbox" +:+ dquote +:+ ">" +:+ newline +:+
  "                                <input type=" +:+ dquote +:+
  "checkbox" +:+ dquote +:+ " " +:+ newline +:+
  "                                       name=" +:+ dquote +:+ "assignment[" +:+
  pretty signerIndex +:+ "][" +:+ FileObj.id file +:+
  "]" +:+ dquote +:+ " " +:+ newline +:+
  "                                       checked " +:+ newline +:+
  "                                       title=" +:+ dquote +:+ "Assinar " +:+
  FileObj.name file +:+
  dquote +:+ ">" +:+ newline +:+ "                            </div>" +:+
  newline +:+ "                        ".

Definition row_markup (files : list FileObj.t) (signerIndex : nat)
    (signer : SignerItem.t) : string :=
  let value := Input.value (SignerItem.name_input signer) in
  let signerName :=
    if JsString.truthy value then value
    else Signatario +:+ " " +:+ pretty (signerIndex + 1)%nat in
  newline +:+ "                    <div class=" +:+ dquote +:+
  "matrix-row" +:+ dquote +:+ " style=" +:+ dquote +:+
  "grid-template-columns: 200px repeat(" +:+
  pretty (length files) +:+
  ", 1fr);" +:+ dquote +:+ ">" +:+ newline +:+
  "                        <div class=" +:+ dquote +:+ "signer-label" +:+
  dquote +:+ ">" +:+
  Utils.sanitizeHTML signerName +:+
  "</div>" +:+ newline +:+ "                        " +:+
  join_all (box_markup signerIndex <$> files) +:+
  newline +:+ "                    </div>" +:+ newline +:+ "                ".

Definition matrix_markup (files : list FileObj.t) (signers : list SignerItem.t)
  : string :=
  let headerCols := Signatario :: (FileObj.name <$> files) in
  newline +:+ "            <div class=" +:+ dquote +:+ "matrix-header" +:+
  dquote +:+ " style=" +:+ dquote +:+ "grid-template-columns: 200px repeat(" +:+
  pretty (length files) +:+
  ", 1fr);" +:+ dquote +:+ ">" +:+ newline +:+ "                " +:+
  join_all ((λ col, "<div>" +:+ Utils.sanitizeHTML col +:+ "</div>")
            <$> headerCols) +:+
  newline +:+ "            </div>" +:+ newline +:+ "            " +:+
  join_all (imap (row_markup files) signers) +:+
  newline +:+ "        ".

(** A file name that the [title] attribute of a box holds whole: one without
    a double quote, the only character that ends the value of the attribute.
    The header cells and the signer labels go through [Utils.sanitizeHTML], and
    the ids of the files are ['id-'] and digits in base 36. *)
Fixpoint title_safe (fileName : string) : bool :=
  match fileName with
  | EmptyString => true
  | String c fileName' =>
      negb (bool_decide (c = ascii_of_nat 34)) && title_safe fileName'
  end.

(** The fields of a signer row, in document order. *)
Inductive SignerField : Type := NameInput | EmailInput | RoleSelect.

(** [/^[^\s@]+@[^\s@]+\.[^\s@]+$/] *)
Definition email_pattern : JsString.regex :=
  let not_space_at :=
    JsString.Class
      (λ c, negb (JsString.is_white_space c) && negb (bool_decide (c = "@"%char))) in
  JsString.Cat (JsString.Plus not_space_at)
    (JsString.Cat (JsString.Char "@")
       (JsString.Cat (JsString.Plus not_space_at)
          (JsString.Cat (JsString.Char ".") (JsString.Plus not_space_at)))).

(** [a.findIndex(pred)], with [None] for -1. *)
Fixpoint findIndex {A} (pred : A → bool) (a : list A) : option nat :=
  match a with
  | [] => None
  | x :: a' => if pred x then Some O else S <$> findIndex pred a'
  end.

(** [getFileIcon(fileName)] *)
Definition getFileIcon (fileName : string) : string :=
  let extension :=
    JsString.toLowerCase
      (default "" (JsString.pop (JsString.split "." fileName))) in
  if bool_decide (extension = "pdf") then "pdf"
  else if bool_decide (extension = "docx") || bool_decide (extension = "doc")
  then "word"
  else if bool_decide (extension = "txt") then "text"
  else "alt".

Section WithEnvironment.

(** [Utils.formatFileSize], which goes through [Math.log] and [toFixed], and
    the global [window.i18n] ([None] while it is not loaded). *)
Variable formatFileSize : Z → string.
Variable window_i18n : option I18nManager.t.

(** [window.i18n ? window.i18n.getTranslation(key) : fallback] *)
Definition translate_or (key fallback : string) : string :=
  match window_i18n with
  | Some i18n => I18nManager.getTranslation i18n key
  | None => fallback
  end.

(** [updateDocumentAssignmentMatrix()]: does nothing while assignment mode is
    off; otherwise replaces the content of [#assignmentMatrix], by the
    advisory text when a collection is empty and by the markup of the matrix
    otherwise.  When every file name is held whole by its [title] attribute
    the markup is the one the template spells out, and its inputs are one
    checked box per signer position and file, row by row.  A name with a
    double quote ends its attribute early and the rest of the name is read as
    markup: the inputs are then the ones the parser of the browser makes of
    the text.  What a script carried by such markup would do is outside the
    embedding. *)
Definition updateDocumentAssignmentMatrix : State Page unit :=
  p ← get;
  if negb (enableDocumentAssignment p) then mret tt
  else if bool_decide (length (selectedFiles p) = 0%nat)
          || bool_decide (length (signersContainer p) = 0%nat)
  then modify (set_assignmentMatrix [])
  else
    let matrixHTML := matrix_markup (selectedFiles p) (signersContainer p) in
    if forallb (λ file, title_safe (FileObj.name file)) (selectedFiles p) then
      modify (set_assignmentMatrix
        (mjoin (imap (λ signerIndex _,
                  (λ file, Checkbox.mk signerIndex (FileObj.id file) true)
                    <$> selectedFiles p)
                (signersContainer p))))
    else modify (set_assignmentMatrix (html_inputs p matrixHTML)).

(** [updateFileDisplay()] and [updateRemoveButtons()] render the lists again
    and keep no state of their own. *)
Definition updateFileDisplay : State Page unit := mret tt.
Definition updateRemoveButtons : State Page unit := mret tt.

Definition validateFile (file : File.t) : State Page bool :=
  p ← get;
  if maxFileSize <? File.size file then
    Utils.showAlert
      ("Arquivo " +:+ dquote +:+ File.name file +:+ dquote
       +:+ " excede o tamanho máximo de " +:+ formatFileSize maxFileSize)
      Alert.error Utils.default_duration;;
    mret false
  else if negb (Utils.isFileTypeAllowed (File.name file) [".pdf"; ".docx"; ".txt"])
  then
    Utils.showAlert
      ("Formato do arquivo " +:+ dquote +:+ File.name file +:+ dquote
       +:+ " não é suportado")
      Alert.error Utils.default_duration;;
    mret false
  else if existsb
            (λ existingFile,
               bool_decide (FileObj.name existingFile = File.name file)
               && bool_decide (FileObj.size existingFile = File.size file))
            (selectedFiles p)
  then
    Utils.showAlert
      ("Arquivo " +:+ dquote +:+ File.name file +:+ dquote
       +:+ " já foi selecionado")
      Alert.warning Utils.default_duration;;
    mret false
  else mret true.

Definition addFile (file : File.t) : State Page unit :=
  id ← Utils.generateId;
  let fileObj :=
    FileObj.mk id file (File.name file) (File.size file) (File.type file) in
  modify (λ p, set_selectedFiles (selectedFiles p ++ [fileObj]) p).

Definition handleFileSelection (files : list File.t) : State Page unit :=
  p ← get;
  if bool_decide (maxFiles < length (selectedFiles p) + length files)%nat then
    Utils.showAlert
      ("Máximo de " +:+ pretty maxFiles +:+ " arquivos permitidos")
      Alert.error Utils.default_duration
  else
    forEach (λ file, ok ← validateFile file; when ok (addFile file)) files;;
    updateFileDisplay;;
    updateDocumentAssignmentMatrix.

(** The listener that [setupFileHandling] installs on the [change] event of
    [#docUpload]: the input holds the chosen files and the listener passes
    them on. *)
Definition selectFiles (files : list File.t) : State Page unit :=
  modify (set_docUpload files);;
  handleFileSelection files.

Definition removeFile (fileId : string) : State Page unit :=
  p ← get;
  match findIndex (λ f, bool_decide (FileObj.id f = fileId)) (selectedFiles p) with
  | Some index =>
      modify (set_selectedFiles (delete index (selectedFiles p)));;
      updateFileDisplay;;
      updateDocumentAssignmentMatrix
  | None => mret tt
  end.

Definition clearAllFiles : State Page unit :=
  modify (set_selectedFiles []);;
  updateFileDisplay;;
  updateDocumentAssignmentMatrix;;
  modify (set_docUpload []).

Definition addSigner : State Page unit :=
  p ← get;
  let signerCount := length (signersContainer p) in
  if bool_decide (maxSigners ≤ signerCount)%nat then
    Utils.showAlert
      ("Máximo de " +:+ pretty maxSigners +:+ " signatários permitidos")
      Alert.error Utils.default_duration
  else
    let signerIndex := signerCount in
    modify (set_signersContainer
              (signersContainer p ++ [SignerItem.blank signerIndex]));;
    updateRemoveButtons;;
    updateDocumentAssignmentMatrix.

(** [removeSigner(signerElement)], the element being the child of
    [#signersContainer] at [position]; [remove()] on an element that is not
    in the container changes nothing. *)
Definition removeSigner (position : nat) : State Page unit :=
  p ← get;
  if bool_decide (length (signersContainer p) ≤ 1)%nat then
    Utils.showAlert "Pelo menos um signatário é obrigatório"
      Alert.error Utils.default_duration
  else
    modify (set_signersContainer (delete position (signersContainer p)));;
    updateRemoveButtons;;
    updateDocumentAssignmentMatrix.

Definition signer_input (field : SignerField) (item : SignerItem.t) : Input.t :=
  match field with
  | NameInput => SignerItem.name_input item
  | EmailInput => SignerItem.email_input item
  | RoleSelect => SignerItem.role_select item
  end.

Definition set_signer_input (field : SignerField) (input : Input.t)
    (item : SignerItem.t) : SignerItem.t :=
  match field with
  | NameInput =>
      SignerItem.mk (SignerItem.data_signer_index item) input
        (SignerItem.email_input item) (SignerItem.role_select item)
        (SignerItem.error_message item)
  | EmailInput =>
      SignerItem.mk (SignerItem.data_signer_index item)
        (SignerItem.name_input item) input (SignerItem.role_select item)
        (SignerItem.error_message item)
  | RoleSelect =>
      SignerItem.mk (SignerItem.data_signer_index item)
        (SignerItem.name_input item) (SignerItem.email_input item) input
        (SignerItem.error_message item)
  end.

Definition set_error_message (text : string) (item : SignerItem.t)
  : SignerItem.t :=
  SignerItem.mk (SignerItem.data_signer_index item)
    (SignerItem.name_input item) (SignerItem.email_input item)
    (SignerItem.role_select item) text.

(** The message [validateSignerField] computes for an input, [""] for none. *)
Definition signer_field_error (field : SignerField) (value : string) : string :=
  match field with
  | NameInput =>
      if negb (JsString.truthy (JsString.trim value)) then
        translate_or "name-required" "Nome é obrigatório"
      else if bool_decide (String.length (JsString.trim value) < 3)%nat then
        translate_or "name-min-length" "Nome deve ter pelo menos 3 caracteres"
      else ""
  | EmailInput =>
      if negb (JsString.truthy (JsString.trim value)) then
        "E-mail é obrigatório"
      else if negb (JsString.test email_pattern value) then "E-mail inválido"
      else ""
  | RoleSelect =>
      if negb (JsString.truthy value) then "Papel é obrigatório" else ""
  end.

(** [validateSignerField(input)] on the row that holds the input. *)
Definition validateSignerField (field : SignerField) (item : SignerItem.t)
  : bool * SignerItem.t :=
  let input := signer_input field item in
  let error := signer_field_error field (Input.value input) in
  if JsString.truthy error then
    (false,
     set_signer_input field (Input.mk (Input.value input) true)
       (set_error_message error item))
  else
    (true,
     set_signer_input field (Input.mk (Input.value input) false)
       (set_error_message "" item)).

(** The [blur] listener of a field of the row at [position]. *)
Definition blurSignerField (position : nat) (field : SignerField)
  : State Page unit :=
  modify (λ p, set_signersContainer
                 (alter (λ item, (validateSignerField field item).2) position
                    (signersContainer p)) p).

(** [clearSignerError(input)], the [input] listener. *)
Definition clearSignerError (position : nat) (field : SignerField)
  : State Page unit :=
  modify (λ p, set_signersContainer
                 (alter (λ item,
                     set_signer_input field
                       (Input.mk (Input.value (signer_input field item)) false)
                       item) position
                    (signersContainer p)) p).

(** The user types [value] into a field. *)
Definition typeSignerField (position : nat) (field : SignerField)
    (value : string) : State Page unit :=
  modify (λ p, set_signersContainer
                 (alter (λ item,
                     set_signer_input field
                       (Input.mk value (Input.field_error (signer_input field item)))
                       item) position
                    (signersContainer p)) p);;
  clearSignerError position field.

(** The [change] listener of [#enableDocumentAssignment]. *)
Definition setEnableDocumentAssignment (checked : bool) : State Page unit :=
  modify (set_enableDocumentAssignment checked);;
  if checked then updateDocumentAssignmentMatrix else mret tt.

(** The user ticks or clears a box of the matrix or the sequential option. *)
Definition setAssignmentCheckbox (position : nat) (checked : bool)
  : State Page unit :=
  modify (λ p, set_assignmentMatrix
                 (alter (λ box, Checkbox.mk (Checkbox.signer box)
                                  (Checkbox.file box) checked) position
                    (assignmentMatrix p)) p).

Definition setSequentialSigning (checked : bool) : State Page unit :=
  modify (set_sequentialSigning checked).

(** The loop of [getFormData] over the inputs named [assignment[...]]: a
    checked box appends its file id to the list kept under its signer
    position. *)
Definition collectAssignment (documentAssignments : gmap nat (list string))
    (input : Checkbox.t) : gmap nat (list string) :=
  if Checkbox.checked input then
    <[Checkbox.signer input :=
        default [] (documentAssignments !! Checkbox.signer input)
        ++ [Checkbox.file input]]> documentAssignments
  else documentAssignments.

Definition getFormData : State Page FormData.t :=
  p ← get;
  let signers :=
    imap (λ index signer,
            Signer.mk
              (JsString.trim (Input.value (SignerItem.name_input signer)))
              (JsString.trim (Input.value (SignerItem.email_input signer)))
              (Input.value (SignerItem.role_select signer))
              index)
         (signersContainer p) in
  let sequentialSigning := sequentialSigning p in
  let enableDocumentAssignment := enableDocumentAssignment p in
  let documentAssignments :=
    if enableDocumentAssignment
    then foldl collectAssignment ∅ (assignmentMatrix p)
    else ∅ in
  mret (FormData.mk (selectedFiles p) signers sequentialSigning
          (if enableDocumentAssignment then Some documentAssignments else None)).

(** The two loops of [validateAll] over the rows and their fields. *)
Definition validateSignerItem (item : SignerItem.t) : bool * SignerItem.t :=
  let '(ok1, item1) := validateSignerField NameInput item in
  let '(ok2, item2) := validateSignerField EmailInput item1 in
  let '(ok3, item3) := validateSignerField RoleSelect item2 in
  (ok1 && ok2 && ok3, item3).

Definition validateAll : State Page bool :=
  p ← get;
  isValid ← (if bool_decide (length (selectedFiles p) = 0%nat) then
               Utils.showAlert "Pelo menos um documento deve ser selecionado"
                 Alert.error Utils.default_duration;;
               mret false
             else mret true);
  let validated := validateSignerItem <$> signersContainer p in
  modify (set_signersContainer (snd <$> validated));;
  mret (isValid && forallb fst validated).

End WithEnvironment.

End MultipleItemsManager.

(** ** DigitalSignerApp *)

Module SignerResult.
Inductive status_t : Type := signed | pending.
Record t : Type :=
  mk { name : string;
       email : string;
       role : string;
       (** the instant that [toISOString] renders *)
       signatureDate : Z;
       certificateId : string;
       status : status_t }.
End SignerResult.

Module DocumentResult.
Record document_t : Type :=
  mk_document { id : string;
                originalName : string;
                signedName : string;
                size : float;
                type : string }.
Record t : Type := mk { document : document_t; signers : list SignerResult.t }.
End DocumentResult.

Module SigningOutcome.
Record t : Type :=
  mk { success : bool;
       message : string;
       signingResults : list DocumentResult.t;
       sequentialSigning : bool;
       duration : Z;
       processId : string }.
End SigningOutcome.

(** How a promise settles. *)
Inductive Settled (A : Type) : Type :=
| Resolved (value : A)
| Rejected (error_message : string).
Arguments Resolved {A} value.
Arguments Rejected {A} error_message.

(** How a call completes: normally, or with a thrown error. *)
Inductive completion (A : Type) : Type :=
| Normal (value : A)
| Throw (error : string).
Arguments Normal {A} value.
Arguments Throw {A} error.

(** What [signDocument] reads of its argument [data], and what it resolves
    with. *)
Module SignData.
Record t : Type := mk { signerName : string; docUpload : File.t }.
End SignData.

Module SignedDocument.
Record t : Type :=
  mk { originalName : string;
       signedName : string;
       size : float;
       (** the instant that [toISOString] renders *)
       signatureDate : Z;
       signerName : string;
       certificateId : string }.
End SignedDocument.

Module SingleOutcome.
Record t : Type :=
  mk { success : bool;
       message : string;
       signedDocument : SignedDocument.t;
       duration : Z }.
End SingleOutcome.

Module DigitalSignerApp.

(** A file size as a JavaScript number; exact below 2^53, where the sizes of
    files lie. *)
Definition to_number (n : Z) : float := PrimFloat.of_uint63 (Uint63.of_Z n).

(** [a.filter((x, index) => pred(index, x))] *)
Definition filter_indexed {A} (pred : nat → A → bool) (a : list A) : list A :=
  snd <$> filter (λ ix, pred ix.1 ix.2 = true) (imap pair a).

(** [documentAssignments[index]?.includes(file.id)], read as a condition. *)
Definition assigned (documentAssignments : gmap nat (list string))
    (index : nat) (fileId : string) : bool :=
  match documentAssignments !! index with
  | Some ids => bool_decide (fileId ∈ ids)
  | None => false
  end.

Definition fileSigners (multipleItemsData : FormData.t) (file : FileObj.t)
  : list Signer.t :=
  match FormData.documentAssignments multipleItemsData with
  | Some documentAssignments =>
      filter_indexed
        (λ index _, assigned documentAssignments index (FileObj.id file))
        (FormData.signers multipleItemsData)
  | None => FormData.signers multipleItemsData
  end.

Definition signerResult (multipleItemsData : FormData.t) (signer : Signer.t)
  : State Page SignerResult.t :=
  signatureDate ← Date_now;
  id ← Utils.generateId;
  mret (SignerResult.mk (Signer.name signer) (Signer.email signer)
          (Signer.role signer) signatureDate
          ("CERT-" +:+ JsString.toUpperCase id)
          (if FormData.sequentialSigning multipleItemsData
              && bool_decide (0 < Signer.index signer)%nat
           then SignerResult.pending else SignerResult.signed)).

Definition documentResult (multipleItemsData : FormData.t) (file : FileObj.t)
  : State Page DocumentResult.t :=
  signers ← mapM (signerResult multipleItemsData)
                 (fileSigners multipleItemsData file);
  mret (DocumentResult.mk
          (DocumentResult.mk_document (FileObj.id file) (FileObj.name file)
             ("signed_" +:+ FileObj.name file)
             (to_number (FileObj.size file) * 1.1)%float
             (FileObj.type file))
          signers).

(** [signMultipleDocuments(multipleItemsData)]: the delay passed to
    [setTimeout] and the settlement of the promise.  The timer callback is
    taken to run with no other event in between. *)
Definition signMultipleDocuments (multipleItemsData : FormData.t)
  : State Page (float * Settled SigningOutcome.t) :=
  startTime ← Date_now;
  d ← Math_random;
  let delay := (3000 + Draw.number d * 2000)%float in
  r ← Math_random;
  if (Draw.number r <? 0.05)%float then
    mret (delay, Rejected "Falha na comunicação com o servidor")
  else
    endTime ← Date_now;
    let duration := endTime - startTime in
    signingResults ← mapM (documentResult multipleItemsData)
                          (FormData.files multipleItemsData);
    processId ← Utils.generateId;
    mret (delay,
          Resolved
            (SigningOutcome.mk true
               ("Processo de assinatura iniciado para "
                +:+ pretty (length (FormData.files multipleItemsData))
                +:+ " documento(s) e "
                +:+ pretty (length (FormData.signers multipleItemsData))
                +:+ " signatário(s)")
               signingResults
               (FormData.sequentialSigning multipleItemsData)
               duration
               ("PROC-" +:+ JsString.toUpperCase processId))).

(** [handleFileChange(event)], the listener of the application on the
    [change] event of [#docUpload]; [files] is the file list of the input. *)
Definition handleFileChange (formatFileSize : Z → string) (files : list File.t)
  : State Page unit :=
  match head files with
  | Some file =>
      let fileInfo :=
        MultipleItemsManager.newline
        +:+ "                Arquivo selecionado: "
        +:+ Utils.sanitizeHTML (File.name file) +:+ " "
        +:+ MultipleItemsManager.newline
        +:+ "                (" +:+ formatFileSize (File.size file) +:+ ")"
        +:+ MultipleItemsManager.newline +:+ "            " in
      Utils.showAlert fileInfo Alert.info 3000
  | None => mret tt
  end.

(** [showMultipleSigningResult(result)]: the summary it renders shows the
    start date, for which [new Date()] is read; then comes the notice.  The
    summary itself, whose texts all go through [Utils.sanitizeHTML], is left
    out. *)
Definition showMultipleSigningResult (result : SigningOutcome.t)
  : State Page unit :=
  Date_now;;
  Utils.showAlert "Processo de assinatura iniciado com sucesso!"
    Alert.success Utils.default_duration.

(** [handleSigningError(error)], [error_message] being [error.message]. *)
Definition handleSigningError (error_message : string) : State Page unit :=
  Utils.showAlert ("Erro ao assinar o documento: " +:+ error_message)
    Alert.error 0.

Section WithEnvironment.

Variable window_i18n : option I18nManager.t.

(** [signDocument(formData, data)], the single-document path, which no
    method calls; [formData] is not read.  The answer is the delay passed to
    [setTimeout] and what the timer callback does: it settles the promise, or
    it throws, when [window.i18n] is not set, and the promise then stays
    pending. *)
Definition signDocument (data : SignData.t)
  : State Page (float * completion (Settled SingleOutcome.t)) :=
  startTime ← Date_now;
  d ← Math_random;
  let delay := (2000 + Draw.number d * 1000)%float in
  r ← Math_random;
  if (Draw.number r <? 0.1)%float then
    mret (delay, Normal (Rejected "Falha na comunicação com o servidor"))
  else
    endTime ← Date_now;
    let duration := endTime - startTime in
    match window_i18n with
    | None =>
        mret (delay, Throw "TypeError: Cannot read properties of undefined")
    | Some i18n =>
        let message :=
          I18nManager.getTranslation_params i18n "success-message"
            [("name", SignData.signerName data)] in
        let docUpload := SignData.docUpload data in
        signatureDate ← Date_now;
        id ← Utils.generateId;
        mret (delay,
              Normal
                (Resolved
                   (SingleOutcome.mk true message
                      (SignedDocument.mk (File.name docUpload)
                         ("signed_" +:+ File.name docUpload)
                         (to_number (File.size docUpload) * 1.1)%float
                         signatureDate
                         (SignData.signerName data)
                         ("CERT-" +:+ JsString.toUpperCase id))
                      duration)))
    end.

(** [handleFormSubmit]: [None] when validation stops the submission, the
    settlement of the signing promise otherwise.  The loading indicator that
    [Utils.showLoading] toggles around the signing is left out. *)
Definition handleFormSubmit : State Page (option (Settled SigningOutcome.t)) :=
  Utils.clearAlerts;;
  ok ← MultipleItemsManager.validateAll window_i18n;
  if negb ok then mret None
  else
    multipleItemsData ← MultipleItemsManager.getFormData;
    result ← signMultipleDocuments multipleItemsData;
    match result.2 with
    | Resolved outcome => showMultipleSigningResult outcome
    | Rejected error_message => handleSigningError error_message
    end;;
    mret (Some result.2).

End WithEnvironment.

End DigitalSignerApp.

(** ** FormValidator (js/validation.js) *)

Definition Exec (S A : Type) : Type := S → completion (A * S).

Global Instance Exec_ret {S} : MRet (Exec S) := λ A a s, Normal (a, s).
Global Instance Exec_bind {S} : MBind (Exec S) :=
  λ A B f m s,
    match m s with
    | Normal (a, s') => f a s'
    | Throw e => Throw e
    end.

Definition throw {S A} (e : string) : Exec S A := λ _, Throw e.
Definition lift {S A} (m : State S A) : Exec S A := λ s, Normal (m s).
(** A call that reads the state and leaves it as it is. *)
Definition call {S A} (c : completion A) : Exec S A :=
  λ s, match c with Normal a => Normal (a, s) | Throw e => Throw e end.

(** [a.forEach(f)] and [for (... of a)] when the body may throw. *)
Fixpoint forEachE {S A} (f : A → Exec S unit) (a : list A) : Exec S unit :=
  match a with
  | [] => mret tt
  | x :: a' => f x;; forEachE f a'
  end.

(** A JavaScript [Map] with string keys: the entries in insertion order. *)
Module JsMap.
Definition t (V : Type) : Type := list (string * V).

Fixpoint get {V} (key : string) (m : t V) : option V :=
  match m with
  | [] => None
  | (k, v) :: m' => if decide (k = key) then Some v else get key m'
  end.

Definition has {V} (key : string) (m : t V) : bool :=
  match get key m with Some _ => true | None => false end.

(** [set] keeps the place of a key that is already there. *)
Fixpoint set {V} (key : string) (value : V) (m : t V) : t V :=
  match m with
  | [] => [(key, value)]
  | (k, v) :: m' =>
      if decide (k = key) then (k, value) :: m' else (k, v) :: set key value m'
  end.

Fixpoint delete {V} (key : string) (m : t V) : t V :=
  match m with
  | [] => []
  | (k, v) :: m' =>
      if decide (k = key) then delete key m' else (k, v) :: delete key m'
  end.
End JsMap.

Module FormValidator.

(** The two [validate] closures that [defineValidationRules] installs;
    [addRule] has no other caller. *)
Inductive Validator : Type := validate_docUpload | validate_signerName.

Record Rule : Type :=
  mkRule { required : bool;
           fileSize : option Z;
           fileTypes : option (list string);
           minLength : option nat;
           maxLength : option nat;
           pattern : option JsString.regex;
           validate : Validator }.

(** A field of the form: name, type and value, the file list of a file input
    ([None] for the other inputs), the [aria-invalid] and [aria-describedby]
    attributes and the two classes the validator toggles.  The removal of
    [field-valid] two seconds later is left out. *)
Record Field : Type :=
  mkField { name : string;
            type : string;
            value : string;
            files : option (list File.t);
            aria_invalid : option string;
            aria_describedby : option string;
            field_error : bool;
            field_valid : bool }.

Record t : Type :=
  mk { form : list Field;
       rules : JsMap.t Rule;
       errors : JsMap.t string;
       isValid : bool }.

(** What [getFormData] collects for a field. *)
Inductive Datum : Type :=
| FileDatum (name : string) (size : Z) (type : string)
| TextDatum (value : string).

Definition set_form (v : list Field) (fv : t) : t :=
  mk v (rules fv) (errors fv) (isValid fv).
Definition set_rules (v : JsMap.t Rule) (fv : t) : t :=
  mk (form fv) v (errors fv) (isValid fv).
Definition set_errors (v : JsMap.t string) (fv : t) : t :=
  mk (form fv) (rules fv) v (isValid fv).
Definition set_isValid (v : bool) (fv : t) : t :=
  mk (form fv) (rules fv) (errors fv) v.

(** [/^[a-zA-ZÀ-ÿ\s]{3,100}$/] *)
Definition name_pattern : JsString.regex :=
  JsString.Between 3 100
    (JsString.Class
       (λ c, JsString.in_range 97 122 c || JsString.in_range 65 90 c
             || JsString.in_range 192 255 c || JsString.is_white_space c)).

(** A name for which [[name="..."]] is the plain attribute selector, which
    selects the fields whose name is equal to it: the name holds no double
    quote, which would end the string, no backslash, which starts an escape,
    no line break, which a string cannot hold, and no U+0000, which the
    parser replaces; and it is not empty, a field without a name and a field
    with an empty name being the same in [Field]. *)
Definition plain_unit (c : ascii) : bool :=
  match N_of_ascii c with
  | 0%N | 10%N | 12%N | 13%N | 34%N | 92%N => false
  | _ => true
  end.

Fixpoint plain_units (fieldName : string) : bool :=
  match fieldName with
  | EmptyString => true
  | String c fieldName' => plain_unit c && plain_units fieldName'
  end.

Definition plain_name (fieldName : string) : bool :=
  JsString.truthy fieldName && plain_units fieldName.

Section WithEnvironment.

Variable window_i18n : option I18nManager.t.

(** The selector engine of the browser, read where the selector text is not
    of the plain kind: it throws a [SyntaxError] or answers with the first
    element of the form that the text selects. *)
Variable selector_engine
  : string → list Field → completion (option (nat * Field)).

(** [window.i18n?.getTranslation(key) || fallback] *)
Definition translate_or (key fallback : string) : string :=
  match window_i18n with
  | Some i18n =>
      let translation := I18nManager.getTranslation i18n key in
      if JsString.truthy translation then translation else fallback
  | None => fallback
  end.

Definition docUpload_rule : Rule :=
  mkRule true (Some (10 * 1024 * 1024)) (Some [".pdf"; ".docx"; ".txt"])
    None None None validate_docUpload.

Definition signerName_rule : Rule :=
  mkRule true None None (Some 3%nat) (Some 100%nat) (Some name_pattern)
    validate_signerName.

Definition addRule (fieldName : string) (rule : Rule) : Exec t unit :=
  lift (modify (λ fv, set_rules (JsMap.set fieldName rule (rules fv)) fv)).

Definition defineValidationRules : Exec t unit :=
  addRule "docUpload" docUpload_rule;;
  addRule "signerName" signerName_rule.

(** [new FormValidator(formElement)]; the listeners that the constructor
    installs are [handleBlur] and [handleChange] below. *)
Definition new (formElement : list Field) : completion (unit * t) :=
  defineValidationRules (mk formElement [] [] false).

(** [rule.validate(value, file)]: the message, or [None] for [null].
    [this.rules.get('docUpload').fileSize] throws when the map has no such
    rule, and compares with [undefined] when the rule has no [fileSize]. *)
Definition run_validate (validator : Validator) (value : string)
    (file : option File.t) : Exec t (option string) :=
  match validator with
  | validate_docUpload =>
      match file with
      | None =>
          mret (Some (translate_or "error-file-required"
                        "Por favor, selecione um documento"))
      | Some file =>
          if negb (Utils.isFileTypeAllowed (File.name file)
                     Utils.default_allowedTypes)
          then mret (Some (translate_or "error-file-type"
                             "Formato de arquivo não suportado"))
          else
            fv ← lift get;
            match JsMap.get "docUpload" (rules fv) with
            | None =>
                throw "TypeError: Cannot read properties of undefined"
            | Some rule =>
                if match fileSize rule with
                   | Some limit => limit <? File.size file
                   | None => false
                   end
                then mret (Some (translate_or "error-file-size"
                                   "O arquivo deve ter no máximo 10MB"))
                else mret None
            end
      end
  | validate_signerName =>
      let value := JsString.trim value in
      if negb (JsString.truthy value) then
        mret (Some (translate_or "error-name-required"
                      "Por favor, informe o nome do signatário"))
      else if bool_decide (String.length value < 3)%nat then
        mret (Some (translate_or "error-name-min-length"
                      "O nome deve ter pelo menos 3 caracteres"))
      else if bool_decide (100 < String.length value)%nat then
        mret (Some "O nome deve ter no máximo 100 caracteres")
      else if negb (JsString.test name_pattern value) then
        mret (Some "O nome deve conter apenas letras e espaços")
      else mret None
  end.

(** The methods below take the position of the field in the form. *)
Definition update_field (position : nat) (f : Field → Field) : Exec t unit :=
  lift (modify (λ fv, set_form (alter f position (form fv)) fv)).

Definition clearFieldError (position : nat) (field : Field) : Exec t unit :=
  lift (modify (λ fv, set_errors (JsMap.delete (name field) (errors fv)) fv));;
  update_field position
    (λ f, mkField (name f) (type f) (value f) (files f) None None false
            (field_valid f)).

Definition setFieldError (position : nat) (field : Field) (message : string)
  : Exec t unit :=
  lift (modify (λ fv, set_errors (JsMap.set (name field) message (errors fv)) fv));;
  update_field position
    (λ f, mkField (name f) (type f) (value f) (files f) (Some "true")
            (Some (name field +:+ "-error")) true (field_valid f)).

Definition setFieldValid (position : nat) (field : Field) : Exec t unit :=
  clearFieldError position field;;
  update_field position
    (λ f, mkField (name f) (type f) (value f) (files f) (Some "false")
            (aria_describedby f) (field_error f) true).

(** [validateField(field)] for the field at [position]. *)
Definition validateField (position : nat) (field : Field) : Exec t bool :=
  fv ← lift get;
  match JsMap.get (name field) (rules fv) with
  | None => mret true
  | Some rule =>
      let value := value field in
      let file := match files field with
                  | Some fileList => head fileList
                  | None => None
                  end in
      clearFieldError position field;;
      error ← run_validate (validate rule) value file;
      match error with
      | Some message =>
          if JsString.truthy message then
            setFieldError position field message;; mret false
          else setFieldValid position field;; mret true
      | None => setFieldValid position field;; mret true
      end
  end.

(** [this.form.querySelector(`[name="${fieldName}"]`)]: for a plain name the
    first field of that name, with its position. *)
Definition querySelector (fieldName : string) (fv : t)
  : completion (option (nat * Field)) :=
  if plain_name fieldName
  then Normal (list_find (λ f, name f = fieldName) (form fv))
  else selector_engine
         ("[name=" +:+ MultipleItemsManager.dquote +:+ fieldName
          +:+ MultipleItemsManager.dquote +:+ "]")
         (form fv).

(** The loop of [validateForm] over the rules: the flag so far is threaded
    through. *)
Fixpoint validateForm_loop (entries : list (string * Rule)) (isFormValid : bool)
  : Exec t bool :=
  match entries with
  | [] => mret isFormValid
  | (fieldName, _) :: entries' =>
      fv ← lift get;
      call (querySelector fieldName fv) ≫= λ found : option (nat * Field),
      match found with
      | Some (position, field) =>
          validateField position field ≫= λ isFieldValid : bool,
          validateForm_loop entries' (if isFieldValid then isFormValid else false)
      | None => validateForm_loop entries' isFormValid
      end
  end.

Definition validateForm : Exec t bool :=
  lift (modify (set_errors []));;
  fv ← lift get;
  isFormValid ← validateForm_loop (rules fv) true;
  lift (modify (set_isValid isFormValid));;
  mret isFormValid.

(** The loop of [getFormData] over the rules. *)
Fixpoint getFormData_loop (entries : list (string * Rule)) (fv : t)
    (data : JsMap.t Datum) : completion (JsMap.t Datum) :=
  match entries with
  | [] => Normal data
  | (fieldName, _) :: entries' =>
      match querySelector fieldName fv with
      | Throw e => Throw e
      | Normal (Some (_, field)) =>
          if bool_decide (type field = "file") then
            match files field with
            | None => Throw "TypeError: Cannot read properties of null"
            | Some fileList =>
                match head fileList with
                | Some file =>
                    getFormData_loop entries' fv
                      (JsMap.set fieldName
                         (FileDatum (File.name file) (File.size file)
                            (File.type file)) data)
                | None => getFormData_loop entries' fv data
                end
            end
          else
            getFormData_loop entries' fv
              (JsMap.set fieldName (TextDatum (JsString.trim (value field))) data)
      | Normal None => getFormData_loop entries' fv data
      end
  end.

(** [getFormData()]: the object [data]; the [FormData] object built next to
    it holds the same entries. *)
Definition getFormData : Exec t (JsMap.t Datum) :=
  fv ← lift get;
  if negb (isValid fv) then throw "Form is not valid"
  else λ s, match getFormData_loop (rules fv) fv [] with
            | Normal data => Normal (data, s)
            | Throw e => Throw e
            end.

Definition getErrors : Exec t (list (string * string)) :=
  fv ← lift get; mret (errors fv).

Definition hasErrors : Exec t bool :=
  fv ← lift get; mret (bool_decide (0 < length (errors fv))%nat).

Definition reset : Exec t unit :=
  lift (modify (set_errors []));;
  lift (modify (set_isValid false));;
  fv ← lift get;
  forEachE (λ entry : string * Rule,
              fv' ← lift get;
              found ← call (querySelector entry.1 fv');
              match found with
              | Some (position, field) => clearFieldError position field
              | None => mret tt
              end)
           (rules fv).

(** [handleBlur(event)] and [handleChange(event)], the target being the field
    at [position]; a position outside the form has no such event. *)
Definition handleBlur (position : nat) : Exec t unit :=
  fv ← lift get;
  match form fv !! position with
  | Some field =>
      if JsMap.has (name field) (rules fv)
      then validateField position field;; mret tt
      else mret tt
  | None => mret tt
  end.

Definition handleChange (position : nat) : Exec t unit :=
  fv ← lift get;
  match form fv !! position with
  | Some field =>
      if bool_decide (type field = "file") && JsMap.has (name field) (rules fv)
      then validateField position field;; mret tt
      else mret tt
  | None => mret tt
  end.

(** The user edits a field: a new value, or a new choice of files. *)
Definition setValue (position : nat) (v : string) : Exec t unit :=
  update_field position
    (λ f, mkField (name f) (type f) v (files f) (aria_invalid f)
            (aria_describedby f) (field_error f) (field_valid f)).

Definition setFiles (position : nat) (fileList : list File.t) : Exec t unit :=
  update_field position
    (λ f, mkField (name f) (type f) (value f)
            (match files f with Some _ => Some fileList | None => None end)
            (aria_invalid f) (aria_describedby f) (field_error f)
            (field_valid f)).

End WithEnvironment.

End FormValidator.

(** ** The start of the application *)

(** [DigitalSignerApp.init()] and the two checks it begins with. *)
Module DigitalSignerAppInit.

(** The globals [Utils.checkBrowserSupport] looks at, each one read for its
    truth value. *)
Record Window : Type :=
  mkWindow { window_File : bool;
             window_FileReader : bool;
             window_FileList : bool;
             window_Blob : bool;
             window_localStorage : bool;
             window_sessionStorage : bool;
             window_addEventListener : bool;
             document_querySelector : bool;
             window_fetch : bool }.

(** [Utils.checkBrowserSupport()]: the object it returns, key by key. *)
Definition Utils_checkBrowserSupport (w : Window) : JsMap.t bool :=
  [("fileAPI",
    window_File w && window_FileReader w && window_FileList w && window_Blob w);
   ("localStorage", window_localStorage w);
   ("sessionStorage", window_sessionStorage w);
   ("addEventListener", window_addEventListener w);
   ("querySelector", document_querySelector w);
   ("fetch", window_fetch w)].

(** [a.join(sep)] *)
Fixpoint join (sep : string) (a : list string) : string :=
  match a with
  | [] => ""
  | x :: a' =>
      match a' with
      | [] => x
      | _ => x +:+ sep +:+ join sep a'
      end
  end.

(** The loop of [waitForDependencies()].  [i18n_loaded n] tells whether
    [window.i18n] is set when the condition is evaluated after [n] waits of
    100 ms; [remaining] is 50 minus [attempts].  The answer is the value of
    [attempts] when the loop ends. *)
Fixpoint poll (i18n_loaded : nat → bool) (attempts remaining : nat) : nat :=
  match remaining with
  | O => attempts
  | S remaining' =>
      if negb (i18n_loaded attempts)
      then poll i18n_loaded (S attempts) remaining'
      else attempts
  end.

(** [waitForDependencies()]: the number of waits, or the error thrown. *)
Definition waitForDependencies (i18n_loaded : nat → bool) : completion nat :=
  let attempts := poll i18n_loaded 0 50 in
  if negb (i18n_loaded attempts)
  then Throw "i18n dependency failed to load"
  else Normal attempts.

(** [checkBrowserSupport()]: the answer tells whether the call threw. *)
Definition checkBrowserSupport (w : Window) : State Page (completion unit) :=
  let support := Utils_checkBrowserSupport w in
  let requiredFeatures :=
    ["fileAPI"; "localStorage"; "addEventListener"; "querySelector"] in
  let unsupportedFeatures :=
    filter (λ feature, default false (JsMap.get feature support) = false)
      requiredFeatures in
  if bool_decide (0 < length unsupportedFeatures)%nat then
    Utils.showAlert
      ("Seu navegador não suporta as seguintes funcionalidades necessárias: "
       +:+ join ", " unsupportedFeatures)
      Alert.error 0;;
    mret (Throw ("Unsupported browser features: " +:+ join ", " unsupportedFeatures))
  else mret (Normal tt).

Definition newline : string := String (ascii_of_nat 10) EmptyString.

(** [handleCriticalError(error)], [error_message] being [error.message]. *)
Definition handleCriticalError (error_message : string) : State Page unit :=
  Utils.showAlert
    (newline
     +:+ "            Ocorreu um erro crítico na aplicação. Por favor, recarregue a página."
     +:+ newline
     +:+ "            Se o problema persistir, entre em contato com o suporte técnico."
     +:+ newline +:+ "            " +:+ newline
     +:+ "            Erro: " +:+ error_message +:+ newline +:+ "        ")
    Alert.error 0.

(** [init()]: the two checks, then the managers and the listeners, which
    leave the page as it is but for the file collection that
    [new MultipleItemsManager()] starts empty, and the event that is tracked
    at the end, for whose time stamp [new Date()] is read; an error thrown on
    the way goes to [handleCriticalError]. *)
Definition init (i18n_loaded : nat → bool) (w : Window) : State Page unit :=
  match waitForDependencies i18n_loaded with
  | Throw error => handleCriticalError error
  | Normal _ =>
      supported ← checkBrowserSupport w;
      match supported with
      | Throw error => handleCriticalError error
      | Normal _ => modify (set_selectedFiles []);; Date_now;; mret tt
      end
  end.

End DigitalSignerAppInit.

(** * Vocabulary of the properties *)

(** ** File names *)

(** No occurrence of the separator. *)
Fixpoint free_of (sep : ascii) (s : string) : bool :=
  match s with
  | EmptyString => true
  | String c s' => negb (bool_decide (c = sep)) && free_of sep s'
  end.

(** The text after the last dot of a file name: a dot-free [ext] that is
    the whole name, or what follows a dot of the name. *)
Definition text_after_last_dot (fileName ext : string) : Prop :=
  free_of "." ext = true
  ∧ (fileName = ext ∨ ∃ pre, fileName = pre +:+ String "." ext).

(** ** User events on the page *)

(** The events of the user on the initialised page.  Selecting files fires
    the [change] event of [#docUpload], on which the listener of the manager
    and then the one of the application run; the listener of the form
    validator, which the event reaches next, acts on the validator and is
    among the events of [ValidatorEvent]. *)
Inductive Event : Type :=
| SelectFiles (files : list File.t)
| RemoveFile (fileId : string)
| ClearAllFiles
| AddSigner
| RemoveSigner (position : nat)
| TypeSignerField (position : nat) (field : MultipleItemsManager.SignerField)
    (value : string)
| BlurSignerField (position : nat) (field : MultipleItemsManager.SignerField)
| SetEnableDocumentAssignment (checked : bool)
| SetAssignmentCheckbox (position : nat) (checked : bool)
| SetSequentialSigning (checked : bool)
| Submit.

Section Events.

Variable formatFileSize : Z → string.
Variable window_i18n : option I18nManager.t.

Definition handle (e : Event) : State Page unit :=
  match e with
  | SelectFiles files =>
      MultipleItemsManager.selectFiles formatFileSize files;;
      DigitalSignerApp.handleFileChange formatFileSize files
  | RemoveFile fileId => MultipleItemsManager.removeFile fileId
  | ClearAllFiles => MultipleItemsManager.clearAllFiles
  | AddSigner => MultipleItemsManager.addSigner
  | RemoveSigner position => MultipleItemsManager.removeSigner position
  | TypeSignerField position field value =>
      MultipleItemsManager.typeSignerField position field value
  | BlurSignerField position field =>
      MultipleItemsManager.blurSignerField window_i18n position field
  | SetEnableDocumentAssignment checked =>
      MultipleItemsManager.setEnableDocumentAssignment checked
  | SetAssignmentCheckbox position checked =>
      MultipleItemsManager.setAssignmentCheckbox position checked
  | SetSequentialSigning checked =>
      MultipleItemsManager.setSequentialSigning checked
  | Submit => DigitalSignerApp.handleFormSubmit window_i18n;; mret tt
  end.

Definition run (events : list Event) : State Page unit := forEach handle events.

End Events.

(** The page once the application is initialised: no file is selected and
    the markup holds the first signer row. *)
Definition initial_page (random_source : nat → Draw.t) (clock_source : nat → Z)
    (html_inputs : string → list Checkbox.t) : Page :=
  mkPage [] [] [SignerItem.blank 0] false false [] [] random_source 0
    clock_source 0 html_inputs.

(** The key on which [validateFile] detects duplicates. *)
Definition file_key (f : FileObj.t) : string * Z := (FileObj.name f, FileObj.size f).

(** The individual size and extension checks of [validateFile], read on a
    record of the collection. *)
Definition passes_checks (f : FileObj.t) : Prop :=
  FileObj.size f ≤ MultipleItemsManager.maxFileSize
  ∧ Utils.isFileTypeAllowed (FileObj.name f) [".pdf"; ".docx"; ".txt"] = true.

Definition capacity_alert : Alert.t :=
  Alert.mk "Máximo de 10 arquivos permitidos" Alert.error 5000.

(** ** Frames and invariants *)

(** Only the counters of the random source and of the clock moved. *)
Definition world_step (p p' : Page) : Prop :=
  ∃ r c, p' = set_clock_calls c (set_random_calls r p).

(** The state of the file collection that [validateFile] maintains. *)
Definition files_ok (l : list FileObj.t) : Prop :=
  (length l ≤ MultipleItemsManager.maxFiles)%nat
  ∧ NoDup (file_key <$> l)
  ∧ Forall passes_checks l.

Definition signers_ok (l : list SignerItem.t) : Prop :=
  (1 ≤ length l ≤ MultipleItemsManager.maxSigners)%nat.

(** ** Notices and positions *)

Definition signer_limit_alert : Alert.t :=
  Alert.mk "Máximo de 10 signatários permitidos" Alert.error 5000.

Definition last_signer_alert : Alert.t :=
  Alert.mk "Pelo menos um signatário é obrigatório" Alert.error 5000.

Definition no_document_alert : Alert.t :=
  Alert.mk "Pelo menos um documento deve ser selecionado" Alert.error 5000.

(** The signer that [getFormData] reads at a new position. *)
Definition at_position (k : nat) (s : Signer.t) : Signer.t :=
  Signer.mk (Signer.name s) (Signer.email s) (Signer.role s) k.

(** The signer that the values of a row make at a position: name and e-mail
    trimmed, the role as it is. *)
Definition signer_of_row (k : nat) (item : SignerItem.t) : Signer.t :=
  Signer.mk (JsString.trim (Input.value (SignerItem.name_input item)))
    (JsString.trim (Input.value (SignerItem.email_input item)))
    (Input.value (SignerItem.role_select item)) k.

(** Where the row at position [k] stands once the row at [position] is
    removed. *)
Definition position_after_removal (position k : nat) : nat :=
  if decide (k < position)%nat then k else (k - 1)%nat.

(** ** The signing simulator *)

(** The status the simulator gives to a signer: a function of the sequential
    flag and of a position. *)
Definition status_rule (sequential : bool) (position : nat)
  : SignerResult.status_t :=
  if sequential && bool_decide (0 < position)%nat
  then SignerResult.pending else SignerResult.signed.

(** The entry written for a signer of the request. *)
Definition signer_entry (data : FormData.t) (signer : Signer.t)
    (sr : SignerResult.t) : Prop :=
  SignerResult.name sr = Signer.name signer
  ∧ SignerResult.email sr = Signer.email signer
  ∧ SignerResult.role sr = Signer.role signer
  ∧ SignerResult.status sr
    = status_rule (FormData.sequentialSigning data) (Signer.index signer).

(** The result written for a file of the request. *)
Definition document_entry (data : FormData.t) (file : FileObj.t)
    (doc : DocumentResult.t) : Prop :=
  DocumentResult.id (DocumentResult.document doc) = FileObj.id file
  ∧ DocumentResult.originalName (DocumentResult.document doc) = FileObj.name file
  ∧ Forall2 (signer_entry data) (DigitalSignerApp.fileSigners data file)
      (DocumentResult.signers doc).

(** The draw that decides between failure and success: the second value
    taken from the random source, the first one setting the delay. *)
Definition failure_draw (q : Page) : float :=
  Draw.number (random_source q (S (random_calls q))).

Definition delay_draw (q : Page) : float :=
  Draw.number (random_source q (random_calls q)).

(** The reading of C1 in which the position is the one inside the signer
    sequence of the document. *)
Definition status_by_document_position (sequential : bool)
    (doc : DocumentResult.t) : Prop :=
  ∀ k sr, DocumentResult.signers doc !! k = Some sr →
          SignerResult.status sr = status_rule sequential k.

(** ** Events on the form validator *)

(** What happens to the validator of a form once the constructor has built
    it: the events its listeners handle, the edits of the user, and the calls
    of [validateForm] and [reset]. *)
Module ValidatorEvent.
Inductive t : Type :=
| Blur (position : nat)
| Change (position : nat)
| SetValue (position : nat) (value : string)
| SetFiles (position : nat) (fileList : list File.t)
| ValidateForm
| Reset.
End ValidatorEvent.

Section ValidatorEvents.

Variable window_i18n : option I18nManager.t.
Variable selector_engine
  : string → list FormValidator.Field
    → completion (option (nat * FormValidator.Field)).

Definition validator_handle (e : ValidatorEvent.t) : Exec FormValidator.t unit :=
  match e with
  | ValidatorEvent.Blur position => FormValidator.handleBlur window_i18n position
  | ValidatorEvent.Change position =>
      FormValidator.handleChange window_i18n position
  | ValidatorEvent.SetValue position value =>
      FormValidator.setValue position value
  | ValidatorEvent.SetFiles position fileList =>
      FormValidator.setFiles position fileList
  | ValidatorEvent.ValidateForm =>
      FormValidator.validateForm window_i18n selector_engine;; mret tt
  | ValidatorEvent.Reset => FormValidator.reset selector_engine
  end.

(** The validator built on a form, after a sequence of events. *)
Definition validator_after (formElement : list FormValidator.Field)
    (events : list ValidatorEvent.t) : completion (unit * FormValidator.t) :=
  match FormValidator.new formElement with
  | Normal (_, fv) => forEachE validator_handle events fv
  | Throw e => Throw e
  end.

End ValidatorEvents.

(** The rule that [validate_docUpload] looks up is there. *)
Definition has_docUpload_rule (fv : FormValidator.t) : Prop :=
  JsMap.has "docUpload" (FormValidator.rules fv) = true.

(** The rules are the two that [defineValidationRules] installs. *)
Definition built_in_rules (fv : FormValidator.t) : Prop :=
  FormValidator.rules fv
  = [("docUpload", FormValidator.docUpload_rule);
     ("signerName", FormValidator.signerName_rule)].

(** An engine that refuses every selector text it is asked about. *)
Definition sample_engine (selector : string) (form : list FormValidator.Field)
  : completion (option (nat * FormValidator.Field)) :=
  Throw "SyntaxError".

(** A rule name with a double quote in the middle: the selector made of it
    ends its string at the quote and goes on with a word and an open string,
    which no engine accepts. *)
Definition quoted_name : string := "a" +:+ MultipleItemsManager.dquote +:+ "b".

(** The data of a completed call, without the state. *)
Definition completed {A S} (c : completion (A * S)) : completion A :=
  match c with Normal (a, _) => Normal a | Throw e => Throw e end.

(** ** The language of a pattern and the shapes of values *)

(** The strings a pattern matches from end to end. *)
Inductive matches : JsString.regex → string → Prop :=
| matches_Eps : matches JsString.Eps ""
| matches_Class p c : p c = true → matches (JsString.Class p) (String c "")
| matches_Cat r1 r2 s1 s2 :
    matches r1 s1 → matches r2 s2 → matches (JsString.Cat r1 r2) (s1 +:+ s2)
| matches_Alt_l r1 r2 s : matches r1 s → matches (JsString.Alt r1 r2) s
| matches_Alt_r r1 r2 s : matches r2 s → matches (JsString.Alt r1 r2) s
| matches_Star_nil r : matches (JsString.Star r) ""
| matches_Star_cons r s1 s2 :
    matches r s1 → matches (JsString.Star r) s2 →
    matches (JsString.Star r) (s1 +:+ s2).

(** Every code unit of the string is in the class. *)
Fixpoint all_units (p : ascii → bool) (s : string) : bool :=
  match s with
  | EmptyString => true
  | String c s' => p c && all_units p s'
  end.

(** The class [[^\s@]]. *)
Definition not_space_at (c : ascii) : bool :=
  negb (JsString.is_white_space c) && negb (bool_decide (c = "@"%char)).

(** A non-empty run of code units that are neither white space nor [@]. *)
Definition email_part (s : string) : Prop :=
  s ≠ "" ∧ all_units not_space_at s = true.

(** Three such runs, the second after an [@] and the third after a dot. *)
Definition email_shape (v : string) : Prop :=
  ∃ a b c, v = a +:+ "@" +:+ b +:+ "." +:+ c
           ∧ email_part a ∧ email_part b ∧ email_part c.

(** The class [[a-zA-ZÀ-ÿ\s]]. *)
Definition name_unit (c : ascii) : bool :=
  JsString.in_range 97 122 c || JsString.in_range 65 90 c
  || JsString.in_range 192 255 c || JsString.is_white_space c.

(** A signer row that [validateAll] lets through: a name of three code units
    or more once trimmed, an e-mail of the shape above, a role. *)
Definition row_complete (item : SignerItem.t) : Prop :=
  (3 ≤ String.length (JsString.trim (Input.value (SignerItem.name_input item))))%nat
  ∧ email_shape (Input.value (SignerItem.email_input item))
  ∧ Input.value (SignerItem.role_select item) ≠ "".

(** The record [addFile] builds copies the name, size and type of its file. *)
Definition copies_file (f : FileObj.t) : Prop :=
  FileObj.name f = File.name (FileObj.file f)
  ∧ FileObj.size f = File.size (FileObj.file f)
  ∧ FileObj.type f = File.type (FileObj.file f).

(** ** The assignment matrix *)

(** The files of the ticked boxes of a signer position, in document order. *)
Definition ticked_files (matrix : list Checkbox.t) (k : nat) : list string :=
  Checkbox.file
  <$> filter (λ box, Checkbox.checked box = true ∧ Checkbox.signer box = k) matrix.

(** The events that go through and end in a call of
    [updateDocumentAssignmentMatrix]. *)
Definition renders_matrix (e : Event) (p : Page) : Prop :=
  match e with
  | SelectFiles files =>
      (length (selectedFiles p) + length files ≤ MultipleItemsManager.maxFiles)%nat
  | RemoveFile fileId => ∃ f, f ∈ selectedFiles p ∧ FileObj.id f = fileId
  | ClearAllFiles => True
  | AddSigner => (length (signersContainer p) < MultipleItemsManager.maxSigners)%nat
  | RemoveSigner _ => (1 < length (signersContainer p))%nat
  | SetEnableDocumentAssignment checked => checked = true
  | _ => False
  end.

(** The boxes [updateDocumentAssignmentMatrix] renders for the rows and the
    files: one ticked box per signer position and file, row by row. *)
Definition rendered_matrix (signers : list SignerItem.t) (files : list FileObj.t)
  : list Checkbox.t :=
  mjoin (imap (λ signerIndex _,
                 (λ file, Checkbox.mk signerIndex (FileObj.id file) true) <$> files)
              signers).

(** No file of the list has a double quote in its name: the [title]
    attributes of the boxes hold the names whole. *)
Definition titles_safe (files : list FileObj.t) : Prop :=
  Forall (λ file, MultipleItemsManager.title_safe (FileObj.name file) = true)
    files.

(** The files that an event brings have no double quote in their names. *)
Definition event_titles_safe (e : Event) : Prop :=
  match e with
  | SelectFiles files =>
      Forall (λ file, MultipleItemsManager.title_safe (File.name file) = true)
        files
  | _ => True
  end.

(** The files of the boxes of a signer position, ticked or not, in document
    order. *)
Definition row_files (matrix : list Checkbox.t) (k : nat) : list string :=
  Checkbox.file <$> filter (λ box, Checkbox.signer box = k) matrix.

(** The matrix holds one box per signer row and selected file, row by row,
    and no other box. *)
Definition matrix_in_step (p : Page) : Prop :=
  ∀ k, row_files (assignmentMatrix p) k
       = if decide (k < length (signersContainer p))%nat
         then FileObj.id <$> selectedFiles p else [].

(** ** Sample runs *)

Definition sample_formatFileSize (bytes : Z) : string := "10 MB".

(** Four draws with the text [toString(36)] gives for them. *)
Definition sample_random (n : nat) : Draw.t :=
  match n with
  | 0%nat => Draw.mk 0.5 "0.i"
  | 1%nat => Draw.mk 0.25 "0.9"
  | 2%nat => Draw.mk 0.75 "0.r"
  | _ => Draw.mk 0.125 "0.4i"
  end.

Definition sample_clock (n : nat) : Z := 1700000000000 + 4000 * Z.of_nat n.

(** A parser that finds no input in a markup text. *)
Definition sample_parser (markup : string) : list Checkbox.t := [].

Definition sample_page : Page :=
  initial_page sample_random sample_clock sample_parser.

Definition contract_pdf : File.t := File.mk "contract.pdf" 2097152 "application/pdf".
Definition notes_txt : File.t := File.mk "notes.TXT" 1024 "text/plain".
Definition eleven_files : list File.t := replicate 11 contract_pdf.

Definition fill_signer (position : nat) (name email role : string) : list Event :=
  [TypeSignerField position MultipleItemsManager.NameInput name;
   TypeSignerField position MultipleItemsManager.EmailInput email;
   TypeSignerField position MultipleItemsManager.RoleSelect role].

(** Two files and two signers, sequential signing, assignment mode off. *)
Definition two_by_two_page : Page :=
  (run sample_formatFileSize None
     ([SelectFiles [contract_pdf; notes_txt]]
      ++ fill_signer 0 "Ana Silva" "ana@example.com" "assinante"
      ++ [AddSigner]
      ++ fill_signer 1 "Bruno Costa" "bruno@example.com" "testemunha"
      ++ [SetEnableDocumentAssignment true; SetAssignmentCheckbox 0 false;
          SetEnableDocumentAssignment false; SetSequentialSigning true])
     sample_page).2.

(** One file and two signers, sequential signing, the first signer unticked
    for the file in the assignment matrix. *)
Definition filtered_page : Page :=
  (run sample_formatFileSize None
     ([SelectFiles [contract_pdf]]
      ++ fill_signer 0 "Ana Silva" "ana@example.com" "assinante"
      ++ [AddSigner]
      ++ fill_signer 1 "Bruno Costa" "bruno@example.com" "testemunha"
      ++ [SetEnableDocumentAssignment true; SetAssignmentCheckbox 0 false;
          SetSequentialSigning true])
     sample_page).2.

(** No file, one signer whose three fields are valid. *)
Definition no_file_page : Page :=
  (run sample_formatFileSize None
     (fill_signer 0 "Ana Silva" "ana@example.com" "assinante") sample_page).2.

(** A form with the file input, which has a rule, and a signer name input. *)
Definition sample_form : list FormValidator.Field :=
  [FormValidator.mkField "docUpload" "file" "" (Some [contract_pdf]) None None
     false false;
   FormValidator.mkField "signerName[]" "text" "Ana Silva" None None None
     false false].



(** One file of 2 MB and one signer, parallel signing. *)
Definition one_by_one_page : Page :=
  (run sample_formatFileSize None
     ([SelectFiles [contract_pdf]]
      ++ fill_signer 0 "Ana Silva" "ana@example.com" "assinante")
     sample_page).2.

(** The same with a name of two characters. *)
Definition short_name_page : Page :=
  (run sample_formatFileSize None
     [TypeSignerField 0 MultipleItemsManager.NameInput "Al"] one_by_one_page).2.

(** A random source whose third draw is below the failure threshold. *)
Definition failing_random (n : nat) : Draw.t :=
  match n with
  | 2%nat => Draw.mk 0.03125 "0.14i"
  | _ => sample_random n
  end.

Definition failing_page : Page :=
  (run sample_formatFileSize None
     ([SelectFiles [contract_pdf]]
      ++ fill_signer 0 "Ana Silva" "ana@example.com" "assinante")
     (initial_page failing_random sample_clock sample_parser)).2.

(** The entries of an outcome, by document name. *)
Definition summary (settled : Settled SigningOutcome.t)
  : option (list (string * list (string * SignerResult.status_t))) :=
  match settled with
  | Resolved outcome =>
      Some ((λ doc,
               (DocumentResult.originalName (DocumentResult.document doc),
                (λ sr, (SignerResult.name sr, SignerResult.status sr))
                  <$> DocumentResult.signers doc))
              <$> SigningOutcome.signingResults outcome)
  | Rejected _ => None
  end.


(** One file and one complete signer row, assignment mode on and the only
    box of the matrix unticked. *)
Definition unticked_page : Page :=
  (run sample_formatFileSize None
     [SetEnableDocumentAssignment true; SetAssignmentCheckbox 0 false]
     one_by_one_page).2.

(** A file whose name ends the [title] attribute of its box and goes on
    with an input of its own, and a parser that answers with the box of the
    template and that input. *)
Definition crafted_pdf : File.t :=
  File.mk ("a" +:+ MultipleItemsManager.dquote
           +:+ "><input name=assignment[7][x] checked>.pdf")
    1024 "application/pdf".

Definition crafted_parser (markup : string) : list Checkbox.t :=
  [Checkbox.mk 0 "id-i" true; Checkbox.mk 7 "x" true].

Definition crafted_page : Page :=
  (run sample_formatFileSize None
     [SelectFiles [crafted_pdf]; SetEnableDocumentAssignment true]
     (initial_page sample_random sample_clock crafted_parser)).2.

(** The record [addFile] builds for the first file of the sample runs. *)
Definition contract_record : FileObj.t :=
  FileObj.mk "id-i" contract_pdf "contract.pdf" 2097152 "application/pdf".

(** The largest binary64 number below 1. *)
Definition below_one : float := Eval cbv in PrimFloat.next_down 1.

(** A random source whose first draw is that number; the text beside it is
    not read, the first draw only sets the delay of the timer. *)
Definition largest_random (n : nat) : Draw.t :=
  match n with
  | 0%nat => Draw.mk below_one "0.zzzzzzzzzzl"
  | _ => sample_random n
  end.

Definition largest_draw_page : Page :=
  initial_page largest_random sample_clock sample_parser.

(** The data of a single document and its signer. *)
Definition sample_sign_data : SignData.t := SignData.mk "Ana Silva" contract_pdf.

(** The manager after its start in a browser set to Portuguese. *)
Definition sample_i18n : I18nManager.t :=
  I18nManager.manager (I18nManager.startup (Some "pt-BR") None).

(** * Properties *)

(** Unfolds the monad of the page in the goal and in the hypotheses. *)
Ltac run_state :=
  unfold mbind, State_bind, mret, State_ret, modify, get, when in *; simpl in *.

Lemma bind_run {A B} (m : State Page A) (f : A → State Page B) (p : Page) :
  (m ≫= f) p = f (m p).1 (m p).2.
Proof. unfold mbind, State_bind. by destruct (m p). Qed.

(** ** File names and the type check *)

Module FileTypeFacts.
Import JsString.

Lemma app_nil (s : string) : "" +:+ s = s.
Proof. reflexivity. Qed.

Lemma app_cons (c : ascii) (s1 s2 : string) :
  String c s1 +:+ s2 = String c (s1 +:+ s2).
Proof. reflexivity. Qed.

Lemma split_not_nil (sep : ascii) (s : string) : split sep s ≠ [].
Proof.
  destruct s as [|c s]; simpl; [done|].
  case_decide; [done|]. by destruct (split sep s).
Qed.

Lemma split_free_of (sep : ascii) (s : string) :
  free_of sep s = true → split sep s = [s].
Proof.
  induction s as [|c s IH]; simpl; [done|].
  intros [Hc Hs]%andb_prop. apply negb_true_iff, bool_decide_eq_false in Hc.
  rewrite decide_False by done. by rewrite IH.
Qed.

(** Splitting around an occurrence of the separator: the segments of the
    part after it come last. *)
Lemma split_app (sep : ascii) (pre rest : string) :
  ∃ seg segs, split sep (pre +:+ String sep rest) = (seg :: segs) ++ split sep rest.
Proof.
  induction pre as [|c pre (seg & segs & IH)].
  - exists "", []. rewrite app_nil. simpl. by rewrite decide_True.
  - rewrite app_cons. simpl. rewrite IH. case_decide.
    + by exists "", (seg :: segs).
    + by exists (String c seg), segs.
Qed.

Lemma last_app_not_nil {A} (l1 l2 : list A) : l2 ≠ [] → last (l1 ++ l2) = last l2.
Proof.
  intros H. destruct l2 as [|x l2 _] using rev_ind; [done|].
  by rewrite app_assoc, !last_snoc.
Qed.

Lemma pop_split_app (pre ext : string) :
  pop (split "." (pre +:+ String "." ext)) = pop (split "." ext).
Proof.
  destruct (split_app "." pre ext) as (seg & segs & ->).
  unfold pop. apply last_app_not_nil, split_not_nil.
Qed.

Lemma pop_split_sound (fileName ext : string) :
  text_after_last_dot fileName ext → pop (split "." fileName) = Some ext.
Proof.
  intros [Hfree [-> | [pre ->]]].
  - by rewrite split_free_of.
  - rewrite pop_split_app. by rewrite split_free_of.
Qed.

Lemma pop_split_complete (fileName : string) :
  ∃ ext, pop (split "." fileName) = Some ext ∧ text_after_last_dot fileName ext.
Proof.
  induction fileName as [|c s (ext & Hpop & Hfree & Hs)].
  - exists "". repeat split; auto.
  - simpl. case_decide as Hc.
    + subst c. exists ext. split.
      * unfold pop in *. destruct (split "." s) eqn:E; [done|]. by rewrite <- Hpop.
      * split; [done|]. right. destruct Hs as [-> | [pre ->]].
        -- by exists "".
        -- by exists (String "." pre).
    + destruct Hs as [-> | [pre ->]].
      * rewrite split_free_of by done. exists (String c ext). split; [done|].
        split; [|by left]. simpl. rewrite Hfree. by rewrite bool_decide_eq_false_2.
      * exists ext. split.
        -- destruct (split_app "." pre ext) as (seg & segs & E).
           rewrite E in Hpop |- *. simpl.
           unfold pop in *. rewrite last_app_not_nil in Hpop by apply split_not_nil.
           change (String c seg :: segs ++ split "." ext)
             with ((String c seg :: segs) ++ split "." ext).
           by rewrite last_app_not_nil by apply split_not_nil.
        -- split; [done|]. right. by exists (String c pre).
Qed.

(** Lower-casing neither makes nor removes a dot, so it commutes with
    splitting. *)
Lemma lower_unit_dot (c : ascii) : lower_unit c = "."%char → c = "."%char.
Proof.
  destruct c as [[] [] [] [] [] [] [] []]; vm_compute; intros H;
    first [reflexivity | discriminate H].
Qed.

Lemma split_toLowerCase (s : string) :
  split "." (toLowerCase s) = toLowerCase <$> split "." s.
Proof.
  induction s as [|c s IH]; simpl; [done|].
  destruct (decide (c = "."%char)) as [->|Hc].
  - simpl. by rewrite IH.
  - rewrite decide_False by (intros H; by apply Hc, lower_unit_dot).
    rewrite IH. by destruct (split "." s).
Qed.

Lemma isFileTypeAllowed_lower (fileName : string) (allowedTypes : list string) :
  Utils.isFileTypeAllowed fileName allowedTypes
  = bool_decide ("." +:+ default "" (pop (split "." (toLowerCase fileName)))
                 ∈ allowedTypes).
Proof.
  unfold Utils.isFileTypeAllowed, pop. rewrite split_toLowerCase, fmap_last.
  by destruct (last (split "." fileName)).
Qed.

End FileTypeFacts.

(** C8: the type check accepts a file name exactly when the lower-cased text
    after its last dot (the whole name when it has no dot), prefixed with a
    dot, is one of .pdf, .docx, .txt.  The comparison ignores case: two names
    with the same lower-case form get the same answer, so A.PDF and b.Txt
    pass. *)
Theorem isFileTypeAllowed_case_insensitive :
  (∀ fileName : string,
     Utils.isFileTypeAllowed fileName Utils.default_allowedTypes = true
     ↔ ∃ ext, text_after_last_dot fileName ext
              ∧ "." +:+ JsString.toLowerCase ext ∈ [".pdf"; ".docx"; ".txt"])
  ∧ (∀ fileName fileName' : string,
       JsString.toLowerCase fileName = JsString.toLowerCase fileName' →
       Utils.isFileTypeAllowed fileName Utils.default_allowedTypes
       = Utils.isFileTypeAllowed fileName' Utils.default_allowedTypes)
  ∧ Utils.isFileTypeAllowed "A.PDF" Utils.default_allowedTypes = true
  ∧ Utils.isFileTypeAllowed "b.Txt" Utils.default_allowedTypes = true.
Proof.
  split; [|split; [|by split]].
  - intros fileName. unfold Utils.isFileTypeAllowed, Utils.default_allowedTypes.
    rewrite bool_decide_eq_true.
    destruct (FileTypeFacts.pop_split_complete fileName) as (ext & Hpop & Hext).
    rewrite Hpop. simpl. split.
    + intros H. by exists ext.
    + intros (ext' & Hext' & H).
      apply FileTypeFacts.pop_split_sound in Hext'. congruence.
  - intros fileName fileName' Hlower.
    by rewrite !FileTypeFacts.isFileTypeAllowed_lower, Hlower.
Qed.

(** ** The file collection *)

Section FileCollection.

Variable formatFileSize : Z → string.
Variable window_i18n : option I18nManager.t.

Import MultipleItemsManager.

Lemma updateDocumentAssignmentMatrix_spec (p : Page) :
  ∃ matrix, updateDocumentAssignmentMatrix p = (tt, set_assignmentMatrix matrix p).
Proof.
  unfold updateDocumentAssignmentMatrix. run_state.
  destruct (enableDocumentAssignment p) eqn:E; simpl.
  - destruct (_ || _); [eauto|]. destruct (forallb _ _); eauto.
  - exists (assignmentMatrix p). by destruct p.
Qed.

(** [Utils.showAlert] reads the clock once and records the call. *)
Lemma showAlert_run (message : string) (type : Alert.level) (duration : Z)
    (p : Page) :
  Utils.showAlert message type duration p
  = (tt, set_alerts (alerts p ++ [Alert.mk message type duration])
           (set_clock_calls (S (clock_calls p)) p)).
Proof. reflexivity. Qed.

(** [handleFileChange] shows at most one notice and touches nothing else. *)
Lemma handleFileChange_frame (files : list File.t) (q : Page) :
  let q' := (DigitalSignerApp.handleFileChange formatFileSize files q).2 in
  selectedFiles q' = selectedFiles q ∧ signersContainer q' = signersContainer q
  ∧ assignmentMatrix q' = assignmentMatrix q
  ∧ enableDocumentAssignment q' = enableDocumentAssignment q
  ∧ sequentialSigning q' = sequentialSigning q ∧ docUpload q' = docUpload q
  ∧ random_calls q' = random_calls q.
Proof.
  unfold DigitalSignerApp.handleFileChange. destruct (head files); [|done].
  cbv zeta. by rewrite showAlert_run.
Qed.

Lemma select_event_frame (files : list File.t) (p : Page) :
  let q := (selectFiles formatFileSize files p).2 in
  let q' := ((selectFiles formatFileSize files;;
              DigitalSignerApp.handleFileChange formatFileSize files) p).2 in
  selectedFiles q' = selectedFiles q ∧ signersContainer q' = signersContainer q
  ∧ assignmentMatrix q' = assignmentMatrix q
  ∧ enableDocumentAssignment q' = enableDocumentAssignment q.
Proof.
  cbv zeta. rewrite bind_run.
  destruct (handleFileChange_frame files (selectFiles formatFileSize files p).2)
    as (? & ? & ? & ? & _).
  done.
Qed.

Lemma validateFile_spec (file : File.t) (p : Page) :
  (validateFile formatFileSize file p = (true, p)
   ∧ File.size file ≤ maxFileSize
   ∧ Utils.isFileTypeAllowed (File.name file) [".pdf"; ".docx"; ".txt"] = true
   ∧ (File.name file, File.size file) ∉ file_key <$> selectedFiles p)
  ∨ ∃ alert, validateFile formatFileSize file p
             = (false, set_alerts (alerts p ++ [alert])
                         (set_clock_calls (S (clock_calls p)) p)).
Proof.
  unfold validateFile, Utils.showAlert, Date_now. run_state.
  destruct (maxFileSize <? File.size file) eqn:Hsize; [right; eauto|].
  destruct (Utils.isFileTypeAllowed _ _) eqn:Htype; simpl; [|right; eauto].
  destruct (existsb _ _) eqn:Hdup; [right; eauto|].
  left. repeat split; [lia|].
  intros (f & Hkey & Hf)%list_elem_of_fmap.
  apply list_elem_of_In in Hf.
  assert (existsb
            (λ existingFile,
               bool_decide (FileObj.name existingFile = File.name file)
               && bool_decide (FileObj.size existingFile = File.size file))
            (selectedFiles p) = true) as Hex; [|congruence].
  apply existsb_exists. exists f. split; [done|].
  unfold file_key in Hkey. injection Hkey as -> ->.
  by rewrite !bool_decide_eq_true_2.
Qed.

Lemma forEach_cons {S A} (f : A → State S unit) (x : A) (l : list A) (s : S) :
  forEach f (x :: l) s = forEach f l (f x s).2.
Proof. simpl. unfold mbind, State_bind. by destruct (f x s) as [[] s']. Qed.

(** One turn of the loop of [handleFileSelection]. *)
Lemma validate_then_add_spec (file : File.t) (p : Page) :
  let p' := ((ok ← validateFile formatFileSize file; when ok (addFile file)) p).2 in
  (∃ alert, p' = set_alerts (alerts p ++ [alert])
                   (set_clock_calls (S (clock_calls p)) p))
  ∨ (∃ id,
       p' = set_selectedFiles
              (selectedFiles p
               ++ [FileObj.mk id file (File.name file) (File.size file)
                     (File.type file)])
              (set_random_calls (S (random_calls p)) p)
       ∧ File.size file ≤ maxFileSize
       ∧ Utils.isFileTypeAllowed (File.name file) [".pdf"; ".docx"; ".txt"] = true
       ∧ (File.name file, File.size file) ∉ file_key <$> selectedFiles p).
Proof.
  unfold mbind, State_bind.
  destruct (validateFile_spec file p) as [(-> & Hsize & Htype & Hkey) | [alert ->]].
  - right. unfold addFile, Utils.generateId, Math_random. run_state. eauto.
  - left. simpl. eauto.
Qed.

(** The loop of [handleFileSelection]: the collection grows by records that
    passed the checks, at most one per candidate, and keeps its keys apart. *)
Lemma handleFileSelection_loop (files : list File.t) (p : Page) :
  let p' := (forEach (λ file, ok ← validateFile formatFileSize file;
                               when ok (addFile file)) files p).2 in
  ∃ added,
    selectedFiles p' = selectedFiles p ++ added
    ∧ (length added ≤ length files)%nat
    ∧ Forall passes_checks added
    ∧ (NoDup (file_key <$> selectedFiles p) → NoDup (file_key <$> selectedFiles p'))
    ∧ signersContainer p' = signersContainer p
    ∧ enableDocumentAssignment p' = enableDocumentAssignment p
    ∧ sequentialSigning p' = sequentialSigning p
    ∧ assignmentMatrix p' = assignmentMatrix p
    ∧ docUpload p' = docUpload p.
Proof.
  revert p. induction files as [|file files IH]; intros p.
  - exists []. simpl. rewrite app_nil_r. repeat split; auto.
  - cbv zeta. rewrite forEach_cons.
    destruct (validate_then_add_spec file p)
      as [[alert ->] | (id & -> & Hsize & Htype & Hkey)].
    + destruct (IH (set_alerts (alerts p ++ [alert])
                      (set_clock_calls (S (clock_calls p)) p)))
        as (added & -> & Hlen & Hall & Hnd & -> & -> & -> & -> & ->).
      exists added. simpl. repeat split; auto.
    + match goal with |- context [forEach _ files ?q] =>
        destruct (IH q) as (added & -> & Hlen & Hall & Hnd & -> & -> & -> & -> & ->)
      end.
      simpl in *. eexists (_ :: added). rewrite <- app_assoc. simpl.
      split; [reflexivity|]. split; [lia|].
      split; [constructor; [by split|done]|].
      split; [|done].
      intros Hp. rewrite <- app_assoc in Hnd. apply Hnd.
      rewrite fmap_app. simpl. apply NoDup_app. split; [done|].
      split; [|apply NoDup_singleton].
      intros k Hk ->%list_elem_of_singleton. done.
Qed.

(** C4: a batch that would take the collection past ten files is refused
    whole.  One capacity message is emitted, for whose element the clock is
    read once, and nothing else changes: the notices are the earlier ones and
    that message, and no candidate of the batch is appended.  Eleven files
    selected into an empty collection leave it empty. *)
Theorem handleFileSelection_over_capacity (files : list File.t) (p : Page) :
  (maxFiles < length (selectedFiles p) + length files)%nat →
  handleFileSelection formatFileSize files p
  = (tt, set_alerts (alerts p ++ [capacity_alert])
           (set_clock_calls (S (clock_calls p)) p))
  ∧ alerts (handleFileSelection formatFileSize files p).2
    = alerts p ++ [capacity_alert]
  ∧ selectedFiles (handleFileSelection formatFileSize files p).2 = selectedFiles p
  ∧ (selectedFiles p = [] → length files = 11%nat →
     length (selectedFiles (handleFileSelection formatFileSize files p).2) = 0%nat).
Proof.
  intros Hcap.
  assert (handleFileSelection formatFileSize files p
          = (tt, set_alerts (alerts p ++ [capacity_alert])
                   (set_clock_calls (S (clock_calls p)) p))) as ->.
  { unfold handleFileSelection. rewrite bind_run. simpl.
    rewrite bool_decide_eq_true_2 by done. apply showAlert_run. }
  simpl. split; [done|]. split; [done|]. split; [done|]. by intros ->.
Qed.

End FileCollection.

(** ** What the simulator leaves alone *)

Section SimulatorFrame.

Import DigitalSignerApp.

Lemma world_step_refl (p : Page) : world_step p p.
Proof. exists (random_calls p), (clock_calls p). by destruct p. Qed.

Lemma world_step_trans (p1 p2 p3 : Page) :
  world_step p1 p2 → world_step p2 p3 → world_step p1 p3.
Proof. intros (r & c & ->) (r' & c' & ->). by exists r', c'. Qed.

Lemma Math_random_step (p : Page) : world_step p (Math_random p).2.
Proof. unfold Math_random. run_state. exists (S (random_calls p)), (clock_calls p). by destruct p. Qed.

Lemma Date_now_step (p : Page) : world_step p (Date_now p).2.
Proof. unfold Date_now. run_state. exists (random_calls p), (S (clock_calls p)). by destruct p. Qed.

Lemma generateId_step (p : Page) : world_step p (Utils.generateId p).2.
Proof.
  unfold Utils.generateId. unfold mbind, State_bind.
  pose proof (Math_random_step p). by destruct (Math_random p).
Qed.

Lemma bind_step {A B} (m : State Page A) (f : A → State Page B) (p : Page) :
  world_step p (m p).2 → (∀ a q, world_step q (f a q).2) →
  world_step p ((m ≫= f) p).2.
Proof.
  intros Hm Hf. unfold mbind, State_bind. destruct (m p) as [a q].
  eapply world_step_trans; [exact Hm|apply Hf].
Qed.

Lemma ret_step {A} (a : A) (p : Page) : world_step p ((mret a : State Page A) p).2.
Proof. apply world_step_refl. Qed.

Lemma mapM_step {A B} (f : A → State Page B) (l : list A) (p : Page) :
  (∀ a q, world_step q (f a q).2) → world_step p (mapM f l p).2.
Proof.
  intros Hf. revert p. induction l as [|x l IH]; intros p; simpl.
  - apply world_step_refl.
  - apply bind_step; [apply Hf|]. intros y q.
    apply bind_step; [apply IH|]. intros k q'. apply ret_step.
Qed.

Lemma signerResult_step (data : FormData.t) (signer : Signer.t) (p : Page) :
  world_step p (signerResult data signer p).2.
Proof.
  unfold signerResult. apply bind_step; [apply Date_now_step|]. intros t q.
  apply bind_step; [apply generateId_step|]. intros id q'. apply ret_step.
Qed.

Lemma documentResult_step (data : FormData.t) (file : FileObj.t) (p : Page) :
  world_step p (documentResult data file p).2.
Proof.
  unfold documentResult. apply bind_step.
  - apply mapM_step. intros. apply signerResult_step.
  - intros. apply ret_step.
Qed.

Lemma signMultipleDocuments_step (data : FormData.t) (p : Page) :
  world_step p (signMultipleDocuments data p).2.
Proof.
  unfold signMultipleDocuments.
  apply bind_step; [apply Date_now_step|]. intros t0 q0.
  apply bind_step; [apply Math_random_step|]. intros d q1.
  apply bind_step; [apply Math_random_step|]. intros r q2.
  destruct (_ <? _)%float; [apply ret_step|].
  apply bind_step; [apply Date_now_step|]. intros t1 q3.
  apply bind_step; [apply mapM_step; intros; apply documentResult_step|].
  intros results q4.
  apply bind_step; [apply generateId_step|]. intros id q5. apply ret_step.
Qed.

End SimulatorFrame.

(** ** Invariants of the two collections *)

Section Collections.

Variable formatFileSize : Z → string.
Variable window_i18n : option I18nManager.t.

Import MultipleItemsManager.

Lemma delete_out_of_range {A} (l : list A) (i : nat) :
  (length l ≤ i)%nat → delete i l = l.
Proof.
  revert i. induction l as [|x l IH]; intros [|i] H; simpl in *; try done; [lia|].
  f_equal. apply IH. lia.
Qed.

Lemma matrix_frame (p : Page) :
  selectedFiles (updateDocumentAssignmentMatrix p).2 = selectedFiles p
  ∧ signersContainer (updateDocumentAssignmentMatrix p).2 = signersContainer p
  ∧ alerts (updateDocumentAssignmentMatrix p).2 = alerts p
  ∧ docUpload (updateDocumentAssignmentMatrix p).2 = docUpload p
  ∧ sequentialSigning (updateDocumentAssignmentMatrix p).2 = sequentialSigning p
  ∧ enableDocumentAssignment (updateDocumentAssignmentMatrix p).2
    = enableDocumentAssignment p.
Proof. by destruct (updateDocumentAssignmentMatrix_spec p) as [m ->]. Qed.

Lemma handleFileSelection_spec (files : list File.t) (p : Page) :
  let p' := (handleFileSelection formatFileSize files p).2 in
  signersContainer p' = signersContainer p
  ∧ ((maxFiles < length (selectedFiles p) + length files)%nat
     ∧ selectedFiles p' = selectedFiles p
     ∨ (length (selectedFiles p) + length files ≤ maxFiles)%nat
       ∧ ∃ added,
           selectedFiles p' = selectedFiles p ++ added
           ∧ (length added ≤ length files)%nat
           ∧ Forall passes_checks added
           ∧ (NoDup (file_key <$> selectedFiles p)
              → NoDup (file_key <$> selectedFiles p'))).
Proof.
  unfold handleFileSelection. cbv zeta. rewrite bind_run. simpl.
  case_bool_decide as Hcap.
  - unfold Utils.showAlert. run_state. split; [done|]. left. done.
  - rewrite !bind_run. unfold updateFileDisplay at 1. simpl.
    destruct (handleFileSelection_loop formatFileSize files p)
      as (added & Hsel & Hlen & Hall & Hnd & Hsig & _).
    cbv zeta in *.
    set (q := (forEach _ files p).2) in *.
    destruct (matrix_frame q) as (-> & -> & _).
    split; [done|]. right. split; [lia|]. exists added. done.
Qed.

Lemma sublist_fmap_key (k l : list FileObj.t) :
  k `sublist_of` l → (file_key <$> k) `sublist_of` (file_key <$> l).
Proof. induction 1; simpl; by constructor. Qed.

Lemma sublist_elem_of (k l : list FileObj.t) (f : FileObj.t) :
  k `sublist_of` l → f ∈ k → f ∈ l.
Proof.
  induction 1 as [|x k l _ IH|x k l _ IH]; intros Hf; [done| |].
  - apply elem_of_cons in Hf as [-> | Hf]; [left|right; auto].
  - right; auto.
Qed.

Lemma delete_files_ok (index : nat) (l : list FileObj.t) :
  files_ok l → files_ok (delete index l).
Proof.
  intros (Hlen & Hnd & Hall).
  pose proof (sublist_delete l index) as Hsub.
  split; [|split].
  - apply sublist_length in Hsub. lia.
  - eapply sublist_NoDup; [exact Hnd|]. by apply sublist_fmap_key.
  - rewrite Forall_forall in Hall |- *. intros f Hf. apply Hall.
    by eapply sublist_elem_of.
Qed.

Lemma removeFile_frame (fileId : string) (p : Page) :
  signersContainer (removeFile fileId p).2 = signersContainer p.
Proof.
  unfold removeFile. rewrite bind_run. simpl. destruct (findIndex _ _); [|done].
  rewrite !bind_run. simpl. by destruct (matrix_frame
    (set_selectedFiles (delete n (selectedFiles p)) p)) as (_ & -> & _).
Qed.

Lemma validateAll_frame (p : Page) :
  selectedFiles (validateAll window_i18n p).2 = selectedFiles p
  ∧ length (signersContainer (validateAll window_i18n p).2)
    = length (signersContainer p).
Proof.
  unfold validateAll, Utils.showAlert. run_state.
  destruct (bool_decide _); simpl; by rewrite !length_fmap.
Qed.

Lemma world_step_frame (p p' : Page) :
  world_step p p' →
  selectedFiles p' = selectedFiles p ∧ signersContainer p' = signersContainer p
  ∧ alerts p' = alerts p ∧ docUpload p' = docUpload p
  ∧ sequentialSigning p' = sequentialSigning p
  ∧ enableDocumentAssignment p' = enableDocumentAssignment p
  ∧ assignmentMatrix p' = assignmentMatrix p.
Proof. by intros (r & c & ->). Qed.

Lemma getFormData_pure (p : Page) : (getFormData p).2 = p.
Proof. reflexivity. Qed.

Lemma handleFormSubmit_frame (p : Page) :
  let p' := (DigitalSignerApp.handleFormSubmit window_i18n p).2 in
  selectedFiles p' = selectedFiles p
  ∧ length (signersContainer p') = length (signersContainer p).
Proof.
  unfold DigitalSignerApp.handleFormSubmit. cbv zeta.
  rewrite bind_run. change (Utils.clearAlerts p).2 with (set_alerts [] p).
  cbv beta. set (p0 := set_alerts [] p).
  rewrite bind_run.
  destruct (validateAll_frame p0) as [Hf Hs].
  set (p1 := (validateAll window_i18n p0).2) in *.
  destruct ((validateAll window_i18n p0).1); cbn [negb]; cbv iota;
    [|unfold mret, State_ret; cbn [fst snd]; by rewrite Hf, Hs].
  rewrite bind_run, getFormData_pure.
  set (data := (getFormData p1).1).
  rewrite bind_run.
  pose proof (signMultipleDocuments_step data p1) as Hstep.
  apply world_step_frame in Hstep as (Hf' & Hs' & _).
  set (p2 := (DigitalSignerApp.signMultipleDocuments data p1).2) in *.
  rewrite bind_run.
  destruct ((DigitalSignerApp.signMultipleDocuments data p1).1.2);
    unfold Utils.showAlert, modify, mret, State_ret; cbn [fst snd];
    split; simpl; by rewrite ?Hf', ?Hs', ?Hf, ?Hs.
Qed.

Lemma handle_files (e : Event) (p : Page) :
  files_ok (selectedFiles p) →
  files_ok (selectedFiles (handle formatFileSize window_i18n e p).2).
Proof.
  intros Hok. destruct e; simpl.
  - destruct (select_event_frame formatFileSize files p) as (-> & _).
    unfold selectFiles. rewrite bind_run. simpl.
    destruct (handleFileSelection_spec files (set_docUpload files p))
      as [_ [[_ ->] | [Hcap (added & -> & Hlen & Hall & Hnd)]]]; [done|].
    simpl in *. destruct Hok as (Hl & Hn & Ha). split; [|split].
    + rewrite length_app. lia.
    + auto.
    + by apply Forall_app.
  - unfold removeFile. rewrite bind_run. simpl. destruct (findIndex _ _); [|done].
    rewrite !bind_run. simpl.
    destruct (matrix_frame (set_selectedFiles (delete n (selectedFiles p)) p))
      as (-> & _). simpl. by apply delete_files_ok.
  - unfold clearAllFiles. rewrite !bind_run. simpl.
    destruct (matrix_frame (set_selectedFiles [] p)) as (-> & _). simpl.
    split; [simpl; unfold maxFiles; lia|]. split; [constructor|constructor].
  - unfold addSigner. rewrite bind_run. simpl. case_bool_decide.
    + unfold Utils.showAlert. by run_state.
    + rewrite !bind_run. simpl.
      match goal with |- context [updateDocumentAssignmentMatrix ?q] =>
        destruct (matrix_frame q) as (-> & _) end. done.
  - unfold removeSigner. rewrite bind_run. simpl. case_bool_decide.
    + unfold Utils.showAlert. by run_state.
    + rewrite !bind_run. simpl.
      match goal with |- context [updateDocumentAssignmentMatrix ?q] =>
        destruct (matrix_frame q) as (-> & _) end. done.
  - unfold typeSignerField, clearSignerError. by run_state.
  - unfold blurSignerField. by run_state.
  - unfold setEnableDocumentAssignment. rewrite bind_run. simpl.
    destruct checked; [|done].
    match goal with |- context [updateDocumentAssignmentMatrix ?q] =>
      destruct (matrix_frame q) as (-> & _) end. done.
  - unfold setAssignmentCheckbox. by run_state.
  - unfold setSequentialSigning. by run_state.
  - rewrite bind_run. simpl.
    by destruct (handleFormSubmit_frame p) as [-> _].
Qed.

Lemma handle_signers (e : Event) (p : Page) :
  signers_ok (signersContainer p) →
  signers_ok (signersContainer (handle formatFileSize window_i18n e p).2).
Proof.
  unfold signers_ok, maxSigners. intros Hok. destruct e; simpl.
  - destruct (select_event_frame formatFileSize files p) as (_ & -> & _).
    unfold selectFiles. rewrite bind_run. simpl.
    by destruct (handleFileSelection_spec files (set_docUpload files p)) as [-> _].
  - by rewrite removeFile_frame.
  - unfold clearAllFiles. rewrite !bind_run. simpl.
    by destruct (matrix_frame (set_selectedFiles [] p)) as (_ & -> & _).
  - unfold addSigner. rewrite bind_run. simpl. case_bool_decide as Hmax.
    + unfold Utils.showAlert. by run_state.
    + rewrite !bind_run. simpl.
      match goal with |- context [updateDocumentAssignmentMatrix ?q] =>
        destruct (matrix_frame q) as (_ & -> & _) end.
      simpl. rewrite length_app. simpl. unfold maxSigners in Hmax. lia.
  - unfold removeSigner. rewrite bind_run. simpl. case_bool_decide as Hmin.
    + unfold Utils.showAlert. by run_state.
    + rewrite !bind_run. simpl.
      match goal with |- context [updateDocumentAssignmentMatrix ?q] =>
        destruct (matrix_frame q) as (_ & -> & _) end.
      simpl. destruct (decide (position < length (signersContainer p))%nat) as [Hlt|Hge].
      * rewrite length_delete by by apply lookup_lt_is_Some. lia.
      * rewrite delete_out_of_range by lia. lia.
  - unfold typeSignerField, clearSignerError. run_state. by rewrite !length_alter.
  - unfold blurSignerField. run_state. by rewrite !length_alter.
  - unfold setEnableDocumentAssignment. rewrite bind_run. simpl.
    destruct checked; [|done].
    match goal with |- context [updateDocumentAssignmentMatrix ?q] =>
      destruct (matrix_frame q) as (_ & -> & _) end. done.
  - unfold setAssignmentCheckbox. by run_state.
  - unfold setSequentialSigning. by run_state.
  - rewrite bind_run. simpl.
    destruct (handleFormSubmit_frame p) as [_ Hlen]. cbv zeta in Hlen.
    by rewrite Hlen.
Qed.

Lemma run_invariant (P : Page → Prop) (events : list Event) (p : Page) :
  (∀ e q, P q → P (handle formatFileSize window_i18n e q).2) →
  P p → P (run formatFileSize window_i18n events p).2.
Proof.
  intros Hstep. revert p. unfold run.
  induction events as [|e events IH]; intros p Hp; [done|].
  rewrite forEach_cons. apply IH, Hstep, Hp.
Qed.

(** C2: whatever batches are selected, and whatever other events come in
    between, the file collection never holds more than ten records, never
    holds two records with the same name and size, and holds only records that
    passed the size and extension checks. *)
Theorem file_collection_invariant (events : list Event) (p : Page) :
  selectedFiles p = [] →
  let l := selectedFiles (run formatFileSize window_i18n events p).2 in
  (length l ≤ 10)%nat
  ∧ NoDup ((λ f, (FileObj.name f, FileObj.size f)) <$> l)
  ∧ Forall (λ f, FileObj.size f ≤ 10 * 1024 * 1024
                 ∧ Utils.isFileTypeAllowed (FileObj.name f)
                     [".pdf"; ".docx"; ".txt"] = true) l.
Proof.
  intros Hempty.
  apply (run_invariant (λ q, files_ok (selectedFiles q))).
  - apply handle_files.
  - rewrite Hempty. split; [simpl; unfold maxFiles; lia|]. split; constructor.
Qed.

End Collections.

(** ** Removing a file, adding and removing signers, validating *)

Section Operations.

Variable formatFileSize : Z → string.
Variable window_i18n : option I18nManager.t.

Import MultipleItemsManager.

Lemma findIndex_None {A} (pred : A → bool) (l : list A) :
  (∀ x, x ∈ l → pred x = false) → findIndex pred l = None.
Proof.
  induction l as [|x l IH]; intros H; simpl; [done|].
  rewrite (H x) by left. rewrite IH; [done|]. intros y Hy. apply H. by right.
Qed.

Lemma findIndex_first {A} (pred : A → bool) (before after : list A) (x : A) :
  (∀ y, y ∈ before → pred y = false) → pred x = true →
  findIndex pred (before ++ x :: after) = Some (length before).
Proof.
  induction before as [|y before IH]; intros H Hx; simpl.
  - by rewrite Hx.
  - rewrite (H y) by left. rewrite IH; [done| |done].
    intros z Hz. apply H. by right.
Qed.

(** C9: [removeFile] takes out the first record whose id matches and only
    that one, the others keeping their fields and their order; when no record
    has the id, the state is left as it was. *)
Theorem removeFile_first_match (fileId : string) (p : Page) :
  ((∀ f, f ∈ selectedFiles p → FileObj.id f ≠ fileId) →
   removeFile fileId p = (tt, p))
  ∧ (∀ before f after,
       selectedFiles p = before ++ f :: after →
       FileObj.id f = fileId →
       (∀ g, g ∈ before → FileObj.id g ≠ fileId) →
       selectedFiles (removeFile fileId p).2 = before ++ after).
Proof.
  split.
  - intros Hnone. unfold removeFile. rewrite bind_run. simpl.
    rewrite findIndex_None; [done|].
    intros f Hf. apply bool_decide_eq_false. by apply Hnone.
  - intros before f after Hsel Hf Hbefore. unfold removeFile.
    rewrite bind_run. simpl. rewrite Hsel.
    rewrite findIndex_first.
    + rewrite !bind_run. simpl.
      match goal with |- context [updateDocumentAssignmentMatrix ?q] =>
        destruct (matrix_frame q) as (-> & _) end.
      simpl. apply delete_middle.
    + intros g Hg. apply bool_decide_eq_false. by apply Hbefore.
    + by apply bool_decide_eq_true.
Qed.

Lemma signers_of_delete (position : nat) (p : Page) (k : nat) :
  let old := FormData.signers (getFormData p).1 in
  let new := FormData.signers
               (getFormData
                  (set_signersContainer (delete position (signersContainer p)) p)).1 in
  ((k < position)%nat → new !! k = old !! k)
  ∧ ((position ≤ k)%nat → new !! k = at_position k <$> old !! S k).
Proof.
  simpl. rewrite !list_lookup_imap. split; intros Hk.
  - by rewrite list_lookup_delete_lt.
  - rewrite list_lookup_delete_ge by done.
    by destruct (signersContainer p !! S k).
Qed.

(** C3: under any sequence of events the signer collection keeps between one
    and ten rows.  [addSigner] at ten rows and [removeSigner] at one row emit
    a notice, for whose element the clock is read once, and change nothing
    else.  A [removeSigner] that goes through takes the row out without a
    notice.  [getFormData] derives the position of a signer from the place of
    its row: on every page the signer at position k is made of the values of
    the k-th row and bears the index k, so after the removal every row that
    stood behind the removed one is read one position lower, with its values
    as they were, and the rows before it are read as before. *)
Theorem signer_collection_bounds (events : list Event) (p : Page) :
  (1 ≤ length (signersContainer p) ≤ 10)%nat →
  (1 ≤ length (signersContainer (run formatFileSize window_i18n events p).2) ≤ 10)%nat
  ∧ (∀ q, length (signersContainer q) = 10%nat →
          addSigner q
          = (tt, set_alerts (alerts q ++ [signer_limit_alert])
                   (set_clock_calls (S (clock_calls q)) q)))
  ∧ (∀ q position, length (signersContainer q) = 1%nat →
          removeSigner position q
          = (tt, set_alerts (alerts q ++ [last_signer_alert])
                   (set_clock_calls (S (clock_calls q)) q)))
  ∧ (∀ q k, FormData.signers (getFormData q).1 !! k
            = signer_of_row k <$> signersContainer q !! k)
  ∧ (∀ q position,
       (1 < length (signersContainer q))%nat →
       (position < length (signersContainer q))%nat →
       let q' := (removeSigner position q).2 in
       let old := FormData.signers (getFormData q).1 in
       let new := FormData.signers (getFormData q').1 in
       signersContainer q' = delete position (signersContainer q)
       ∧ alerts q' = alerts q
       ∧ length new = (length old - 1)%nat
       ∧ (∀ k item,
            signersContainer q !! k = Some item → k ≠ position →
            new !! position_after_removal position k
            = Some (signer_of_row (position_after_removal position k) item))
       ∧ ∀ k, ((k < position)%nat → new !! k = old !! k)
              ∧ ((position ≤ k)%nat → new !! k = at_position k <$> old !! S k)).
Proof.
  intros Hok. split; [|split; [|split; [|split]]].
  - apply (run_invariant formatFileSize window_i18n
             (λ q, signers_ok (signersContainer q))); [|done].
    apply handle_signers.
  - intros q Hq. unfold addSigner. rewrite bind_run. simpl.
    rewrite bool_decide_eq_true_2 by (unfold maxSigners; lia).
    apply showAlert_run.
  - intros q position Hq. unfold removeSigner. rewrite bind_run. simpl.
    rewrite bool_decide_eq_true_2 by lia. apply showAlert_run.
  - intros q k. simpl. rewrite list_lookup_imap.
    by destruct (signersContainer q !! k).
  - intros q position Hmin Hpos. cbv zeta.
    assert (∃ matrix, (removeSigner position q).2
              = set_assignmentMatrix matrix
                  (set_signersContainer (delete position (signersContainer q)) q))
      as [matrix ->].
    { unfold removeSigner. rewrite bind_run. simpl.
      rewrite bool_decide_eq_false_2 by lia. rewrite !bind_run. simpl.
      match goal with |- context [updateDocumentAssignmentMatrix ?q] =>
        destruct (updateDocumentAssignmentMatrix_spec q) as [m ->] end.
      by exists m. }
    split; [done|]. split; [done|]. split; [|split].
    + simpl. rewrite !length_imap. apply length_delete.
      by apply lookup_lt_is_Some.
    + intros k item Hitem Hne. simpl. rewrite list_lookup_imap.
      unfold position_after_removal. case_decide as Hlt.
      * rewrite list_lookup_delete_lt by done. by rewrite Hitem.
      * rewrite list_lookup_delete_ge by lia.
        replace (S (k - 1)) with k by lia. by rewrite Hitem.
    + intros k. apply (signers_of_delete position q k).
Qed.

(** C10: with no file selected, [validateAll] answers false and emits the
    notice asking for at least one document, whatever the signer fields hold,
    and [handleFormSubmit] stops there: nothing is signed. *)
Theorem validateAll_requires_a_document (p : Page) :
  selectedFiles p = [] →
  (validateAll window_i18n p).1 = false
  ∧ alerts (validateAll window_i18n p).2 = alerts p ++ [no_document_alert]
  ∧ (DigitalSignerApp.handleFormSubmit window_i18n p).1 = None
  ∧ random_calls (DigitalSignerApp.handleFormSubmit window_i18n p).2
    = random_calls p.
Proof.
  intros Hempty.
  assert ((validateAll window_i18n p).1 = false
          ∧ alerts (validateAll window_i18n p).2 = alerts p ++ [no_document_alert])
    as Hv.
  { unfold validateAll, Utils.showAlert, Date_now. run_state. by rewrite Hempty. }
  split; [apply Hv|]. split; [apply Hv|].
  unfold DigitalSignerApp.handleFormSubmit.
  rewrite bind_run. change (Utils.clearAlerts p).2 with (set_alerts [] p). cbv beta.
  rewrite bind_run.
  assert ((validateAll window_i18n (set_alerts [] p)).1 = false) as ->.
  { unfold validateAll, Utils.showAlert, Date_now. run_state. by rewrite Hempty. }
  cbn [negb]. cbv iota. split; [done|].
  unfold validateAll, Utils.showAlert, Date_now. run_state. by rewrite Hempty.
Qed.

End Operations.

(** ** The signing simulator *)

Section Simulator.

Import DigitalSignerApp.

Lemma mapM_Forall2 {A B} (R : A → B → Prop) (f : A → State Page B)
    (l : list A) (p : Page) :
  (∀ x q, R x (f x q).1) → Forall2 R l (mapM f l p).1.
Proof.
  intros Hf. revert p. induction l as [|x l IH]; intros p; simpl.
  - constructor.
  - rewrite !bind_run. simpl. constructor; [apply Hf|apply IH].
Qed.

Lemma signerResult_entry (data : FormData.t) (signer : Signer.t) (q : Page) :
  signer_entry data signer (signerResult data signer q).1.
Proof. unfold signerResult. rewrite !bind_run. by repeat split. Qed.

Lemma documentResult_entry (data : FormData.t) (file : FileObj.t) (q : Page) :
  document_entry data file (documentResult data file q).1.
Proof.
  unfold documentResult. rewrite !bind_run. repeat split.
  apply mapM_Forall2. apply signerResult_entry.
Qed.

Lemma signMultipleDocuments_delay (data : FormData.t) (q : Page) :
  (signMultipleDocuments data q).1.1 = (3000 + delay_draw q * 2000)%float.
Proof.
  unfold signMultipleDocuments. rewrite !bind_run. simpl.
  destruct (_ <? _)%float; [done|]. by rewrite !bind_run.
Qed.

Lemma signMultipleDocuments_rejected (data : FormData.t) (q : Page) :
  (failure_draw q <? 0.05)%float = true →
  (signMultipleDocuments data q).1.2
  = Rejected "Falha na comunicação com o servidor".
Proof.
  intros H. unfold signMultipleDocuments. rewrite !bind_run. simpl.
  unfold failure_draw in H. by rewrite H.
Qed.

Lemma signMultipleDocuments_resolved (data : FormData.t) (q : Page) :
  (failure_draw q <? 0.05)%float = false →
  ∃ outcome,
    (signMultipleDocuments data q).1.2 = Resolved outcome
    ∧ SigningOutcome.sequentialSigning outcome = FormData.sequentialSigning data
    ∧ Forall2 (document_entry data) (FormData.files data)
        (SigningOutcome.signingResults outcome).
Proof.
  intros H. unfold signMultipleDocuments. rewrite !bind_run. simpl.
  unfold failure_draw in H. rewrite H. rewrite !bind_run. simpl.
  eexists. split; [reflexivity|]. simpl. split; [done|].
  apply mapM_Forall2. apply documentResult_entry.
Qed.

(** A promise settles one way: the threshold test alone decides which. *)
Lemma signMultipleDocuments_rejects_iff (data : FormData.t) (q : Page) :
  (∃ e, (signMultipleDocuments data q).1.2 = Rejected e)
  ↔ (failure_draw q <? 0.05)%float = true.
Proof.
  split.
  - intros [e He]. destruct (failure_draw q <? 0.05)%float eqn:E; [done|].
    destruct (signMultipleDocuments_resolved data q E) as (o & Ho & _). congruence.
  - intros H. eexists. by apply signMultipleDocuments_rejected.
Qed.

End Simulator.

Section SimulatorClaims.

Import DigitalSignerApp.

Lemma getFormData_index (p : Page) (k : nat) (signer : Signer.t) :
  FormData.signers (MultipleItemsManager.getFormData p).1 !! k = Some signer →
  Signer.index signer = k.
Proof.
  simpl. rewrite list_lookup_imap.
  destruct (signersContainer p !! k); simpl; [|done]. by intros [= <-].
Qed.

Lemma filter_indexed_elem_of {A} (pred : nat → A → bool) (a : list A) (x : A) :
  x ∈ filter_indexed pred a → x ∈ a.
Proof.
  unfold filter_indexed. intros ([k y] & -> & Hin)%list_elem_of_fmap.
  apply list_elem_of_filter in Hin as [_ Hin].
  apply list_elem_of_lookup in Hin as [i Hi].
  rewrite list_lookup_imap in Hi.
  destruct (a !! i) as [z|] eqn:Hz; simpl in Hi; [|done].
  injection Hi as <- <-. simpl. by eapply list_elem_of_lookup_2.
Qed.

Lemma fileSigners_elem_of (data : FormData.t) (file : FileObj.t)
    (signer : Signer.t) :
  signer ∈ fileSigners data file → signer ∈ FormData.signers data.
Proof.
  unfold fileSigners. destruct (FormData.documentAssignments data); [|done].
  apply filter_indexed_elem_of.
Qed.

(** C7: with assignment mode off the request carries no assignments, whatever
    the boxes of the matrix hold, and a signing that succeeds gives every
    document one entry per signer of the collection, in collection order. *)
Theorem disabled_assignment_full_cross_product (p q : Page) :
  enableDocumentAssignment p = false →
  let data := (MultipleItemsManager.getFormData p).1 in
  FormData.documentAssignments data = None
  ∧ ((failure_draw q <? 0.05)%float = false →
     ∃ outcome,
       (signMultipleDocuments data q).1.2 = Resolved outcome
       ∧ Forall2
           (λ file doc,
              DocumentResult.id (DocumentResult.document doc) = FileObj.id file
              ∧ length (DocumentResult.signers doc) = length (signersContainer p)
              ∧ Forall2
                  (λ signer sr,
                     SignerResult.name sr = Signer.name signer
                     ∧ SignerResult.email sr = Signer.email signer
                     ∧ SignerResult.role sr = Signer.role signer)
                  (FormData.signers data) (DocumentResult.signers doc))
           (selectedFiles p) (SigningOutcome.signingResults outcome)).
Proof.
  intros Hoff. cbv zeta.
  assert (FormData.documentAssignments (MultipleItemsManager.getFormData p).1 = None)
    as Hnone by (simpl; by rewrite Hoff).
  split; [done|]. intros Hdraw.
  destruct (signMultipleDocuments_resolved (MultipleItemsManager.getFormData p).1 q Hdraw)
    as (outcome & Hres & _ & Hdocs).
  exists outcome. split; [done|].
  change (FormData.files (MultipleItemsManager.getFormData p).1)
    with (selectedFiles p) in Hdocs.
  eapply Forall2_impl; [exact Hdocs|].
  intros file doc (Hid & _ & Hsigners).
  unfold fileSigners in Hsigners. rewrite Hnone in Hsigners.
  split; [done|]. split.
  - apply Forall2_length in Hsigners. rewrite <- Hsigners. simpl.
    by rewrite length_imap.
  - eapply Forall2_impl; [exact Hsigners|].
    intros signer sr (? & ? & ? & _). done.
Qed.

(** C1, as the code has it: the status of an entry is a function of the
    sequential flag and of the signer's position in the signer collection,
    signed when the flag is off or that position is 0 and pending otherwise,
    whatever the random source and the clock give.  Without assignments the
    position inside a document's sequence is the collection position, so a
    sequential request has exactly the first entry of every document signed
    and the others pending. *)
Theorem signing_status_by_collection_position (p q : Page) :
  (failure_draw q <? 0.05)%float = false →
  let data := (MultipleItemsManager.getFormData p).1 in
  ∃ outcome,
    (signMultipleDocuments data q).1.2 = Resolved outcome
    ∧ (∀ k signer, FormData.signers data !! k = Some signer →
                   Signer.index signer = k)
    ∧ (∀ file signer, signer ∈ fileSigners data file →
                      FormData.signers data !! Signer.index signer = Some signer)
    ∧ Forall2
        (λ file doc,
           Forall2
             (λ signer sr,
                SignerResult.name sr = Signer.name signer
                ∧ SignerResult.status sr
                  = if sequentialSigning p && bool_decide (0 < Signer.index signer)%nat
                    then SignerResult.pending else SignerResult.signed)
             (fileSigners data file) (DocumentResult.signers doc))
        (selectedFiles p) (SigningOutcome.signingResults outcome)
    ∧ (enableDocumentAssignment p = false →
       Forall (status_by_document_position (sequentialSigning p))
         (SigningOutcome.signingResults outcome)).
Proof.
  intros Hdraw. cbv zeta.
  destruct (signMultipleDocuments_resolved (MultipleItemsManager.getFormData p).1 q Hdraw)
    as (outcome & Hres & _ & Hdocs).
  exists outcome. split; [done|]. split; [apply getFormData_index|].
  change (FormData.files (MultipleItemsManager.getFormData p).1)
    with (selectedFiles p) in Hdocs.
  split; [|split].
  - intros file signer Hin. apply fileSigners_elem_of in Hin.
    apply list_elem_of_lookup in Hin as [k Hk].
    by rewrite (getFormData_index p k signer Hk).
  - eapply Forall2_impl; [exact Hdocs|].
    intros file doc (_ & _ & Hsigners).
    eapply Forall2_impl; [exact Hsigners|].
    intros signer sr (? & _ & _ & ?). done.
  - intros Hoff. apply Forall_forall. intros doc Hdoc.
    apply list_elem_of_lookup in Hdoc as [i Hdoc].
    destruct (Forall2_lookup_r _ _ _ _ _ Hdocs Hdoc) as (file & _ & _ & _ & Hsigners).
    unfold fileSigners in Hsigners.
    assert (FormData.documentAssignments (MultipleItemsManager.getFormData p).1 = None)
      as Hnone by (simpl; by rewrite Hoff).
    rewrite Hnone in Hsigners.
    intros k sr Hsr.
    destruct (Forall2_lookup_r _ _ _ _ _ Hsigners Hsr) as (signer & Hk & _ & _ & _ & Hstatus).
    apply getFormData_index in Hk. by rewrite Hstatus, Hk.
Qed.

Lemma signDocument_run (window_i18n : option I18nManager.t)
    (data : SignData.t) (q : Page) :
  let rejected :=
    set_clock_calls (S (clock_calls q))
      (set_random_calls (S (S (random_calls q))) q) in
  (signDocument window_i18n data q).1.1 = (2000 + delay_draw q * 1000)%float
  ∧ world_step q (signDocument window_i18n data q).2
  ∧ if (failure_draw q <? 0.1)%float then
      signDocument window_i18n data q
      = ((2000 + delay_draw q * 1000)%float,
         Normal (Rejected "Falha na comunicação com o servidor"), rejected)
    else
      match window_i18n with
      | Some _ =>
          ∃ outcome, (signDocument window_i18n data q).1.2
                     = Normal (Resolved outcome)
      | None =>
          (signDocument window_i18n data q).1.2
          = Throw "TypeError: Cannot read properties of undefined"
      end.
Proof.
  cbv zeta. unfold signDocument, failure_draw, delay_draw.
  rewrite !bind_run. cbn [Date_now Math_random fst snd].
  unfold Date_now, Math_random. rewrite !bind_run.
  cbn [get modify mret State_ret fst snd random_calls random_source
       set_clock_calls set_random_calls].
  destruct (Draw.number (random_source q (S (random_calls q))) <? 0.1)%float.
  - split; [done|]. split; [|done].
    exists (S (S (random_calls q))), (S (clock_calls q)). done.
  - rewrite !bind_run. cbn [fst snd].
    destruct window_i18n as [i18n|].
    + rewrite !bind_run. cbn [fst snd]. split; [done|]. split; [|by eexists].
      unfold Utils.generateId. rewrite !bind_run. cbn [fst snd].
      by eexists _, _.
    + split; [done|]. split; [|done]. by eexists _, _.
Qed.

Lemma signMultipleDocuments_rejected_page (data : FormData.t) (q : Page) :
  (failure_draw q <? 0.05)%float = true →
  (signMultipleDocuments data q).2
  = set_clock_calls (S (clock_calls q))
      (set_random_calls (S (S (random_calls q))) q).
Proof.
  intros H. unfold signMultipleDocuments. rewrite !bind_run. simpl.
  unfold failure_draw in H. by rewrite H.
Qed.

(** C6, as the code has it.  Each path takes two values from the random
    source.  The first sets the delay of the timer, in binary64: 3000 plus
    2000 times the value on the multi-document path and 2000 plus 1000 times
    the value on the single-document path, which is 3000 (2000) at the value
    0 and rounds to 5000 (3000) at the largest value below 1.  The second
    decides: the promise is rejected with the communication failure exactly
    when it is below 0.05 (0.1 on the single-document path), and then no
    outcome is produced and only the counters of the random source and of
    the clock have moved; otherwise the multi-document path resolves, and the
    single-document path resolves when [window.i18n] is set and throws in the
    timer callback, leaving the promise pending, when it is not.  On both
    paths the collections are as they were, whatever the outcome. *)
Theorem simulator_threshold_and_delay (window_i18n : option I18nManager.t)
    (data : FormData.t) (single : SignData.t) (q : Page) :
  let multi := signMultipleDocuments data q in
  let legacy := signDocument window_i18n single q in
  let rejected :=
    set_clock_calls (S (clock_calls q))
      (set_random_calls (S (S (random_calls q))) q) in
  (multi.1.1 = (3000 + delay_draw q * 2000)%float
   ∧ legacy.1.1 = (2000 + delay_draw q * 1000)%float)
  ∧ (delay_draw q = 0%float → multi.1.1 = 3000%float ∧ legacy.1.1 = 2000%float)
  ∧ (delay_draw q = below_one →
     multi.1.1 = 5000%float ∧ legacy.1.1 = 3000%float)
  ∧ (multi.1.2 = Rejected "Falha na comunicação com o servidor"
     ↔ (failure_draw q <? 0.05)%float = true)
  ∧ ((∃ outcome, multi.1.2 = Resolved outcome)
     ↔ (failure_draw q <? 0.05)%float = false)
  ∧ (legacy.1.2 = Normal (Rejected "Falha na comunicação com o servidor")
     ↔ (failure_draw q <? 0.1)%float = true)
  ∧ ((failure_draw q <? 0.1)%float = false →
     match window_i18n with
     | Some _ => ∃ outcome, legacy.1.2 = Normal (Resolved outcome)
     | None => ∃ error, legacy.1.2 = Throw error
     end)
  ∧ ((failure_draw q <? 0.05)%float = true → multi.2 = rejected)
  ∧ ((failure_draw q <? 0.1)%float = true → legacy.2 = rejected)
  ∧ world_step q multi.2 ∧ world_step q legacy.2.
Proof.
  cbv zeta.
  pose proof (signMultipleDocuments_delay data q) as Hdelay.
  destruct (signDocument_run window_i18n single q) as (Hdelay' & Hstep' & Hrun).
  cbv zeta in Hrun.
  split; [by split|]. split; [|split].
  - intros H0. rewrite Hdelay, Hdelay', H0. by split.
  - intros H1. rewrite Hdelay, Hdelay', H1. by split.
  - split; [|split; [|split; [|split; [|split; [|split; [|split]]]]]].
    + split.
      * intros Hrej. destruct (failure_draw q <? 0.05)%float eqn:E; [done|].
        destruct (signMultipleDocuments_resolved data q E) as (o & Ho & _).
        congruence.
      * apply signMultipleDocuments_rejected.
    + split.
      * intros [o Ho]. destruct (failure_draw q <? 0.05)%float eqn:E; [|done].
        rewrite (signMultipleDocuments_rejected data q E) in Ho. done.
      * intros E. destruct (signMultipleDocuments_resolved data q E) as (o & Ho & _).
        by exists o.
    + destruct (failure_draw q <? 0.1)%float.
      * by rewrite Hrun.
      * split; [|done]. intros Hrej.
        destruct window_i18n; [destruct Hrun as [o Ho]|]; congruence.
    + intros E. rewrite E in Hrun. destruct window_i18n; [done|by eexists].
    + apply signMultipleDocuments_rejected_page.
    + intros E. rewrite E in Hrun. by rewrite Hrun.
    + apply signMultipleDocuments_step.
    + exact Hstep'.
Qed.

End SimulatorClaims.

(** ** The form validator *)

Section Validator.

Variable window_i18n : option I18nManager.t.

Import FormValidator.

Lemma exec_bind_run {S A B} (m : Exec S A) (f : A → Exec S B) (s : S) a s' :
  m s = Normal (a, s') → (m ≫= f) s = f a s'.
Proof. intros H. unfold mbind, Exec_bind. by rewrite H. Qed.

Lemma JsMap_get_set_eq {V} (key : string) (v : V) (m : JsMap.t V) :
  JsMap.get key (JsMap.set key v m) = Some v.
Proof.
  induction m as [|[k w] m IH]; simpl.
  - by rewrite decide_True.
  - case_decide as Hk; simpl; [by rewrite decide_True|]. by rewrite decide_False.
Qed.

Lemma JsMap_get_set_ne {V} (key key' : string) (v : V) (m : JsMap.t V) :
  key ≠ key' → JsMap.get key' (JsMap.set key v m) = JsMap.get key' m.
Proof.
  intros Hne. induction m as [|[k w] m IH]; simpl.
  - by rewrite decide_False.
  - case_decide as Hk; simpl.
    + subst k. by rewrite !decide_False.
    + case_decide; [done|apply IH].
Qed.

Lemma JsMap_get_delete {V} (key : string) (m : JsMap.t V) :
  JsMap.get key (JsMap.delete key m) = None.
Proof.
  induction m as [|[k w] m IH]; simpl; [done|].
  case_decide; simpl; [done|]. by rewrite decide_False.
Qed.

Lemma JsMap_has_set {V} (key key' : string) (v : V) (m : JsMap.t V) :
  JsMap.has key' m = true → JsMap.has key' (JsMap.set key v m) = true.
Proof.
  unfold JsMap.has. destruct (decide (key = key')) as [->|Hne].
  - by rewrite JsMap_get_set_eq.
  - by rewrite JsMap_get_set_ne.
Qed.

Lemma new_spec (formElement : list Field) :
  ∃ fv, new formElement = Normal (tt, fv) ∧ has_docUpload_rule fv
        ∧ isValid fv = false ∧ form fv = formElement.
Proof. eexists. split; [reflexivity|]. by repeat split. Qed.

(** The messages of the rules are never empty. *)
Lemma translate_or_truthy (key fallback : string) :
  JsString.truthy fallback = true →
  JsString.truthy (translate_or window_i18n key fallback) = true.
Proof.
  intros Hf. unfold translate_or. destruct window_i18n as [i18n|]; [|done].
  by destruct (JsString.truthy (I18nManager.getTranslation i18n key)) eqn:E.
Qed.

Lemma run_validate_spec (validator : Validator) (value : string)
    (file : option File.t) (fv : t) :
  has_docUpload_rule fv →
  ∃ error, run_validate window_i18n validator value file fv = Normal (error, fv)
           ∧ ∀ message, error = Some message → JsString.truthy message = true.
Proof.
  unfold has_docUpload_rule, JsMap.has. intros Hrule.
  destruct validator; simpl.
  - destruct file as [file|].
    + destruct (Utils.isFileTypeAllowed _ _); simpl.
      * unfold mbind, Exec_bind, lift, get. simpl.
        destruct (JsMap.get "docUpload" (rules fv)) as [rule|]; [|done].
        destruct (match fileSize rule with Some _ => _ | None => _ end);
          eexists; (split; [reflexivity|]); intros message [= <-];
          by apply translate_or_truthy.
      * eexists. split; [reflexivity|]. intros message [= <-].
        by apply translate_or_truthy.
    + eexists. split; [reflexivity|]. intros message [= <-].
      by apply translate_or_truthy.
  - repeat (match goal with |- context [if ?b then _ else _] => destruct b end);
      eexists; (split; [reflexivity|]); intros message [= <-];
      (by apply translate_or_truthy) || done.
Qed.

Lemma validateField_spec (position : nat) (field : Field) (fv : t) :
  has_docUpload_rule fv →
  ∃ b fv',
    validateField window_i18n position field fv = Normal (b, fv')
    ∧ rules fv' = rules fv ∧ isValid fv' = isValid fv
    ∧ length (form fv') = length (form fv)
    ∧ (b = false →
       ∃ message, JsMap.get (name field) (errors fv') = Some message
                  ∧ JsString.truthy message = true)
    ∧ (b = true →
       JsMap.has (name field) (rules fv) = false ∧ fv' = fv
       ∨ JsMap.get (name field) (errors fv') = None
         ∧ ∀ f, form fv' !! position = Some f →
                aria_invalid f = Some "false" ∧ field_valid f = true).
Proof.
  intros Hrule. unfold validateField.
  unfold mbind at 1, Exec_bind at 1. unfold lift at 1, get at 1.
  unfold JsMap.has.
  destruct (JsMap.get (name field) (rules fv)) as [rule|] eqn:Hget.
  2:{ exists true, fv. repeat split; try done. intros _. by left. }
  set (fv1 := set_form
                (alter (λ f, mkField (name f) (type f) (value f) (files f) None
                               None false (field_valid f)) position (form fv))
                (set_errors (JsMap.delete (name field) (errors fv)) fv)).
  assert (clearFieldError position field fv = Normal (tt, fv1)) as Hclear by done.
  rewrite (exec_bind_run _ _ _ _ _ Hclear).
  assert (has_docUpload_rule fv1) as Hrule1 by done.
  destruct (run_validate_spec (validate rule) (value field)
              (match files field with Some l => head l | None => None end)
              fv1 Hrule1) as (error & Hrun & Htruthy).
  rewrite (exec_bind_run _ _ _ _ _ Hrun).
  destruct error as [message|].
  - rewrite (Htruthy message eq_refl).
    eexists false, _. split; [reflexivity|]. simpl.
    split; [done|]. split; [done|]. split; [by rewrite !length_alter|].
    split; [|done]. intros _. exists message.
    split; [apply JsMap_get_set_eq|by apply Htruthy].
  - eexists true, _. split; [reflexivity|]. simpl.
    split; [done|]. split; [done|]. split; [by rewrite !length_alter|].
    split; [done|]. intros _. right. split.
    + apply JsMap_get_delete.
    + intros f. rewrite !list_lookup_alter_eq.
      destruct (form fv !! position); simpl; [|done]. by intros [= <-].
Qed.

End Validator.

Section ValidatorClaims.

Variable window_i18n : option I18nManager.t.
Variable selector_engine
  : string → list FormValidator.Field
    → completion (option (nat * FormValidator.Field)).

Import FormValidator.

Lemma clearFieldError_spec (position : nat) (field : Field) (fv : t) :
  ∃ fv', clearFieldError position field fv = Normal (tt, fv')
         ∧ rules fv' = rules fv ∧ isValid fv' = isValid fv.
Proof. eexists. split; [reflexivity|]. done. Qed.

Lemma built_in_has_docUpload (fv : t) : built_in_rules fv → has_docUpload_rule fv.
Proof. unfold built_in_rules, has_docUpload_rule. by intros ->. Qed.

Lemma validate_then_skip (position : nat) (field : Field) (fv : t) :
  built_in_rules fv →
  ∃ fv', (validateField window_i18n position field;; mret tt) fv = Normal (tt, fv')
         ∧ built_in_rules fv' ∧ isValid fv' = isValid fv.
Proof.
  intros Hrule.
  destruct (validateField_spec window_i18n position field fv
              (built_in_has_docUpload fv Hrule))
    as (b & fv' & Hrun & Hrules & Hflag & _).
  exists fv'. rewrite (exec_bind_run _ _ _ _ _ Hrun).
  split; [done|]. split; [|done]. unfold built_in_rules. by rewrite Hrules.
Qed.

(** The selector of a plain name is answered by the form itself. *)
Lemma querySelector_plain (fieldName : string) (fv : t) :
  plain_name fieldName = true →
  querySelector selector_engine fieldName fv
  = Normal (list_find (λ f, name f = fieldName) (form fv)).
Proof. intros H. unfold querySelector. by rewrite H. Qed.

Lemma validateForm_loop_spec (entries : list (string * Rule)) (b : bool) (fv : t) :
  Forall (λ entry, plain_name entry.1 = true) entries →
  has_docUpload_rule fv →
  ∃ b' fv', validateForm_loop window_i18n selector_engine entries b fv
            = Normal (b', fv')
            ∧ rules fv' = rules fv.
Proof.
  intros Hplain. revert b fv.
  induction Hplain as [|[fieldName rule] entries Hname _ IH]; intros b fv Hrule.
  - by exists b, fv.
  - simpl. unfold mbind at 1, Exec_bind at 1. unfold lift at 1, get at 1.
    unfold mbind at 1, Exec_bind at 1. unfold call at 1.
    rewrite (querySelector_plain fieldName fv Hname).
    destruct (list_find _ _) as [[position field]|].
    + destruct (validateField_spec window_i18n position field fv Hrule)
        as (ok & fv1 & Hrun & Hrules & _).
      rewrite (exec_bind_run _ _ _ _ _ Hrun).
      destruct (IH (if ok then b else false) fv1) as (b' & fv' & -> & Hrules').
      { unfold has_docUpload_rule. by rewrite Hrules. }
      exists b', fv'. split; [done|]. congruence.
    + by apply IH.
Qed.

Lemma built_in_plain (fv : t) :
  built_in_rules fv → Forall (λ entry, plain_name entry.1 = true) (rules fv).
Proof. intros ->. by repeat constructor. Qed.

Lemma validateForm_spec (fv : t) :
  built_in_rules fv →
  ∃ b fv', validateForm window_i18n selector_engine fv = Normal (b, fv')
           ∧ rules fv' = rules fv ∧ isValid fv' = b.
Proof.
  intros Hrule.
  destruct (validateForm_loop_spec (rules fv) true (set_errors [] fv))
    as (b & fv1 & Hloop & Hrules);
    [by apply built_in_plain|by apply built_in_has_docUpload|].
  exists b, (set_isValid b fv1). split; [|done].
  unfold validateForm, mbind, Exec_bind, lift, modify, get. simpl.
  change (rules fv) with (rules (set_errors [] fv)) in Hloop.
  simpl in Hloop. by rewrite Hloop.
Qed.

Lemma reset_loop_spec (entries : list (string * Rule)) (fv : t) :
  Forall (λ entry, plain_name entry.1 = true) entries →
  ∃ fv',
    forEachE (λ entry : string * Rule,
                fv' ← lift get;
                found ← call (querySelector selector_engine entry.1 fv');
                match found with
                | Some (position, field) => clearFieldError position field
                | None => mret tt
                end) entries fv = Normal (tt, fv')
    ∧ rules fv' = rules fv ∧ isValid fv' = isValid fv.
Proof.
  intros Hplain. revert fv.
  induction Hplain as [|entry entries Hname _ IH]; intros fv.
  - by exists fv.
  - simpl. unfold mbind at 1, Exec_bind at 1.
    unfold mbind at 1, Exec_bind at 1. unfold lift at 1, get at 1.
    unfold mbind at 1, Exec_bind at 1. unfold call at 1.
    rewrite (querySelector_plain entry.1 fv Hname).
    destruct (list_find _ _) as [[position field]|].
    + destruct (clearFieldError_spec position field fv) as (fv1 & -> & Hrules & Hvalid).
      destruct (IH fv1) as (fv' & -> & Hrules' & Hvalid'). exists fv'.
      split; [done|]. split; congruence.
    + simpl. apply IH.
Qed.

Lemma reset_spec (fv : t) :
  built_in_rules fv →
  ∃ fv', reset selector_engine fv = Normal (tt, fv')
         ∧ rules fv' = rules fv ∧ isValid fv' = false.
Proof.
  intros Hrule. unfold reset.
  unfold mbind at 1, Exec_bind at 1. unfold lift at 1, modify at 1.
  unfold mbind at 1, Exec_bind at 1. unfold lift at 1, modify at 1.
  unfold mbind at 1, Exec_bind at 1. unfold lift at 1, get at 1.
  match goal with |- context [forEachE _ ?l ?s] =>
    destruct (reset_loop_spec l s) as (fv' & -> & Hrules & Hvalid) end.
  { by apply built_in_plain. }
  by exists fv'.
Qed.

(** An event keeps the rules; the flag is written by [validateForm] and
    cleared by [reset], and no other event touches it. *)
Lemma validator_handle_spec (e : ValidatorEvent.t) (fv : t) :
  built_in_rules fv →
  ∃ fv', validator_handle window_i18n selector_engine e fv = Normal (tt, fv')
         ∧ built_in_rules fv'
         ∧ (e ≠ ValidatorEvent.ValidateForm →
            isValid fv = false → isValid fv' = false).
Proof.
  intros Hrule. destruct e; simpl.
  - unfold handleBlur. unfold mbind at 1, Exec_bind at 1. unfold lift at 1, get at 1.
    destruct (form fv !! position) as [field|]; [|by exists fv].
    destruct (JsMap.has (name field) (rules fv)); [|by exists fv].
    destruct (validate_then_skip position field fv Hrule) as (fv' & ? & ? & Hflag).
    exists fv'. rewrite Hflag. auto.
  - unfold handleChange. unfold mbind at 1, Exec_bind at 1. unfold lift at 1, get at 1.
    destruct (form fv !! position) as [field|]; [|by exists fv].
    destruct (_ && _); [|by exists fv].
    destruct (validate_then_skip position field fv Hrule) as (fv' & ? & ? & Hflag).
    exists fv'. rewrite Hflag. auto.
  - eexists. split; [reflexivity|done].
  - eexists. split; [reflexivity|done].
  - destruct (validateForm_spec fv Hrule) as (b & fv' & Hrun & Hrules & _).
    rewrite (exec_bind_run _ _ _ _ _ Hrun). exists fv'. split; [done|].
    split; [|done]. unfold built_in_rules. by rewrite Hrules.
  - destruct (reset_spec fv Hrule) as (fv' & -> & Hrules & Hflag).
    exists fv'. split; [done|]. split; [|done].
    unfold built_in_rules. by rewrite Hrules.
Qed.

Lemma validator_run_spec (events : list ValidatorEvent.t) (fv : t) :
  built_in_rules fv →
  ∃ fv', forEachE (validator_handle window_i18n selector_engine) events fv
         = Normal (tt, fv')
         ∧ built_in_rules fv'
         ∧ (ValidatorEvent.ValidateForm ∉ events →
            isValid fv = false → isValid fv' = false).
Proof.
  revert fv. induction events as [|e events IH]; intros fv Hrule.
  - by exists fv.
  - simpl. unfold mbind, Exec_bind.
    destruct (validator_handle_spec e fv Hrule) as (fv1 & -> & Hrule1 & Hflag1).
    destruct (IH fv1 Hrule1) as (fv' & Hrun & Hrule' & Hflag').
    exists fv'. split; [done|]. split; [done|].
    intros Hnot Hfalse. apply Hflag'.
    + intros Hin. apply Hnot. by right.
    + apply Hflag1; [|done]. intros ->. apply Hnot. by left.
Qed.

Lemma forEachE_app {S A} (f : A → Exec S unit) (l1 l2 : list A) (s : S) :
  forEachE f (l1 ++ l2) s
  = match forEachE f l1 s with
    | Normal (_, s') => forEachE f l2 s'
    | Throw e => Throw e
    end.
Proof.
  revert s. induction l1 as [|x l1 IH]; intros s; simpl; [done|].
  unfold mbind, Exec_bind. destruct (f x s) as [[[] s']|e]; [apply IH|done].
Qed.

Lemma validator_after_spec (formElement : list Field)
    (events : list ValidatorEvent.t) :
  ∃ fv, validator_after window_i18n selector_engine formElement events
        = Normal (tt, fv)
        ∧ built_in_rules fv
        ∧ (ValidatorEvent.ValidateForm ∉ events → isValid fv = false)
        ∧ (∀ before after,
             events = before ++ ValidatorEvent.Reset :: after →
             ValidatorEvent.ValidateForm ∉ after → isValid fv = false).
Proof.
  unfold validator_after.
  destruct (new_spec formElement) as (fv0 & Hnew & _ & Hflag0 & _).
  assert (built_in_rules fv0) as Hrule0.
  { unfold new in Hnew. by injection Hnew as <-. }
  rewrite Hnew.
  destruct (validator_run_spec events fv0 Hrule0) as (fv & Hrun & Hrule & Hflag).
  exists fv. split; [done|]. split; [done|]. split; [auto|].
  intros before after -> Hnot.
  rewrite forEachE_app in Hrun.
  destruct (validator_run_spec before fv0 Hrule0) as (fv1 & Hrun1 & Hrule1 & _).
  rewrite Hrun1 in Hrun. simpl in Hrun. unfold mbind, Exec_bind in Hrun.
  destruct (reset_spec fv1 Hrule1) as (fv2 & Hreset & Hrules2 & Hflag2).
  rewrite Hreset in Hrun.
  assert (built_in_rules fv2) as Hrule2.
  { unfold built_in_rules. by rewrite Hrules2. }
  destruct (validator_run_spec after fv2 Hrule2) as (fv3 & Hrun3 & _ & Hflag3).
  rewrite Hrun3 in Hrun. injection Hrun as <-. by apply Hflag3.
Qed.



End ValidatorClaims.

(** ** The theorems at the sample runs *)

(** Eleven files selected on the fresh page: the batch is refused whole. *)
Lemma handleFileSelection_over_capacity_witness :
  (MultipleItemsManager.maxFiles
   < length (selectedFiles sample_page) + length eleven_files)%nat
  ∧ length (selectedFiles
              (MultipleItemsManager.handleFileSelection sample_formatFileSize
                 eleven_files sample_page).2) = 0%nat
  ∧ alerts (MultipleItemsManager.handleFileSelection sample_formatFileSize
              eleven_files sample_page).2 = [capacity_alert].
Proof.
  assert (MultipleItemsManager.maxFiles
          < length (selectedFiles sample_page) + length eleven_files)%nat as H
    by (vm_compute; lia).
  split; [exact H|].
  destruct (handleFileSelection_over_capacity sample_formatFileSize
              eleven_files sample_page H) as (_ & Halerts & _ & Hzero).
  split; [by apply Hzero|]. exact Halerts.
Defined.

(** Four events on the fresh page, with a duplicate, a removal and a batch
    that is too large. *)
Lemma file_collection_invariant_witness :
  selectedFiles sample_page = []
  ∧ (length (selectedFiles
               (run sample_formatFileSize None
                  [SelectFiles [contract_pdf; contract_pdf; notes_txt];
                   RemoveFile "id-i";
                   SelectFiles eleven_files;
                   SelectFiles [contract_pdf]] sample_page).2) ≤ 10)%nat.
Proof.
  split; [reflexivity|].
  apply (file_collection_invariant sample_formatFileSize None
           [SelectFiles [contract_pdf; contract_pdf; notes_txt];
            RemoveFile "id-i";
            SelectFiles eleven_files;
            SelectFiles [contract_pdf]] sample_page).
  reflexivity.
Defined.

(** The sample page after two files were selected: their ids are "id-i" and
    "id-9". *)
Lemma removeFile_first_match_witness :
  FileObj.id <$> selectedFiles two_by_two_page = ["id-i"; "id-9"]
  ∧ FileObj.name
    <$> selectedFiles (MultipleItemsManager.removeFile "id-i" two_by_two_page).2
    = ["notes.TXT"]
  ∧ MultipleItemsManager.removeFile "id-zz" two_by_two_page = (tt, two_by_two_page).
Proof.
  split; [reflexivity|].
  destruct (removeFile_first_match "id-i" two_by_two_page) as [_ Hfirst].
  destruct (removeFile_first_match "id-zz" two_by_two_page) as [Hnone _].
  split.
  - rewrite (Hfirst []
               (FileObj.mk "id-i" contract_pdf "contract.pdf" 2097152 "application/pdf")
               [FileObj.mk "id-9" notes_txt "notes.TXT" 1024 "text/plain"]).
    + reflexivity.
    + reflexivity.
    + reflexivity.
    + intros g Hg. by apply elem_of_nil in Hg.
  - apply Hnone. intros f Hf.
    change (selectedFiles two_by_two_page)
      with [FileObj.mk "id-i" contract_pdf "contract.pdf" 2097152 "application/pdf";
            FileObj.mk "id-9" notes_txt "notes.TXT" 1024 "text/plain"] in Hf.
    apply elem_of_cons in Hf as [-> | Hf]; [done|].
    apply list_elem_of_singleton in Hf as ->. done.
Defined.

(** Removals at one row and twelve additions in a row stay within the
    bounds; and on the page with the rows of Ana and Bruno, removing the first
    row leaves Bruno to be read at position 0. *)
Lemma signer_collection_bounds_witness :
  (1 ≤ length (signersContainer sample_page) ≤ 10)%nat
  ∧ (1 ≤ length (signersContainer
                   (run sample_formatFileSize None
                      ([RemoveSigner 0; AddSigner; AddSigner; RemoveSigner 1]
                       ++ replicate 12 AddSigner) sample_page).2) ≤ 10)%nat
  ∧ FormData.signers
      (MultipleItemsManager.getFormData
         (MultipleItemsManager.removeSigner 0 two_by_two_page).2).1 !! 0%nat
    = Some (Signer.mk "Bruno Costa" "bruno@example.com" "testemunha" 0).
Proof.
  assert (1 ≤ length (signersContainer sample_page) ≤ 10)%nat as H
    by (vm_compute; lia).
  split; [exact H|].
  destruct (signer_collection_bounds sample_formatFileSize None
              ([RemoveSigner 0; AddSigner; AddSigner; RemoveSigner 1]
               ++ replicate 12 AddSigner) sample_page H)
    as (Hbound & _ & _ & _ & Hremove).
  split; [exact Hbound|].
  assert (signersContainer two_by_two_page !! 1%nat
          = Some (SignerItem.mk 1 (Input.mk "Bruno Costa" false)
                    (Input.mk "bruno@example.com" false)
                    (Input.mk "testemunha" false) "")) as Hrow
    by (vm_compute; reflexivity).
  assert (1 < length (signersContainer two_by_two_page))%nat as Hmin
    by (vm_compute; lia).
  assert (0 < length (signersContainer two_by_two_page))%nat as Hpos
    by (vm_compute; lia).
  destruct (Hremove two_by_two_page 0%nat Hmin Hpos) as (_ & _ & _ & Hread & _).
  exact (Hread 1%nat _ Hrow (Nat.neq_succ_0 0)).
Defined.

(** A page whose only signer is valid but which has no file. *)
Lemma validateAll_requires_a_document_witness :
  selectedFiles no_file_page = []
  ∧ forallb fst (MultipleItemsManager.validateSignerItem None
                 <$> signersContainer no_file_page) = true
  ∧ (MultipleItemsManager.validateAll None no_file_page).1 = false
  ∧ (DigitalSignerApp.handleFormSubmit None no_file_page).1 = None.
Proof.
  assert (selectedFiles no_file_page = []) as H by reflexivity.
  split; [exact H|]. split; [vm_compute; reflexivity|].
  destruct (validateAll_requires_a_document None no_file_page H)
    as (Hfalse & _ & Hnone & _).
  by split.
Defined.

(** Assignment mode was switched on, a box unticked, and the mode switched off
    again: the unticked box stays in the matrix and is ignored. *)
Lemma disabled_assignment_full_cross_product_witness :
  enableDocumentAssignment two_by_two_page = false
  ∧ (failure_draw two_by_two_page <? 0.05)%float = false
  ∧ Checkbox.checked <$> assignmentMatrix two_by_two_page
    = [false; true; true; true]
  ∧ ∃ outcome,
      (DigitalSignerApp.signMultipleDocuments
         (MultipleItemsManager.getFormData two_by_two_page).1 two_by_two_page).1.2
      = Resolved outcome
      ∧ (length ∘ DocumentResult.signers)
        <$> SigningOutcome.signingResults outcome = [2%nat; 2%nat].
Proof.
  assert (enableDocumentAssignment two_by_two_page = false) as Hoff by reflexivity.
  assert ((failure_draw two_by_two_page <? 0.05)%float = false) as Hdraw
    by (vm_compute; reflexivity).
  split; [exact Hoff|]. split; [exact Hdraw|]. split; [vm_compute; reflexivity|].
  destruct (disabled_assignment_full_cross_product two_by_two_page two_by_two_page Hoff)
    as [_ Hsign].
  destruct (Hsign Hdraw) as (outcome & Hres & Hdocs).
  exists outcome. split; [exact Hres|].
  change (selectedFiles two_by_two_page)
    with [FileObj.mk "id-i" contract_pdf "contract.pdf" 2097152 "application/pdf";
          FileObj.mk "id-9" notes_txt "notes.TXT" 1024 "text/plain"] in Hdocs.
  apply Forall2_cons_inv_l in Hdocs as (d1 & l1 & (_ & Hl1 & _) & Hdocs & ->).
  apply Forall2_cons_inv_l in Hdocs as (d2 & l2 & (_ & Hl2 & _) & Hdocs & ->).
  apply Forall2_nil_inv_l in Hdocs as ->.
  simpl. unfold compose. by rewrite Hl1, Hl2.
Defined.

(** Two documents and two signers without assignments: position by position. *)
Lemma signing_status_by_collection_position_witness :
  (failure_draw two_by_two_page <? 0.05)%float = false
  ∧ ∃ outcome,
      (DigitalSignerApp.signMultipleDocuments
         (MultipleItemsManager.getFormData two_by_two_page).1 two_by_two_page).1.2
      = Resolved outcome
      ∧ Forall (status_by_document_position true)
          (SigningOutcome.signingResults outcome).
Proof.
  assert ((failure_draw two_by_two_page <? 0.05)%float = false) as Hdraw
    by (vm_compute; reflexivity).
  split; [exact Hdraw|].
  destruct (signing_status_by_collection_position two_by_two_page two_by_two_page Hdraw)
    as (outcome & Hres & _ & _ & _ & Hposition).
  exists outcome. split; [exact Hres|]. by apply Hposition.
Defined.

(** C1 as stated fails: signing is sequential and the first signer is
    unticked for the only document, so the document's sequence starts with the
    second signer of the collection, whose entry is pending although it stands
    at position 0 of that sequence. *)
Lemma sequential_first_associated_signer_pending :
  ∃ outcome doc sr,
    (DigitalSignerApp.signMultipleDocuments
       (MultipleItemsManager.getFormData filtered_page).1 filtered_page).1.2
    = Resolved outcome
    ∧ SigningOutcome.sequentialSigning outcome = true
    ∧ SigningOutcome.signingResults outcome = [doc]
    ∧ DocumentResult.signers doc = [sr]
    ∧ SignerResult.name sr = "Bruno Costa"
    ∧ SignerResult.status sr = SignerResult.pending
    ∧ ¬ status_by_document_position true doc.
Proof.
  eexists _, _, _. split; [vm_compute; reflexivity|].
  split; [reflexivity|]. split; [reflexivity|]. split; [reflexivity|].
  split; [reflexivity|]. split; [reflexivity|].
  intros H. specialize (H 0%nat _ eq_refl). discriminate H.
Qed.


(** A rule added from outside under a name that does not make a plain
    selector: [validateForm] and [reset] throw what the engine throws. *)
Example malformed_selector_throws :
  FormValidator.plain_name "docUpload" = true
  ∧ FormValidator.plain_name "signerName" = true
  ∧ FormValidator.plain_name quoted_name = false
  ∧ match FormValidator.new sample_form with
    | Normal (_, fv0) =>
        match FormValidator.addRule quoted_name FormValidator.signerName_rule
                fv0 with
        | Normal (_, fv) =>
            completed (FormValidator.validateForm None sample_engine fv)
            = Throw "SyntaxError"
            ∧ completed (FormValidator.reset sample_engine fv)
              = Throw "SyntaxError"
        | Throw _ => False
        end
    | Throw _ => False
    end.
Proof. vm_compute. by repeat split. Qed.

(** ** The delay of the timer in binary64 *)

(** C6 as stated fails twice.  The delay is not below the upper end of its
    interval at the largest draw below 1: the sum rounds to 5000 on the
    multi-document path and to 3000 on the single-document path.  And on the
    single-document path a draw that is not below the threshold does not
    always resolve: while [window.i18n] is not set the timer callback throws
    and the promise is neither resolved nor rejected. *)
Lemma delay_reaches_the_upper_end :
  (delay_draw largest_draw_page <? 1)%float = true
  ∧ (DigitalSignerApp.signMultipleDocuments
       (MultipleItemsManager.getFormData largest_draw_page).1
       largest_draw_page).1.1 = 5000%float
  ∧ ((DigitalSignerApp.signMultipleDocuments
        (MultipleItemsManager.getFormData largest_draw_page).1
        largest_draw_page).1.1 <? 5000)%float = false
  ∧ (DigitalSignerApp.signDocument None sample_sign_data largest_draw_page).1.1
    = 3000%float
  ∧ ((DigitalSignerApp.signDocument None sample_sign_data
        largest_draw_page).1.1 <? 3000)%float = false
  ∧ (failure_draw largest_draw_page <? 0.1)%float = false
  ∧ (DigitalSignerApp.signDocument None sample_sign_data largest_draw_page).1.2
    = Throw "TypeError: Cannot read properties of undefined".
Proof. vm_compute. by repeat split. Qed.

(** The delay is computed in binary64: at the draw 0 it is 3000, and at the
    largest draw below 1 the sum rounds to 5000. *)
Lemma delay_ends :
  (below_one <? 1)%float = true
  ∧ (3000 + 0 * 2000)%float = 3000%float
  ∧ (3000 + below_one * 2000)%float = 5000%float.
Proof. repeat split. Qed.

(** ** The scenarios of the specification *)

(** One document and one signer, parallel signing. *)
Example scenario_one_document_one_signer :
  summary <$> (DigitalSignerApp.handleFormSubmit None one_by_one_page).1
  = Some (Some [("contract.pdf", [("Ana Silva", SignerResult.signed)])]).
Proof. vm_compute. reflexivity. Qed.

(** Two documents and two signers, sequential signing, assignment mode off. *)
Example scenario_two_documents_sequential :
  summary <$> (DigitalSignerApp.handleFormSubmit None two_by_two_page).1
  = Some (Some [("contract.pdf",
                 [("Ana Silva", SignerResult.signed);
                  ("Bruno Costa", SignerResult.pending)]);
                ("notes.TXT",
                 [("Ana Silva", SignerResult.signed);
                  ("Bruno Costa", SignerResult.pending)])]).
Proof. vm_compute. reflexivity. Qed.

(** A name of two characters: the field gets the minimum-length message on
    blur, and a submission is stopped with the collections as they were. *)
Example scenario_short_name :
  SignerItem.error_message
  <$> signersContainer
        (MultipleItemsManager.blurSignerField None 0
           MultipleItemsManager.NameInput short_name_page).2
  = ["Nome deve ter pelo menos 3 caracteres"]
  ∧ (DigitalSignerApp.handleFormSubmit None short_name_page).1 = None
  ∧ selectedFiles (DigitalSignerApp.handleFormSubmit None short_name_page).2
    = selectedFiles short_name_page
  ∧ length (signersContainer
              (DigitalSignerApp.handleFormSubmit None short_name_page).2) = 1%nat.
Proof. vm_compute. by repeat split. Qed.

(** The failure branch: the handler gets the communication failure and shows
    a notice that stays; the collections are as they were. *)
Example scenario_communication_failure :
  (DigitalSignerApp.handleFormSubmit None failing_page).1
  = Some (Rejected "Falha na comunicação com o servidor")
  ∧ alerts (DigitalSignerApp.handleFormSubmit None failing_page).2
    = [Alert.mk
         "Erro ao assinar o documento: Falha na comunicação com o servidor"
         Alert.error 0]
  ∧ selectedFiles (DigitalSignerApp.handleFormSubmit None failing_page).2
    = selectedFiles failing_page
  ∧ Input.value ∘ SignerItem.name_input
    <$> signersContainer (DigitalSignerApp.handleFormSubmit None failing_page).2
    = ["Ana Silva"].
Proof. vm_compute. by repeat split. Qed.

(** The single-document path with the Portuguese table: the name of the
    signer is put into the message. *)
Example scenario_single_document :
  match (DigitalSignerApp.signDocument (Some sample_i18n) sample_sign_data
           sample_page).1.2 with
  | Normal (Resolved outcome) =>
      SingleOutcome.message outcome
      = "Documento assinado com sucesso por Ana Silva"
      ∧ SignedDocument.signedName (SingleOutcome.signedDocument outcome)
        = "signed_contract.pdf"
      ∧ SingleOutcome.duration outcome = 4000
  | _ => False
  end.
Proof. vm_compute. by repeat split. Qed.

(** [replace] reads the dollar patterns of the replacement. *)
Example replace_examples :
  JsString.replace "{name}" "Ana" "por {name} e {name}" = "por Ana e {name}"
  ∧ JsString.replace "{name}" "$& $$ $1" "por {name}" = "por {name} $ $1"
  ∧ JsString.replace "{name}" "$`|$'" "a{name}b" = "aa|bb"
  ∧ JsString.replace "{name}" "Ana" "sem nome" = "sem nome".
Proof. vm_compute. by repeat split. Qed.

(** A file name with a double quote and a tag passes the checks; its
    [title] attribute ends at the quote, so the inputs of the matrix are the
    ones the parser makes of the markup, and the request carries a position
    that no signer row has. *)
Example crafted_name_is_parsed :
  FileObj.name <$> selectedFiles crafted_page = [File.name crafted_pdf]
  ∧ MultipleItemsManager.title_safe (File.name crafted_pdf) = false
  ∧ length (signersContainer crafted_page) = 1%nat
  ∧ assignmentMatrix crafted_page
    = [Checkbox.mk 0 "id-i" true; Checkbox.mk 7 "x" true]
  ∧ (λ assignments, assignments !! 7%nat)
    <$> FormData.documentAssignments
          (MultipleItemsManager.getFormData crafted_page).1
    = Some (Some ["x"]).
Proof. vm_compute. by repeat split. Qed.

(** Clearing the files twice leaves the collection empty both times. *)
Example clearAllFiles_twice :
  selectedFiles (MultipleItemsManager.clearAllFiles two_by_two_page).2 = []
  ∧ selectedFiles
      (MultipleItemsManager.clearAllFiles
         (MultipleItemsManager.clearAllFiles two_by_two_page).2).2 = [].
Proof. by split. Qed.

(** The two patterns on a few values. *)
Example pattern_examples :
  JsString.test MultipleItemsManager.email_pattern "ana@example.com" = true
  ∧ JsString.test MultipleItemsManager.email_pattern "ana@example" = false
  ∧ JsString.test MultipleItemsManager.email_pattern "ana silva@example.com" = false
  ∧ JsString.test MultipleItemsManager.email_pattern "a@b@example.com" = false
  ∧ JsString.test FormValidator.name_pattern "Ana Silva" = true
  ∧ JsString.test FormValidator.name_pattern "Al" = false
  ∧ JsString.test FormValidator.name_pattern "R2D2" = false.
Proof. vm_compute. by repeat split. Qed.

(** * Further properties of the code *)

(** ** Patterns and the values they accept *)

Module PatternFacts.
Import JsString.

Lemma append_nil_r (s : string) : s +:+ "" = s.
Proof. induction s as [|c s IH]; [done|]. by rewrite FileTypeFacts.app_cons, IH. Qed.

Lemma append_assoc (s1 s2 s3 : string) : (s1 +:+ s2) +:+ s3 = s1 +:+ s2 +:+ s3.
Proof.
  induction s1 as [|c s1 IH]; [done|]. by rewrite !FileTypeFacts.app_cons, IH.
Qed.

Lemma append_eq_nil (s1 s2 : string) : s1 +:+ s2 = "" → s1 = "" ∧ s2 = "".
Proof. by destruct s1. Qed.

Lemma append_eq_cons (s1 s2 : string) (c : ascii) (s : string) :
  s1 +:+ s2 = String c s →
  s1 = "" ∧ s2 = String c s ∨ ∃ s1', s1 = String c s1' ∧ s = s1' +:+ s2.
Proof.
  destruct s1 as [|d s1]; [by left|]. rewrite FileTypeFacts.app_cons.
  intros [= -> <-]. right. by exists s1.
Qed.

Lemma length_append (s1 s2 : string) :
  String.length (s1 +:+ s2) = (String.length s1 + String.length s2)%nat.
Proof.
  induction s1 as [|c s1 IH]; [done|]. rewrite FileTypeFacts.app_cons. simpl.
  by rewrite IH.
Qed.

Lemma all_units_append (p : ascii → bool) (s1 s2 : string) :
  all_units p (s1 +:+ s2) = all_units p s1 && all_units p s2.
Proof.
  induction s1 as [|c s1 IH]; [done|]. rewrite FileTypeFacts.app_cons. simpl.
  by rewrite IH, andb_assoc.
Qed.

Lemma matches_Void_inv (s : string) : ¬ matches Void s.
Proof. inversion 1. Qed.

Lemma matches_Eps_inv (s : string) : matches Eps s → s = "".
Proof. by inversion 1. Qed.

Lemma matches_Class_inv (p : ascii → bool) (s : string) :
  matches (Class p) s → ∃ c, s = String c "" ∧ p c = true.
Proof. inversion 1; subst. by eexists. Qed.

Lemma matches_Cat_inv (r1 r2 : regex) (s : string) :
  matches (Cat r1 r2) s →
  ∃ s1 s2, s = s1 +:+ s2 ∧ matches r1 s1 ∧ matches r2 s2.
Proof. inversion 1; subst. by eexists _, _. Qed.

Lemma matches_Alt_inv (r1 r2 : regex) (s : string) :
  matches (Alt r1 r2) s → matches r1 s ∨ matches r2 s.
Proof. inversion 1; subst; auto. Qed.

(** A non-empty match of a repetition starts with a non-empty match of its
    body. *)
Lemma matches_Star_inv (r : regex) (c : ascii) (s : string) :
  matches (Star r) (String c s) →
  ∃ s1 s2, s = s1 +:+ s2 ∧ matches r (String c s1) ∧ matches (Star r) s2.
Proof.
  intros H. remember (Star r) as r' eqn:Hr. remember (String c s) as s' eqn:Hs.
  revert s Hs. induction H as [| | | | | |r0 s1 s2 H1 _ H2 IH]; intros t Ht;
    try discriminate.
  injection Hr as ->.
  apply append_eq_cons in Ht as [[-> ->]|(s1' & -> & ->)].
  - by apply IH.
  - by exists s1', s2.
Qed.

Lemma matches_nullable (r : regex) : nullable r = true ↔ matches r "".
Proof.
  induction r as [| |p|r1 IH1 r2 IH2|r1 IH1 r2 IH2|r IH]; simpl.
  - split; [done|]. by intros ?%matches_Void_inv.
  - split; [constructor|done].
  - split; [done|]. by intros (c & ? & _)%matches_Class_inv.
  - rewrite andb_true_iff, IH1, IH2. split.
    + intros [H1 H2]. apply (matches_Cat _ _ "" "" H1 H2).
    + intros (s1 & s2 & Hs & H1 & H2)%matches_Cat_inv.
      symmetry in Hs. apply append_eq_nil in Hs as [-> ->]. done.
  - rewrite orb_true_iff, IH1, IH2. split.
    + intros [H|H]; [by apply matches_Alt_l|by apply matches_Alt_r].
    + apply matches_Alt_inv.
  - split; [constructor|done].
Qed.

Lemma matches_cat (r1 r2 : regex) (s : string) :
  matches (cat r1 r2) s ↔ matches (Cat r1 r2) s.
Proof.
  assert (∀ r, matches r s ↔ matches (Cat Eps r) s) as Heps.
  { intros r. split.
    - intros H. apply (matches_Cat Eps r "" s); [constructor|done].
    - intros (s1 & s2 & -> & ->%matches_Eps_inv & H)%matches_Cat_inv. done. }
  assert (∀ r, matches Void s ↔ matches (Cat Void r) s) as Hl.
  { intros r. split; [by intros ?%matches_Void_inv|].
    by intros (s1 & s2 & _ & ?%matches_Void_inv & _)%matches_Cat_inv. }
  assert (∀ r, matches Void s ↔ matches (Cat r Void) s) as Hr.
  { intros r. split; [by intros ?%matches_Void_inv|].
    by intros (s1 & s2 & _ & _ & ?%matches_Void_inv)%matches_Cat_inv. }
  destruct r1, r2; simpl; auto.
Qed.

Lemma matches_alt (r1 r2 : regex) (s : string) :
  matches (alt r1 r2) s ↔ matches (Alt r1 r2) s.
Proof.
  assert (∀ r, matches r s ↔ matches (Alt Void r) s) as Hl.
  { intros r. split; [apply matches_Alt_r|].
    by intros [?%matches_Void_inv|?]%matches_Alt_inv. }
  assert (∀ r, matches r s ↔ matches (Alt r Void) s) as Hr.
  { intros r. split; [apply matches_Alt_l|].
    by intros [?|?%matches_Void_inv]%matches_Alt_inv. }
  destruct r1, r2; simpl; auto.
Qed.

Lemma matches_deriv (c : ascii) (r : regex) (s : string) :
  matches (deriv c r) s ↔ matches r (String c s).
Proof.
  revert s. induction r as [| |p|r1 IH1 r2 IH2|r1 IH1 r2 IH2|r IH]; intros s; simpl.
  - split; by intros ?%matches_Void_inv.
  - split; [by intros ?%matches_Void_inv|by intros ?%matches_Eps_inv].
  - destruct (p c) eqn:Hp; split.
    + intros ->%matches_Eps_inv. by constructor.
    + intros (d & [= <- ->] & _)%matches_Class_inv. constructor.
    + by intros ?%matches_Void_inv.
    + intros (d & [= <- ->] & ?)%matches_Class_inv. congruence.
  - rewrite matches_alt. split.
    + intros [H|H]%matches_Alt_inv.
      * apply matches_cat in H as (s1 & s2 & -> & H1 & H2)%matches_Cat_inv.
        apply IH1 in H1. apply (matches_Cat _ _ (String c s1) s2 H1 H2).
      * destruct (nullable r1) eqn:Hn; [|by apply matches_Void_inv in H].
        apply matches_nullable in Hn. apply IH2 in H.
        apply (matches_Cat _ _ "" (String c s) Hn H).
    + intros (s1 & s2 & Hs & H1 & H2)%matches_Cat_inv. symmetry in Hs.
      apply append_eq_cons in Hs as [[-> ->]|(s1' & -> & ->)].
      * apply matches_Alt_r. apply matches_nullable in H1. rewrite H1.
        by apply IH2.
      * apply matches_Alt_l, matches_cat. apply IH1 in H1.
        by apply matches_Cat.
  - rewrite matches_alt. split.
    + intros [H|H]%matches_Alt_inv;
        [apply matches_Alt_l, IH1, H|apply matches_Alt_r, IH2, H].
    + intros [H|H]%matches_Alt_inv;
        [apply matches_Alt_l, IH1, H|apply matches_Alt_r, IH2, H].
  - rewrite matches_cat. split.
    + intros (s1 & s2 & -> & H1 & H2)%matches_Cat_inv. apply IH in H1.
      apply (matches_Star_cons _ (String c s1) s2 H1 H2).
    + intros (s1 & s2 & -> & H1 & H2)%matches_Star_inv. apply IH in H1.
      by apply matches_Cat.
Qed.

(** The matcher decides the language of the pattern. *)
Lemma test_matches (r : regex) (s : string) : test r s = true ↔ matches r s.
Proof.
  revert r. induction s as [|c s IH]; intros r; simpl.
  - apply matches_nullable.
  - by rewrite IH, matches_deriv.
Qed.

Lemma matches_Star_Class (p : ascii → bool) (s : string) :
  matches (Star (Class p)) s ↔ all_units p s = true.
Proof.
  induction s as [|c s IH]; simpl.
  - split; [done|constructor].
  - rewrite andb_true_iff, <- IH. split.
    + intros (s1 & s2 & -> & (d & [= <- ->] & Hp)%matches_Class_inv & H)%matches_Star_inv.
      done.
    + intros [Hp H].
      apply (matches_Star_cons _ (String c "") s); [by constructor|done].
Qed.

Lemma matches_Plus_Class (p : ascii → bool) (s : string) :
  matches (Plus (Class p)) s ↔ s ≠ "" ∧ all_units p s = true.
Proof.
  unfold Plus. split.
  - intros (s1 & s2 & -> & (c & -> & Hp)%matches_Class_inv & H)%matches_Cat_inv.
    apply matches_Star_Class in H. rewrite FileTypeFacts.app_cons, FileTypeFacts.app_nil.
    split; [done|]. simpl. by rewrite Hp, H.
  - intros [Hne H]. destruct s as [|c s]; [done|]. simpl in H.
    apply andb_true_iff in H as [Hp H].
    apply (matches_Cat _ _ (String c "") s); [by constructor|].
    by apply matches_Star_Class.
Qed.

Lemma matches_Char (c : ascii) (s : string) :
  matches (Char c) s ↔ s = String c "".
Proof.
  unfold Char. split.
  - by intros (d & -> & ->%bool_decide_eq_true)%matches_Class_inv.
  - intros ->. constructor. by apply bool_decide_eq_true.
Qed.

Lemma matches_Exactly_Class (p : ascii → bool) (n : nat) (s : string) :
  matches (Exactly n (Class p)) s
  ↔ String.length s = n ∧ all_units p s = true.
Proof.
  revert s. induction n as [|n IH]; intros s; simpl.
  - split; [by intros ->%matches_Eps_inv|].
    intros [Hl _]. destruct s; [constructor|done].
  - split.
    + intros (s1 & s2 & -> & (c & -> & Hp)%matches_Class_inv & H)%matches_Cat_inv.
      apply IH in H as [<- H].
      rewrite FileTypeFacts.app_cons, FileTypeFacts.app_nil. simpl. by rewrite Hp, H.
    + intros [Hl H]. destruct s as [|c s]; [done|]. simpl in *.
      apply andb_true_iff in H as [Hp H].
      apply (matches_Cat _ _ (String c "") s); [by constructor|].
      apply IH. split; [lia|done].
Qed.

Lemma matches_AtMost_Class (p : ascii → bool) (n : nat) (s : string) :
  matches (AtMost n (Class p)) s
  ↔ (String.length s ≤ n)%nat ∧ all_units p s = true.
Proof.
  revert s. induction n as [|n IH]; intros s; simpl.
  - split; [by intros ->%matches_Eps_inv|].
    intros [Hl _]. destruct s; [constructor|simpl in Hl; lia].
  - split.
    + intros [->%matches_Eps_inv|H]%matches_Alt_inv; [simpl; split; [lia|done]|].
      apply matches_Cat_inv in H
        as (s1 & s2 & -> & (c & -> & Hp)%matches_Class_inv & H).
      apply IH in H as [Hl H].
      rewrite FileTypeFacts.app_cons, FileTypeFacts.app_nil. simpl.
      rewrite Hp, H. split; [lia|done].
    + intros [Hl H]. destruct s as [|c s]; [apply matches_Alt_l; constructor|].
      simpl in *. apply andb_true_iff in H as [Hp H]. apply matches_Alt_r.
      apply (matches_Cat _ _ (String c "") s); [by constructor|].
      apply IH. split; [lia|done].
Qed.

Lemma split_at (n : nat) (s : string) :
  (n ≤ String.length s)%nat →
  ∃ s1 s2, s = s1 +:+ s2 ∧ String.length s1 = n.
Proof.
  revert s. induction n as [|n IH]; intros s Hn.
  - by exists "", s.
  - destruct s as [|c s]; simpl in Hn; [lia|].
    destruct (IH s) as (s1 & s2 & -> & <-); [lia|].
    by exists (String c s1), s2.
Qed.

Lemma matches_Between_Class (p : ascii → bool) (lo hi : nat) (s : string) :
  (lo ≤ hi)%nat →
  matches (Between lo hi (Class p)) s
  ↔ (lo ≤ String.length s ≤ hi)%nat ∧ all_units p s = true.
Proof.
  intros Hlohi. unfold Between. split.
  - intros (s1 & s2 & -> & [Hl1 H1]%matches_Exactly_Class
            & [Hl2 H2]%matches_AtMost_Class)%matches_Cat_inv.
    rewrite length_append, all_units_append, H1, H2. split; [lia|done].
  - intros [Hl H]. destruct (split_at lo s) as (s1 & s2 & -> & Hl1); [lia|].
    rewrite length_append in Hl. rewrite all_units_append in H.
    apply andb_true_iff in H as [H1 H2].
    apply matches_Cat; [by apply matches_Exactly_Class|].
    apply matches_AtMost_Class. split; [lia|done].
Qed.

End PatternFacts.

Lemma email_pattern_spec (v : string) :
  JsString.test MultipleItemsManager.email_pattern v = true ↔ email_shape v.
Proof.
  rewrite PatternFacts.test_matches.
  change MultipleItemsManager.email_pattern
    with (JsString.Cat (JsString.Plus (JsString.Class not_space_at))
            (JsString.Cat (JsString.Char "@")
               (JsString.Cat (JsString.Plus (JsString.Class not_space_at))
                  (JsString.Cat (JsString.Char ".")
                     (JsString.Plus (JsString.Class not_space_at)))))).
  split.
  - intros (a & s1 & -> & Ha & H)%PatternFacts.matches_Cat_inv.
    apply PatternFacts.matches_Cat_inv in H as (at_ & s2 & -> & Hat & H).
    apply PatternFacts.matches_Cat_inv in H as (b & s3 & -> & Hb & H).
    apply PatternFacts.matches_Cat_inv in H as (dot & c & -> & Hdot & Hc).
    apply PatternFacts.matches_Char in Hat as ->.
    apply PatternFacts.matches_Char in Hdot as ->.
    apply PatternFacts.matches_Plus_Class in Ha, Hb, Hc.
    by exists a, b, c.
  - intros (a & b & c & -> & Ha & Hb & Hc).
    apply PatternFacts.matches_Plus_Class in Ha, Hb, Hc.
    repeat (apply matches_Cat; [done || by apply PatternFacts.matches_Char|]).
    done.
Qed.

(** X1: the e-mail pattern of [validateSignerField] accepts a value exactly
    when it reads local@domain.tld: three non-empty runs of code units that
    are neither white space nor [@], one [@] between the first two and a dot
    before the last. *)
Theorem email_pattern_accepts_shape (v : string) :
  JsString.test MultipleItemsManager.email_pattern v = true ↔ email_shape v.
Proof. apply email_pattern_spec. Qed.

(** X2: the [validate] function of the rule [signerName] of the form
    validator answers [null] exactly when the trimmed value has between 3 and
    100 code units, all of them letters (a-z, A-Z, U+00C0 to U+00FF) or white
    space; a digit or a punctuation mark in the name is refused. *)
Theorem signerName_rule_accepts (window_i18n : option I18nManager.t)
    (value : string) (file : option File.t) (fv : FormValidator.t) :
  FormValidator.run_validate window_i18n FormValidator.validate_signerName
    value file fv = Normal (None, fv)
  ↔ (3 ≤ String.length (JsString.trim value) ≤ 100)%nat
    ∧ all_units name_unit (JsString.trim value) = true.
Proof.
  assert (JsString.test FormValidator.name_pattern (JsString.trim value) = true
          ↔ (3 ≤ String.length (JsString.trim value) ≤ 100)%nat
            ∧ all_units name_unit (JsString.trim value) = true) as Hpattern.
  { rewrite PatternFacts.test_matches.
    apply (PatternFacts.matches_Between_Class name_unit 3 100). lia. }
  unfold FormValidator.run_validate. cbv zeta.
  set (t := JsString.trim value) in *. clearbody t.
  unfold mret, Exec_ret.
  destruct (JsString.truthy t) eqn:Htruthy; cbn [negb].
  2:{ destruct t; [|done]. split; [done|]. simpl. lia. }
  case_bool_decide as Hmin; [split; [done|lia]|].
  case_bool_decide as Hmax; [split; [done|lia]|].
  destruct (JsString.test FormValidator.name_pattern t) eqn:Htest; cbn [negb].
  - split; [intros _; by apply Hpattern|done].
  - split; [done|]. intros H. apply Hpattern in H. done.
Qed.

(** ** Trimming *)

Module TrimFacts.
Import JsString.

Lemma rev_app_spec (s1 s2 : string) :
  String.rev_app s1 s2 = String.rev s1 +:+ s2.
Proof.
  revert s2. induction s1 as [|c s1 IH]; intros s2; [done|].
  unfold String.rev. simpl. rewrite (IH (String c s2)), (IH (String c "")).
  by rewrite PatternFacts.append_assoc.
Qed.

Lemma rev_cons (c : ascii) (s : string) :
  String.rev (String c s) = String.rev s +:+ String c "".
Proof. unfold String.rev at 1. simpl. apply rev_app_spec. Qed.

Lemma rev_snoc (s : string) (c : ascii) :
  String.rev (s +:+ String c "") = String c (String.rev s).
Proof.
  induction s as [|a s IH]; [done|].
  rewrite FileTypeFacts.app_cons, rev_cons, IH, FileTypeFacts.app_cons.
  by rewrite <- rev_cons.
Qed.

Lemma rev_involutive (s : string) : String.rev (String.rev s) = s.
Proof.
  induction s as [|c s IH]; [done|]. by rewrite rev_cons, rev_snoc, IH.
Qed.

Lemma all_units_rev (p : ascii → bool) (s : string) :
  all_units p (String.rev s) = all_units p s.
Proof.
  induction s as [|c s IH]; [done|].
  rewrite rev_cons, PatternFacts.all_units_append, IH. simpl.
  by rewrite andb_true_r, andb_comm.
Qed.

Lemma trimStart_white (s : string) :
  trimStart s = "" ↔ all_units is_white_space s = true.
Proof.
  induction s as [|c s IH]; simpl; [done|].
  destruct (is_white_space c); simpl; [done|]. split; discriminate.
Qed.

Lemma trimStart_id (s : string) :
  all_units (λ c, negb (is_white_space c)) s = true → trimStart s = s.
Proof. destruct s as [|c s]; simpl; [done|]. by destruct (is_white_space c). Qed.

Lemma trimStart_head (s : string) (c : ascii) (w : string) :
  trimStart s = String c w → is_white_space c = false.
Proof.
  induction s as [|d s IH]; simpl; [done|].
  destruct (is_white_space d) eqn:Hd; [done|]. by intros [= <- _].
Qed.

(** Trimming leaves nothing exactly when the value is white space only. *)
Lemma trim_empty_iff (v : string) :
  truthy (trim v) = false ↔ all_units is_white_space v = true.
Proof.
  unfold trim, trimEnd. split.
  - intros H.
    assert (String.rev (trimStart (String.rev (trimStart v))) = "") as Hrev
      by by destruct (String.rev _).
    apply (f_equal String.rev) in Hrev. rewrite rev_involutive in Hrev.
    change (String.rev "") with "" in Hrev.
    apply trimStart_white in Hrev. rewrite all_units_rev in Hrev.
    apply trimStart_white. destruct (trimStart v) as [|c w] eqn:Hstart; [done|].
    apply trimStart_head in Hstart. simpl in Hrev. by rewrite Hstart in Hrev.
  - intros H. apply trimStart_white in H. by rewrite H.
Qed.

(** A value without white space is its own trimmed form. *)
Lemma trim_id (v : string) :
  all_units (λ c, negb (is_white_space c)) v = true → trim v = v.
Proof.
  intros H. unfold trim, trimEnd. rewrite (trimStart_id v H).
  rewrite trimStart_id by by rewrite all_units_rev.
  apply rev_involutive.
Qed.

End TrimFacts.

(** ** What [validateAll] accepts and what it displays *)

Section SignerRows.

Variable window_i18n : option I18nManager.t.

Import MultipleItemsManager.

(** A lookup never gives the empty string for a key that is not empty. *)
Lemma getTranslation_truthy (i18n : I18nManager.t) (key : string) :
  JsString.truthy key = true →
  JsString.truthy (I18nManager.getTranslation i18n key) = true.
Proof.
  intros Hkey. unfold I18nManager.getTranslation.
  destruct (_ !! I18nManager.currentLanguage i18n) as [table|]; [|done].
  destruct (table !! key) as [translation|]; [|done].
  by destruct (JsString.truthy translation) eqn:E.
Qed.

Lemma manager_translate_or_truthy (key fallback : string) :
  JsString.truthy key = true → JsString.truthy fallback = true →
  JsString.truthy (translate_or window_i18n key fallback) = true.
Proof.
  intros Hkey Hfallback. unfold translate_or.
  destruct window_i18n; [by apply getTranslation_truthy|done].
Qed.

Lemma email_shape_no_space (v : string) :
  email_shape v → all_units (λ c, negb (JsString.is_white_space c)) v = true.
Proof.
  assert (∀ s, all_units not_space_at s = true →
               all_units (λ c, negb (JsString.is_white_space c)) s = true) as Hpart.
  { induction s as [|c s IH]; simpl; [done|]. unfold not_space_at at 1.
    intros [[H _]%andb_true_iff Hs]%andb_true_iff. by rewrite H, IH. }
  intros (a & b & c & -> & [_ Ha] & [_ Hb] & [_ Hc]).
  rewrite !PatternFacts.all_units_append.
  by rewrite (Hpart a Ha), (Hpart b Hb), (Hpart c Hc).
Qed.

Lemma email_shape_truthy (v : string) :
  email_shape v → JsString.truthy (JsString.trim v) = true.
Proof.
  intros H. rewrite TrimFacts.trim_id by by apply email_shape_no_space.
  destruct H as (a & b & c & -> & [Ha _] & _). by destruct a.
Qed.

(** The fields for which [validateSignerField] computes no message. *)
Lemma signer_field_error_name (value : string) :
  JsString.truthy (signer_field_error window_i18n NameInput value) = false
  ↔ (3 ≤ String.length (JsString.trim value))%nat.
Proof.
  unfold signer_field_error.
  destruct (JsString.truthy (JsString.trim value)) eqn:Htruthy; cbn [negb].
  - case_bool_decide as Hmin; [|split; [lia|done]].
    rewrite manager_translate_or_truthy by done. split; [done|lia].
  - rewrite manager_translate_or_truthy by done. split; [done|].
    destruct (JsString.trim value); [simpl; lia|done].
Qed.

Lemma signer_field_error_email (value : string) :
  JsString.truthy (signer_field_error window_i18n EmailInput value) = false
  ↔ email_shape value.
Proof.
  unfold signer_field_error. rewrite <- email_pattern_spec.
  destruct (JsString.truthy (JsString.trim value)) eqn:Htruthy; cbn [negb].
  - by destruct (JsString.test email_pattern value).
  - split; [done|]. intros H%email_pattern_spec%email_shape_truthy.
    congruence.
Qed.

Lemma signer_field_error_role (value : string) :
  JsString.truthy (signer_field_error window_i18n RoleSelect value) = false
  ↔ value ≠ "".
Proof. unfold signer_field_error. by destruct value. Qed.

(** The two loops of [validateAll] on one row: every field is judged on its
    own value, and the message of the row is the one of the field judged
    last, the role. *)
Lemma validateSignerItem_spec (item : SignerItem.t) :
  let ok field :=
    negb (JsString.truthy
            (signer_field_error window_i18n field
               (Input.value (signer_input field item)))) in
  validateSignerItem window_i18n item
  = (ok NameInput && ok EmailInput && ok RoleSelect,
     SignerItem.mk (SignerItem.data_signer_index item)
       (Input.mk (Input.value (SignerItem.name_input item)) (negb (ok NameInput)))
       (Input.mk (Input.value (SignerItem.email_input item)) (negb (ok EmailInput)))
       (Input.mk (Input.value (SignerItem.role_select item)) (negb (ok RoleSelect)))
       (signer_field_error window_i18n RoleSelect
          (Input.value (SignerItem.role_select item)))).
Proof.
  destruct item as [index [name ne] [email ee] [role re] message].
  unfold validateSignerItem, validateSignerField. cbn [signer_input SignerItem.name_input
    SignerItem.email_input SignerItem.role_select Input.value].
  destruct (JsString.truthy (signer_field_error window_i18n NameInput name));
    cbn [signer_input set_signer_input set_error_message SignerItem.name_input
         SignerItem.email_input SignerItem.role_select SignerItem.data_signer_index
         SignerItem.error_message Input.value negb andb];
  destruct (JsString.truthy (signer_field_error window_i18n EmailInput email));
    cbn [signer_input set_signer_input set_error_message SignerItem.name_input
         SignerItem.email_input SignerItem.role_select SignerItem.data_signer_index
         SignerItem.error_message Input.value negb andb];
  destruct role; reflexivity.
Qed.

End SignerRows.

Section SignerRowsTheorems.

Variable window_i18n : option I18nManager.t.

Import MultipleItemsManager.

Lemma validateSignerItem_ok (item : SignerItem.t) :
  (validateSignerItem window_i18n item).1 = true ↔ row_complete item.
Proof.
  rewrite validateSignerItem_spec. cbn [fst signer_input].
  rewrite !andb_true_iff, !negb_true_iff.
  rewrite signer_field_error_name, signer_field_error_email, signer_field_error_role.
  unfold row_complete. tauto.
Qed.

Lemma validateAll_run (p : Page) :
  validateAll window_i18n p
  = (negb (bool_decide (length (selectedFiles p) = 0%nat))
     && forallb fst (validateSignerItem window_i18n <$> signersContainer p),
     set_signersContainer
       (snd <$> (validateSignerItem window_i18n <$> signersContainer p))
       (if bool_decide (length (selectedFiles p) = 0%nat)
        then set_alerts (alerts p ++ [no_document_alert])
               (set_clock_calls (S (clock_calls p)) p)
        else p)).
Proof.
  unfold validateAll, Utils.showAlert, Date_now. run_state.
  by destruct (bool_decide (length (selectedFiles p) = 0%nat)).
Qed.

Lemma validateAll_accepts_spec (p : Page) :
  (validateAll window_i18n p).1 = true
  ↔ selectedFiles p ≠ [] ∧ Forall row_complete (signersContainer p).
Proof.
  rewrite validateAll_run. cbn [fst].
  rewrite andb_true_iff, negb_true_iff, bool_decide_eq_false.
  rewrite forallb_forall, Forall_forall.
  split; intros [Hfiles Hrows]; (split; [by destruct (selectedFiles p)|]).
  - intros item Hitem. apply validateSignerItem_ok.
    apply (Hrows (validateSignerItem window_i18n item)).
    apply list_elem_of_In, list_elem_of_fmap. by exists item.
  - intros [ok item'] (item & Heq & Hitem)%list_elem_of_In%list_elem_of_fmap.
    pose proof (proj2 (validateSignerItem_ok item) (Hrows item Hitem)) as Hok.
    by rewrite <- Heq in Hok.
Qed.

(** X3: [validateAll] answers true exactly when a file is selected and every
    signer row holds a name of three code units or more once trimmed, an
    e-mail of the shape local@domain.tld and a role; the answer is the same
    with and without translations. *)
Theorem validateAll_accepts_iff (p : Page) :
  (validateAll window_i18n p).1 = true
  ↔ selectedFiles p ≠ [] ∧ Forall row_complete (signersContainer p).
Proof. apply validateAll_accepts_spec. Qed.

(** X4: what [validateAll] leaves on a signer row.  The values and the index
    attribute are kept; each of the three fields carries the error class
    exactly when its own value is refused; the message of the row is the one
    of the role select, the field validated last, so a row with a refused
    name or e-mail and a chosen role shows no message. *)
Theorem validateAll_marks_rows (p : Page) (k : nat) (item : SignerItem.t) :
  signersContainer p !! k = Some item →
  ∃ item',
    signersContainer (validateAll window_i18n p).2 !! k = Some item'
    ∧ SignerItem.data_signer_index item' = SignerItem.data_signer_index item
    ∧ (∀ field, Input.value (signer_input field item')
                = Input.value (signer_input field item))
    ∧ (Input.field_error (SignerItem.name_input item') = false
       ↔ (3 ≤ String.length
                (JsString.trim (Input.value (SignerItem.name_input item))))%nat)
    ∧ (Input.field_error (SignerItem.email_input item') = false
       ↔ email_shape (Input.value (SignerItem.email_input item)))
    ∧ (Input.field_error (SignerItem.role_select item') = false
       ↔ Input.value (SignerItem.role_select item) ≠ "")
    ∧ SignerItem.error_message item'
      = if JsString.truthy (Input.value (SignerItem.role_select item))
        then "" else "Papel é obrigatório".
Proof.
  intros Hitem. rewrite validateAll_run. cbn [snd].
  eexists. split.
  { assert (∀ q, signersContainer
                   (set_signersContainer
                      (snd <$> (validateSignerItem window_i18n <$> signersContainer p)) q)
                 = snd <$> (validateSignerItem window_i18n <$> signersContainer p))
      as -> by done.
    rewrite !list_lookup_fmap, Hitem. reflexivity. }
  rewrite validateSignerItem_spec. cbn [snd SignerItem.data_signer_index
    SignerItem.name_input SignerItem.email_input SignerItem.role_select
    SignerItem.error_message Input.field_error Input.value].
  rewrite !negb_involutive.
  rewrite signer_field_error_name, signer_field_error_email, signer_field_error_role.
  split; [done|]. split; [by intros []|]. split; [done|]. split; [done|].
  split; [done|]. by destruct (Input.value (SignerItem.role_select item)).
Qed.

End SignerRowsTheorems.

(** ** Selecting files: what becomes of every candidate *)

Section FileSelection.

Variable formatFileSize : Z → string.

Import MultipleItemsManager.

Lemma handleFileSelection_loop_count (files : list File.t) (p : Page) :
  let p' := (forEach (λ file, ok ← validateFile formatFileSize file;
                               when ok (addFile file)) files p).2 in
  ∃ added notices,
    selectedFiles p' = selectedFiles p ++ added
    ∧ alerts p' = alerts p ++ notices
    ∧ (length added + length notices)%nat = length files
    ∧ (FileObj.file <$> added) `sublist_of` files
    ∧ Forall copies_file added.
Proof.
  revert p. induction files as [|file files IH]; intros p.
  - exists [], []. simpl. rewrite !app_nil_r. repeat split; auto.
  - cbv zeta. rewrite forEach_cons.
    destruct (validate_then_add_spec formatFileSize file p)
      as [[alert ->] | (id & -> & _)].
    + destruct (IH (set_alerts (alerts p ++ [alert])
                      (set_clock_calls (S (clock_calls p)) p)))
        as (added & notices & -> & -> & Hlen & Hsub & Hcopy).
      exists added, (alert :: notices). simpl. rewrite <- app_assoc. simpl.
      repeat split; auto; [lia|by apply sublist_cons].
    + match goal with |- context [forEach _ files ?q] =>
        destruct (IH q) as (added & notices & -> & -> & Hlen & Hsub & Hcopy)
      end.
      eexists (_ :: added), notices. simpl. rewrite <- app_assoc. simpl.
      split; [reflexivity|]. split; [done|]. split; [lia|].
      split; [by apply sublist_skip|]. by constructor.
Qed.

(** Whatever the batch, the records that a selection appends are made of
    files of the batch, in order. *)
Lemma handleFileSelection_added (files : list File.t) (p : Page) :
  ∃ added,
    selectedFiles (handleFileSelection formatFileSize files p).2
    = selectedFiles p ++ added
    ∧ (FileObj.file <$> added) `sublist_of` files
    ∧ Forall copies_file added.
Proof.
  unfold handleFileSelection. rewrite bind_run. simpl.
  case_bool_decide as Hcap.
  - exists []. rewrite showAlert_run, app_nil_r. simpl.
    split; [done|]. split; [apply sublist_nil_l|constructor].
  - rewrite !bind_run. unfold updateFileDisplay at 1. simpl.
    destruct (handleFileSelection_loop_count files p)
      as (added & notices & Hsel & _ & _ & Hsub & Hcopy).
    cbv zeta in *. set (q := (forEach _ files p).2) in *.
    destruct (matrix_frame q) as (-> & _).
    by exists added.
Qed.


End FileSelection.

(** ** The assignment matrix and the request *)

Section Assignments.

Variable formatFileSize : Z → string.
Variable window_i18n : option I18nManager.t.

Import MultipleItemsManager.

Lemma ticked_files_cons (box : Checkbox.t) (matrix : list Checkbox.t) (k : nat) :
  ticked_files (box :: matrix) k
  = if decide (Checkbox.checked box = true ∧ Checkbox.signer box = k)
    then Checkbox.file box :: ticked_files matrix k
    else ticked_files matrix k.
Proof. unfold ticked_files. rewrite filter_cons. by case_decide. Qed.

Lemma ticked_files_app (m1 m2 : list Checkbox.t) (k : nat) :
  ticked_files (m1 ++ m2) k = ticked_files m1 k ++ ticked_files m2 k.
Proof. unfold ticked_files. by rewrite filter_app, fmap_app. Qed.

(** The loop of [getFormData] over the boxes, from any object. *)
Lemma collectAssignment_foldl (boxes : list Checkbox.t)
    (m : gmap nat (list string)) (k : nat) :
  foldl collectAssignment m boxes !! k
  = match ticked_files boxes k with
    | [] => m !! k
    | ids => Some (default [] (m !! k) ++ ids)
    end.
Proof.
  revert m. induction boxes as [|box boxes IH]; intros m; [done|].
  simpl. rewrite IH, ticked_files_cons. unfold collectAssignment.
  destruct (Checkbox.checked box) eqn:Hchecked.
  - destruct (decide (Checkbox.signer box = k)) as [<-|Hne].
    + rewrite decide_True by done. rewrite lookup_insert_eq. simpl.
      destruct (ticked_files boxes (Checkbox.signer box)); [done|].
      by rewrite <- app_assoc.
    + rewrite decide_False by tauto. by rewrite lookup_insert_ne.
  - rewrite decide_False; [done|]. intros [? _]. done.
Qed.

Lemma getFormData_assignments (p : Page) (k : nat) :
  enableDocumentAssignment p = true →
  ∃ documentAssignments,
    FormData.documentAssignments (getFormData p).1 = Some documentAssignments
    ∧ documentAssignments !! k
      = match ticked_files (assignmentMatrix p) k with
        | [] => None
        | ids => Some ids
        end.
Proof.
  intros Hon. simpl. rewrite Hon. eexists. split; [reflexivity|].
  rewrite collectAssignment_foldl, lookup_empty. simpl.
  by destruct (ticked_files _ _).
Qed.

Lemma filter_indexed_all {A} (pred : nat → A → bool) (a : list A) :
  (∀ i x, a !! i = Some x → pred i x = true) →
  DigitalSignerApp.filter_indexed pred a = a.
Proof.
  unfold DigitalSignerApp.filter_indexed.
  assert (∀ f : nat → nat,
            (∀ i x, a !! i = Some x → pred (f i) x = true) →
            (filter (λ ix : nat * A, pred ix.1 ix.2 = true)
               (imap (λ i, pair (f i)) a)).*2 = a) as Hgen.
  { induction a as [|x a IH]; intros f H; [done|].
    rewrite imap_cons, filter_cons_True by (simpl; by apply (H 0%nat)).
    simpl. f_equal. apply (IH (f ∘ S)). intros i y Hy. by apply (H (S i)). }
  intros H. by apply (Hgen id).
Qed.

Lemma filter_indexed_none {A} (pred : nat → A → bool) (a : list A) :
  (∀ i x, a !! i = Some x → pred i x = false) →
  DigitalSignerApp.filter_indexed pred a = [].
Proof.
  unfold DigitalSignerApp.filter_indexed.
  assert (∀ f : nat → nat,
            (∀ i x, a !! i = Some x → pred (f i) x = false) →
            (filter (λ ix : nat * A, pred ix.1 ix.2 = true)
               (imap (λ i, pair (f i)) a)).*2 = []) as Hgen.
  { induction a as [|x a IH]; intros f H; [done|].
    rewrite imap_cons, filter_cons_False.
    - apply (IH (f ∘ S)). intros i y Hy. by apply (H (S i)).
    - simpl. rewrite (H 0%nat x) by done. done. }
  intros H. by apply (Hgen id).
Qed.

Lemma assigned_ticked (p : Page) (k : nat) (fileId : string) :
  enableDocumentAssignment p = true →
  ∃ documentAssignments,
    FormData.documentAssignments (getFormData p).1 = Some documentAssignments
    ∧ (DigitalSignerApp.assigned documentAssignments k fileId = true
       ↔ fileId ∈ ticked_files (assignmentMatrix p) k).
Proof.
  intros Hon. destruct (getFormData_assignments p k Hon) as (da & Hda & Hk).
  exists da. split; [done|]. unfold DigitalSignerApp.assigned. rewrite Hk.
  destruct (ticked_files (assignmentMatrix p) k) as [|id ids].
  - split; [done|]. by intros ?%elem_of_nil.
  - apply bool_decide_eq_true.
Qed.

(** The rows of the rendered matrix. *)
Lemma rendered_row_ticked (files : list FileObj.t) (k j : nat) :
  ticked_files ((λ file, Checkbox.mk k (FileObj.id file) true) <$> files) j
  = if decide (k = j) then FileObj.id <$> files else [].
Proof.
  induction files as [|file files IH]; [by case_decide|].
  rewrite fmap_cons, ticked_files_cons, IH. simpl.
  destruct (decide (k = j)) as [->|Hne].
  - by rewrite decide_True.
  - rewrite decide_False; [done|]. tauto.
Qed.

Lemma rows_from (g : nat → list Checkbox.t) (n : nat) (x : SignerItem.t)
    (l : list SignerItem.t) :
  mjoin (imap (λ k _, g (n + k)%nat) (x :: l))
  = g n ++ mjoin (imap (λ k _, g (S n + k)%nat) l).
Proof.
  rewrite imap_cons. simpl. rewrite Nat.add_0_r. f_equal. f_equal.
  apply imap_ext. intros i y _. simpl. f_equal. lia.
Qed.

Lemma rows_ticked (g : nat → list Checkbox.t) (ids : list string) (j : nat)
    (l : list SignerItem.t) (n : nat) :
  (∀ k, ticked_files (g k) j = if decide (k = j) then ids else []) →
  ticked_files (mjoin (imap (λ k _, g (n + k)%nat) l)) j
  = if decide (n ≤ j < n + length l)%nat then ids else [].
Proof.
  intros Hg. revert n. induction l as [|x l IH]; intros n.
  - rewrite decide_False; [done|]. simpl. lia.
  - rewrite rows_from, ticked_files_app, IH, Hg. simpl.
    repeat case_decide; try lia; by rewrite ?app_nil_r.
Qed.

Lemma rows_Forall (P : Checkbox.t → Prop) (g : nat → list Checkbox.t)
    (l : list SignerItem.t) (n : nat) :
  (∀ k, Forall P (g k)) → Forall P (mjoin (imap (λ k _, g (n + k)%nat) l)).
Proof.
  intros Hg. revert n. induction l as [|x l IH]; intros n; [constructor|].
  rewrite rows_from. apply Forall_app. split; [apply Hg|apply IH].
Qed.

Lemma rows_length (g : nat → list Checkbox.t) (m : nat)
    (l : list SignerItem.t) (n : nat) :
  (∀ k, length (g k) = m) →
  length (mjoin (imap (λ k _, g (n + k)%nat) l)) = (length l * m)%nat.
Proof.
  intros Hg. revert n. induction l as [|x l IH]; intros n; [done|].
  rewrite rows_from, length_app, IH, Hg. simpl. lia.
Qed.

Lemma rendered_matrix_spec (signers : list SignerItem.t) (files : list FileObj.t) :
  Forall (λ box, Checkbox.checked box = true) (rendered_matrix signers files)
  ∧ length (rendered_matrix signers files) = (length signers * length files)%nat
  ∧ ∀ k, ticked_files (rendered_matrix signers files) k
         = if decide (k < length signers)%nat then FileObj.id <$> files else [].
Proof.
  unfold rendered_matrix.
  set (g := λ k : nat, (λ file, Checkbox.mk k (FileObj.id file) true) <$> files).
  change (imap _ signers) with (imap (λ k _, g (0 + k)%nat) signers).
  split; [|split].
  - apply rows_Forall. intros k. unfold g. apply Forall_fmap, Forall_forall. done.
  - apply rows_length. intros k. unfold g. by rewrite length_fmap.
  - intros k.
    rewrite (rows_ticked g (FileObj.id <$> files) k signers 0%nat).
    + simpl. repeat case_decide; try lia; done.
    + intros i. apply rendered_row_ticked.
Qed.

Lemma titles_safe_forallb (files : list FileObj.t) :
  titles_safe files
  → forallb (λ file, title_safe (FileObj.name file)) files = true.
Proof.
  intros H. apply forallb_forall. intros file Hin.
  apply list_elem_of_In in Hin. unfold titles_safe in H.
  rewrite Forall_forall in H. by apply H.
Qed.

Lemma updateDocumentAssignmentMatrix_on (q : Page) :
  enableDocumentAssignment q = true →
  titles_safe (selectedFiles q) →
  (updateDocumentAssignmentMatrix q).2
  = set_assignmentMatrix (rendered_matrix (signersContainer q) (selectedFiles q)) q.
Proof.
  intros Hon Hsafe%titles_safe_forallb.
  unfold updateDocumentAssignmentMatrix. rewrite bind_run.
  change (get q) with (q, q). cbn [fst snd]. rewrite Hon. cbn [negb].
  rewrite Hsafe.
  destruct (selectedFiles q) as [|file files] eqn:Hfiles.
  - cbn [length bool_decide orb]. rewrite bool_decide_eq_true_2 by done.
    cbn [orb]. unfold modify. cbn [snd]. f_equal. symmetry.
    apply length_zero_iff_nil.
    destruct (rendered_matrix_spec (signersContainer q) []) as (_ & -> & _).
    simpl. lia.
  - destruct (signersContainer q) as [|signer signers].
    + rewrite bool_decide_eq_false_2 by done.
      rewrite bool_decide_eq_true_2 by done. done.
    + rewrite !bool_decide_eq_false_2 by done. done.
Qed.

Lemma update_renders (q : Page) :
  enableDocumentAssignment (updateDocumentAssignmentMatrix q).2 = true →
  titles_safe (selectedFiles (updateDocumentAssignmentMatrix q).2) →
  assignmentMatrix (updateDocumentAssignmentMatrix q).2
  = rendered_matrix (signersContainer (updateDocumentAssignmentMatrix q).2)
      (selectedFiles (updateDocumentAssignmentMatrix q).2).
Proof.
  intros Hon Hsafe. destruct (matrix_frame q) as (Hfiles & _ & _ & _ & _ & Hflag).
  rewrite Hflag in Hon. rewrite Hfiles in Hsafe.
  by rewrite updateDocumentAssignmentMatrix_on.
Qed.

Lemma findIndex_Some {A} (pred : A → bool) (l : list A) (x : A) :
  x ∈ l → pred x = true → ∃ index, findIndex pred l = Some index.
Proof.
  intros Hx Hp. induction l as [|y l IH]; [by apply elem_of_nil in Hx|].
  simpl. destruct (pred y) eqn:Hy; [by eexists|].
  apply elem_of_cons in Hx as [->|Hx]; [congruence|].
  destruct (IH Hx) as [index ->]. by eexists.
Qed.

Lemma handle_renders (e : Event) (p : Page) :
  renders_matrix e p →
  let p' := (handle formatFileSize window_i18n e p).2 in
  enableDocumentAssignment p' = true →
  titles_safe (selectedFiles p') →
  assignmentMatrix p' = rendered_matrix (signersContainer p') (selectedFiles p').
Proof.
  destruct e; simpl; intros Hgoes; try done.
  - destruct (select_event_frame formatFileSize files p) as (-> & -> & -> & ->).
    unfold selectFiles, handleFileSelection. rewrite !bind_run. simpl.
    rewrite bool_decide_eq_false_2 by lia.
    rewrite !bind_run. unfold updateFileDisplay at 1 2 3 4. simpl.
    apply update_renders.
  - destruct Hgoes as (f & Hf & Hid). unfold removeFile. rewrite !bind_run. simpl.
    destruct (findIndex_Some (λ f, bool_decide (FileObj.id f = fileId))
                (selectedFiles p) f Hf) as [index ->];
      [by apply bool_decide_eq_true|].
    rewrite !bind_run. unfold updateFileDisplay at 1 2 3 4. simpl.
    apply update_renders.
  - unfold clearAllFiles. rewrite !bind_run. unfold updateFileDisplay. simpl.
    apply update_renders.
  - unfold addSigner. rewrite !bind_run. simpl.
    rewrite bool_decide_eq_false_2 by lia.
    rewrite !bind_run. unfold updateRemoveButtons. simpl. apply update_renders.
  - unfold removeSigner. rewrite !bind_run. simpl.
    rewrite bool_decide_eq_false_2 by lia.
    rewrite !bind_run. unfold updateRemoveButtons. simpl. apply update_renders.
  - subst checked. unfold setEnableDocumentAssignment. rewrite !bind_run. simpl.
    apply update_renders.
Qed.

Lemma filter_indexed_elem_of_iff {A} (pred : nat → A → bool) (a : list A) (x : A) :
  x ∈ DigitalSignerApp.filter_indexed pred a
  ↔ ∃ i, a !! i = Some x ∧ pred i x = true.
Proof.
  unfold DigitalSignerApp.filter_indexed. rewrite list_elem_of_fmap. split.
  - intros ([i y] & -> & [Hp Hin]%list_elem_of_filter).
    apply list_elem_of_lookup in Hin as [j Hj]. rewrite list_lookup_imap in Hj.
    destruct (a !! j) as [z|] eqn:Hz; simpl in Hj; [|done].
    injection Hj as <- <-. by exists j.
  - intros (i & Hi & Hp). exists (i, x). split; [done|].
    apply list_elem_of_filter. split; [done|].
    apply list_elem_of_lookup. exists i. by rewrite list_lookup_imap, Hi.
Qed.

(** X6: with assignment mode on, every event that changes the files or the
    rows, and switching the mode on, renders the matrix anew.  When no
    selected file has a double quote in its name, which would end the [title]
    attribute of its boxes and let the rest of the name be read as markup,
    the matrix then has every box ticked, one box per signer row and file:
    what the user had unticked before is not kept. *)
Theorem rendering_ticks_every_box (e : Event) (p : Page) :
  renders_matrix e p →
  let p' := (handle formatFileSize window_i18n e p).2 in
  enableDocumentAssignment p' = true →
  Forall (λ file, title_safe (FileObj.name file) = true) (selectedFiles p') →
  Forall (λ box, Checkbox.checked box = true) (assignmentMatrix p')
  ∧ length (assignmentMatrix p')
    = (length (signersContainer p') * length (selectedFiles p'))%nat
  ∧ ∀ k, (k < length (signersContainer p'))%nat →
         ticked_files (assignmentMatrix p') k = FileObj.id <$> selectedFiles p'.
Proof.
  intros Hgoes. cbv zeta. intros Hon Hsafe.
  rewrite (handle_renders e p Hgoes Hon Hsafe).
  set (p' := (handle formatFileSize window_i18n e p).2).
  destruct (rendered_matrix_spec (signersContainer p') (selectedFiles p'))
    as (Hall & Hlen & Hticked).
  split; [done|]. split; [done|]. intros k Hk. by rewrite Hticked, decide_True.
Qed.

(** X7: with assignment mode on, the object [documentAssignments] that
    [getFormData] builds lists under a signer position the file ids of the
    ticked boxes of that position, in document order, and has no entry for a
    position without a ticked box. *)
Theorem getFormData_lists_ticked_files (p : Page) :
  enableDocumentAssignment p = true →
  ∃ documentAssignments,
    FormData.documentAssignments (getFormData p).1 = Some documentAssignments
    ∧ ∀ k, documentAssignments !! k
           = match ticked_files (assignmentMatrix p) k with
             | [] => None
             | ids => Some ids
             end.
Proof.
  intros Hon. destruct (getFormData_assignments p 0 Hon) as (da & Hda & _).
  exists da. split; [done|]. intros k.
  destruct (getFormData_assignments p k Hon) as (da' & Hda' & Hk). congruence.
Qed.

Lemma fileSigners_ticked_spec (p : Page) (file : FileObj.t) :
  enableDocumentAssignment p = true →
  let data := (getFormData p).1 in
  let ticked k := FileObj.id file ∈ ticked_files (assignmentMatrix p) k in
  (∀ signer,
     signer ∈ DigitalSignerApp.fileSigners data file
     ↔ ∃ k, FormData.signers data !! k = Some signer ∧ ticked k)
  ∧ ((∀ k, (k < length (signersContainer p))%nat → ticked k) →
     DigitalSignerApp.fileSigners data file = FormData.signers data)
  ∧ ((∀ k, ¬ ticked k) → DigitalSignerApp.fileSigners data file = []).
Proof.
  intros Hon data ticked.
  assert (∃ da, FormData.documentAssignments data = Some da
                ∧ ∀ k, DigitalSignerApp.assigned da k (FileObj.id file) = true
                       ↔ ticked k) as (da & Hda & Hassigned).
  { destruct (assigned_ticked p 0 (FileObj.id file) Hon) as (da & Hda & _).
    exists da. split; [done|]. intros k.
    destruct (assigned_ticked p k (FileObj.id file) Hon) as (da' & Hda' & Hk).
    rewrite Hda in Hda'. by injection Hda' as <-. }
  unfold DigitalSignerApp.fileSigners. rewrite Hda. split; [|split].
  - intros signer. rewrite filter_indexed_elem_of_iff.
    by setoid_rewrite Hassigned.
  - intros Hall. apply filter_indexed_all. intros k signer Hk.
    apply Hassigned, Hall. apply lookup_lt_Some in Hk.
    unfold data in Hk. simpl in Hk. by rewrite length_imap in Hk.
  - intros Hnone. apply filter_indexed_none. intros k signer _.
    apply not_true_is_false. intros H%Hassigned. by apply (Hnone k).
Qed.

(** X8: with assignment mode on, the signers the simulator takes for a file
    are the signers at the positions whose box for the file is ticked.  When
    every position has it ticked they are all the signers, as with the mode
    off; when no position has it ticked the file gets no signer at all. *)
Theorem fileSigners_are_the_ticked_positions (p : Page) (file : FileObj.t) :
  enableDocumentAssignment p = true →
  let data := (getFormData p).1 in
  let ticked k := FileObj.id file ∈ ticked_files (assignmentMatrix p) k in
  (∀ signer,
     signer ∈ DigitalSignerApp.fileSigners data file
     ↔ ∃ k, FormData.signers data !! k = Some signer ∧ ticked k)
  ∧ ((∀ k, (k < length (signersContainer p))%nat → ticked k) →
     DigitalSignerApp.fileSigners data file = FormData.signers data)
  ∧ ((∀ k, ¬ ticked k) → DigitalSignerApp.fileSigners data file = []).
Proof. apply fileSigners_ticked_spec. Qed.

End Assignments.

(** ** A submission from end to end *)

Section Submission.

Variable window_i18n : option I18nManager.t.

Import MultipleItemsManager DigitalSignerApp.

(** The page [validateAll] leaves: the rows are marked, and the notice about
    the missing document is added when no file is selected. *)
Lemma validateAll_answer_alerts (p : Page) (l : list Alert.t) :
  (validateAll window_i18n (set_alerts l p)).1 = (validateAll window_i18n p).1.
Proof. by rewrite !validateAll_run. Qed.

Lemma getFormData_validateAll (p : Page) :
  (getFormData (validateAll window_i18n p).2).1 = (getFormData p).1.
Proof.
  rewrite validateAll_run. cbn [snd].
  assert (∀ rows q,
            (getFormData (set_signersContainer rows q)).1
            = FormData.mk (selectedFiles q)
                (imap (λ index signer,
                         Signer.mk
                           (JsString.trim (Input.value (SignerItem.name_input signer)))
                           (JsString.trim (Input.value (SignerItem.email_input signer)))
                           (Input.value (SignerItem.role_select signer)) index) rows)
                (sequentialSigning q)
                (if enableDocumentAssignment q
                 then Some (if enableDocumentAssignment q
                            then foldl collectAssignment ∅ (assignmentMatrix q)
                            else ∅)
                 else None)) as -> by done.
  rewrite <- list_fmap_compose, imap_fmap.
  assert (∀ q : Page,
            (if bool_decide (length (selectedFiles p) = 0%nat)
             then set_alerts (alerts p ++ [no_document_alert])
                    (set_clock_calls (S (clock_calls p)) p)
             else p) = q →
            selectedFiles q = selectedFiles p
            ∧ sequentialSigning q = sequentialSigning p
            ∧ enableDocumentAssignment q = enableDocumentAssignment p
            ∧ assignmentMatrix q = assignmentMatrix p) as Hq.
  { intros q <-. by destruct (bool_decide _). }
  destruct (Hq _ eq_refl) as (-> & -> & -> & ->).
  unfold getFormData. run_state. f_equal. apply imap_ext.
  intros index item _. unfold compose. by rewrite validateSignerItem_spec.
Qed.

Lemma handleFormSubmit_run (p : Page) :
  let p1 := (validateAll window_i18n (set_alerts [] p)).2 in
  let signing := signMultipleDocuments (getFormData p).1 p1 in
  handleFormSubmit window_i18n p
  = if (validateAll window_i18n p).1
    then (Some signing.1.2,
          match signing.1.2 with
          | Resolved _ =>
              set_alerts
                (alerts signing.2
                 ++ [Alert.mk "Processo de assinatura iniciado com sucesso!"
                       Alert.success 5000])
                (set_clock_calls (S (S (clock_calls signing.2))) signing.2)
          | Rejected error_message =>
              set_alerts
                (alerts signing.2
                 ++ [Alert.mk ("Erro ao assinar o documento: " +:+ error_message)
                       Alert.error 0])
                (set_clock_calls (S (clock_calls signing.2)) signing.2)
          end)
    else (None, p1).
Proof.
  cbv zeta. unfold handleFormSubmit.
  rewrite bind_run. change (Utils.clearAlerts p).2 with (set_alerts [] p). cbv beta.
  rewrite bind_run, validateAll_answer_alerts.
  destruct ((validateAll window_i18n p).1); cbn [negb]; cbv iota; [|done].
  rewrite bind_run, getFormData_pure, bind_run, bind_run.
  rewrite getFormData_validateAll.
  assert ((getFormData (set_alerts [] p)).1 = (getFormData p).1) as -> by done.
  by destruct ((signMultipleDocuments (getFormData p).1
                  (validateAll window_i18n (set_alerts [] p)).2).1.2).
Qed.

Lemma validateAll_page (q : Page) :
  let q' := (validateAll window_i18n q).2 in
  selectedFiles q' = selectedFiles q ∧ docUpload q' = docUpload q
  ∧ sequentialSigning q' = sequentialSigning q
  ∧ enableDocumentAssignment q' = enableDocumentAssignment q
  ∧ assignmentMatrix q' = assignmentMatrix q
  ∧ random_source q' = random_source q ∧ random_calls q' = random_calls q
  ∧ clock_source q' = clock_source q
  ∧ clock_calls q' = (if decide (selectedFiles q = [])
                      then S (clock_calls q) else clock_calls q)
  ∧ alerts q' = if decide (selectedFiles q = [])
                then alerts q ++ [no_document_alert] else alerts q.
Proof.
  cbv zeta. rewrite validateAll_run. cbn [snd].
  destruct (selectedFiles q) as [|file files] eqn:Hfiles; simpl;
    by rewrite ?Hfiles.
Qed.

Lemma getFormData_ext (q q' : Page) :
  selectedFiles q' = selectedFiles q → signersContainer q' = signersContainer q →
  sequentialSigning q' = sequentialSigning q →
  enableDocumentAssignment q' = enableDocumentAssignment q →
  assignmentMatrix q' = assignmentMatrix q →
  (getFormData q').1 = (getFormData q).1.
Proof. unfold getFormData. run_state. by intros -> -> -> -> ->. Qed.

(** X9: how a submission ends.  It stops at validation exactly when no file
    is selected or a signer row is incomplete; otherwise the second draw of
    the random source decides: below 0.05 the signing is rejected with the
    communication failure, and from 0.05 on it resolves with one result per
    selected file, in order, for the request read from the page. *)
Theorem handleFormSubmit_outcome (p : Page) :
  let complete :=
    selectedFiles p ≠ [] ∧ Forall row_complete (signersContainer p) in
  match (handleFormSubmit window_i18n p).1 with
  | None => ¬ complete
  | Some (Rejected error_message) =>
      complete ∧ (failure_draw p <? 0.05)%float = true
      ∧ error_message = "Falha na comunicação com o servidor"
  | Some (Resolved outcome) =>
      complete ∧ (failure_draw p <? 0.05)%float = false
      ∧ Forall2 (document_entry (getFormData p).1) (selectedFiles p)
          (SigningOutcome.signingResults outcome)
  end.
Proof.
  cbv zeta. rewrite handleFormSubmit_run. cbv zeta.
  pose proof (validateAll_accepts_spec window_i18n p) as Hiff.
  destruct ((validateAll window_i18n p).1); cbn [fst].
  2:{ intros H. apply Hiff in H. done. }
  set (p1 := (validateAll window_i18n (set_alerts [] p)).2).
  assert (failure_draw p1 = failure_draw p) as Hdraw.
  { destruct (validateAll_page (set_alerts [] p))
      as (_ & _ & _ & _ & _ & Hsource & Hcalls & _).
    unfold failure_draw, p1. by rewrite Hsource, Hcalls. }
  destruct (failure_draw p <? 0.05)%float eqn:Hfail.
  - rewrite signMultipleDocuments_rejected by by rewrite Hdraw.
    split; [by apply Hiff|done].
  - destruct (signMultipleDocuments_resolved (getFormData p).1 p1)
      as (outcome & -> & _ & Hdocs); [by rewrite Hdraw|].
    split; [by apply Hiff|]. split; [done|]. exact Hdocs.
Qed.

(** X10: the notices on the page after a submission.  The earlier notices are
    gone and at most one is shown: the request for a document when no file is
    selected, nothing at all when only signer rows are incomplete, the
    success notice after a signing that resolved, and after a rejected one
    the error notice, which does not expire. *)
Theorem handleFormSubmit_notice (p : Page) :
  alerts (handleFormSubmit window_i18n p).2
  = match (handleFormSubmit window_i18n p).1 with
    | None => if decide (selectedFiles p = []) then [no_document_alert] else []
    | Some (Resolved _) =>
        [Alert.mk "Processo de assinatura iniciado com sucesso!" Alert.success 5000]
    | Some (Rejected error_message) =>
        [Alert.mk ("Erro ao assinar o documento: " +:+ error_message) Alert.error 0]
    end.
Proof.
  rewrite handleFormSubmit_run. cbv zeta.
  set (p1 := (validateAll window_i18n (set_alerts [] p)).2).
  assert (alerts p1 = if decide (selectedFiles p = [])
                      then [no_document_alert] else []) as Hp1.
  { destruct (validateAll_page (set_alerts [] p))
      as (_ & _ & _ & _ & _ & _ & _ & _ & _ & Halerts).
    fold p1 in Halerts. rewrite Halerts. simpl. by destruct (decide _). }
  pose proof (validateAll_accepts_spec window_i18n p) as Hiff.
  destruct ((validateAll window_i18n p).1); cbn [fst snd]; [|done].
  destruct (proj1 Hiff eq_refl) as [Hfiles _].
  rewrite decide_False in Hp1 by done.
  pose proof (signMultipleDocuments_step (getFormData p).1 p1) as Hstep.
  apply world_step_frame in Hstep as (_ & _ & Halerts & _).
  destruct ((signMultipleDocuments (getFormData p).1 p1).1.2);
    unfold set_alerts; cbn [alerts]; by rewrite Halerts, Hp1.
Qed.

Lemma handleFormSubmit_entries (p : Page) :
  let p' := (handleFormSubmit window_i18n p).2 in
  selectedFiles p' = selectedFiles p ∧ docUpload p' = docUpload p
  ∧ sequentialSigning p' = sequentialSigning p
  ∧ enableDocumentAssignment p' = enableDocumentAssignment p
  ∧ assignmentMatrix p' = assignmentMatrix p
  ∧ (getFormData p').1 = (getFormData p).1
  ∧ ((handleFormSubmit window_i18n p).1 = None →
     random_calls p' = random_calls p
     ∧ clock_calls p' = if decide (selectedFiles p = [])
                        then S (clock_calls p) else clock_calls p).
Proof.
  cbv zeta. rewrite handleFormSubmit_run. cbv zeta.
  set (p1 := (validateAll window_i18n (set_alerts [] p)).2).
  destruct (validateAll_page (set_alerts [] p))
    as (Hf & Hd & Hs & He & Hm & _ & Hr & _ & Hc & _).
  fold p1 in Hf, Hd, Hs, He, Hm, Hr, Hc. simpl in Hf, Hd, Hs, He, Hm, Hr, Hc.
  assert ((getFormData p1).1 = (getFormData p).1) as Hdata.
  { unfold p1. by rewrite getFormData_validateAll. }
  destruct ((validateAll window_i18n p).1); cbn [fst snd]; [|done].
  pose proof (signMultipleDocuments_step (getFormData p).1 p1) as Hstep.
  apply world_step_frame in Hstep as (Hf' & Hrows' & _ & Hd' & Hs' & He' & Hm').
  set (p2 := (signMultipleDocuments (getFormData p).1 p1).2) in *.
  assert ((getFormData p2).1 = (getFormData p).1) as Hdata2.
  { rewrite <- Hdata. by apply getFormData_ext. }
  assert (∀ l c, selectedFiles (set_alerts l (set_clock_calls c p2))
                 = selectedFiles p
               ∧ docUpload (set_alerts l (set_clock_calls c p2)) = docUpload p
               ∧ sequentialSigning (set_alerts l (set_clock_calls c p2))
                 = sequentialSigning p
               ∧ enableDocumentAssignment (set_alerts l (set_clock_calls c p2))
                 = enableDocumentAssignment p
               ∧ assignmentMatrix (set_alerts l (set_clock_calls c p2))
                 = assignmentMatrix p
               ∧ (getFormData (set_alerts l (set_clock_calls c p2))).1
                 = (getFormData p).1) as Hall.
  { intros l c. repeat split; try (cbn; congruence).
    etrans; [|exact Hdata2]. by apply getFormData_ext. }
  destruct ((signMultipleDocuments (getFormData p).1 p1).1.2);
    match goal with |- context [set_alerts ?l (set_clock_calls ?c p2)] =>
      destruct (Hall l c) as (? & ? & ? & ? & ? & ?) end;
    by repeat split.
Qed.

(** X11: a submission leaves what the user entered as it was, whether it
    stops at validation, is rejected or resolves: the selected files, the
    file input, the two options, the boxes of the matrix and the request that
    [getFormData] reads are the same afterwards, so the same request can be
    sent again.  When it stops at validation no random draw is consumed, and
    the clock is read once when no file is selected, for the notice that asks
    for a document, and not at all otherwise. *)
Theorem handleFormSubmit_keeps_entries (p : Page) :
  let p' := (handleFormSubmit window_i18n p).2 in
  selectedFiles p' = selectedFiles p ∧ docUpload p' = docUpload p
  ∧ sequentialSigning p' = sequentialSigning p
  ∧ enableDocumentAssignment p' = enableDocumentAssignment p
  ∧ assignmentMatrix p' = assignmentMatrix p
  ∧ (getFormData p').1 = (getFormData p).1
  ∧ ((handleFormSubmit window_i18n p).1 = None →
     random_calls p' = random_calls p
     ∧ clock_calls p' = if decide (selectedFiles p = [])
                        then S (clock_calls p) else clock_calls p).
Proof. apply handleFormSubmit_entries. Qed.

Lemma ticked_files_unticked (matrix : list Checkbox.t) (k : nat) :
  Forall (λ box, Checkbox.checked box = false) matrix → ticked_files matrix k = [].
Proof.
  induction 1 as [|box matrix Hbox _ IH]; [done|].
  rewrite ticked_files_cons, decide_False; [done|]. intros [? _]. congruence.
Qed.

(** X12: assignment mode on and no box ticked.  Validation does not look at
    the matrix: when a file is selected, the rows are complete and the
    signing is not rejected, the submission resolves with one result per
    selected file and no signer in any of them. *)
Theorem submission_with_nothing_ticked (p : Page) :
  enableDocumentAssignment p = true →
  Forall (λ box, Checkbox.checked box = false) (assignmentMatrix p) →
  selectedFiles p ≠ [] → Forall row_complete (signersContainer p) →
  (failure_draw p <? 0.05)%float = false →
  ∃ outcome,
    (handleFormSubmit window_i18n p).1 = Some (Resolved outcome)
    ∧ length (SigningOutcome.signingResults outcome) = length (selectedFiles p)
    ∧ Forall (λ doc, DocumentResult.signers doc = [])
        (SigningOutcome.signingResults outcome).
Proof.
  intros Hon Hunticked Hfiles Hrows Hdraw.
  rewrite handleFormSubmit_run. cbv zeta.
  rewrite (proj2 (validateAll_accepts_spec window_i18n p)) by done.
  set (p1 := (validateAll window_i18n (set_alerts [] p)).2).
  assert (failure_draw p1 = failure_draw p) as Hp1.
  { destruct (validateAll_page (set_alerts [] p))
      as (_ & _ & _ & _ & _ & Hsource & Hcalls & _).
    unfold failure_draw, p1. by rewrite Hsource, Hcalls. }
  destruct (signMultipleDocuments_resolved (getFormData p).1 p1)
    as (outcome & -> & _ & Hdocs); [by rewrite Hp1|].
  exists outcome. split; [done|].
  change (FormData.files (getFormData p).1) with (selectedFiles p) in Hdocs.
  split; [symmetry; by eapply Forall2_length|].
  apply Forall_forall. intros doc Hdoc.
  apply list_elem_of_lookup in Hdoc as [i Hdoc].
  destruct (Forall2_lookup_r _ _ _ _ _ Hdocs Hdoc) as (file & _ & _ & _ & Hsigners).
  destruct (fileSigners_ticked_spec p file Hon) as (_ & _ & Hnone).
  cbv zeta in Hnone. rewrite Hnone in Hsigners.
  - by apply Forall2_nil_inv_l in Hsigners.
  - intros k. rewrite ticked_files_unticked by done. apply not_elem_of_nil.
Qed.

End Submission.

(** ** The answer of [validateForm] and the messages it stores *)

Section ValidatorErrors.

Variable window_i18n : option I18nManager.t.
Variable selector_engine
  : string → list FormValidator.Field
    → completion (option (nat * FormValidator.Field)).

Import FormValidator.

Lemma JsMap_delete_absent {V} (key : string) (m : JsMap.t V) :
  JsMap.get key m = None → JsMap.delete key m = m.
Proof.
  induction m as [|[k v] m IH]; simpl; [done|].
  case_decide; [done|]. intros Hget. by rewrite IH.
Qed.

Lemma JsMap_set_not_nil {V} (key : string) (v : V) (m : JsMap.t V) :
  JsMap.set key v m ≠ [].
Proof. destruct m as [|[k w] m]; simpl; [done|]. by case_decide. Qed.

Lemma JsMap_get_None_key {V} (key : string) (m : JsMap.t V) :
  JsMap.get key m = None ↔ key ∉ m.*1.
Proof.
  induction m as [|[k v] m IH].
  - split; [intros _; apply not_elem_of_nil|done].
  - rewrite fmap_cons, not_elem_of_cons. cbn [JsMap.get fst].
    destruct (decide (k = key)) as [->|Hk].
    + split; [done|]. by intros [? _].
    + rewrite IH. split; [by split|by intros [_ ?]].
Qed.

Lemma JsMap_set_keys {V} (key : string) (v : V) (m : JsMap.t V) :
  (JsMap.set key v m).*1
  = if JsMap.has key m then m.*1 else m.*1 ++ [key].
Proof.
  unfold JsMap.has. induction m as [|[k w] m IH]; [done|].
  cbn [JsMap.set JsMap.get]. destruct (decide (k = key)) as [->|Hk]; [done|].
  rewrite !fmap_cons, IH. by destruct (JsMap.get key m).
Qed.

Lemma JsMap_set_NoDup {V} (key : string) (v : V) (m : JsMap.t V) :
  NoDup m.*1 → NoDup (JsMap.set key v m).*1.
Proof.
  intros Hm. rewrite JsMap_set_keys. unfold JsMap.has.
  destruct (JsMap.get key m) eqn:Hget; [done|].
  apply NoDup_app. split; [done|]. split; [|apply NoDup_singleton].
  intros k Hk ->%list_elem_of_singleton. by apply JsMap_get_None_key in Hget.
Qed.

Lemma querySelector_name (fieldName : string) (fv : t) (position : nat)
    (field : Field) :
  plain_name fieldName = true →
  querySelector selector_engine fieldName fv = Normal (Some (position, field)) →
  name field = fieldName.
Proof.
  intros Hplain. rewrite (querySelector_plain selector_engine _ _ Hplain).
  intros [= Hfind]. by apply list_find_Some in Hfind as (_ & ? & _).
Qed.

(** The messages after [validateField] on a field that has a rule. *)
Lemma validateField_errors (position : nat) (field : Field) (fv : t) :
  has_docUpload_rule fv →
  is_Some (JsMap.get (name field) (rules fv)) →
  ∃ b fv',
    validateField window_i18n position field fv = Normal (b, fv')
    ∧ rules fv' = rules fv
    ∧ (b = true → errors fv' = JsMap.delete (name field) (errors fv))
    ∧ (b = false →
       ∃ message,
         errors fv'
         = JsMap.set (name field) message (JsMap.delete (name field) (errors fv))).
Proof.
  intros Hrule [rule Hget]. unfold validateField.
  unfold mbind at 1, Exec_bind at 1. unfold lift at 1, get at 1. rewrite Hget.
  set (fv1 := set_form
                (alter (λ f, mkField (name f) (type f) (value f) (files f) None
                               None false (field_valid f)) position (form fv))
                (set_errors (JsMap.delete (name field) (errors fv)) fv)).
  assert (clearFieldError position field fv = Normal (tt, fv1)) as Hclear by done.
  rewrite (exec_bind_run _ _ _ _ _ Hclear).
  assert (has_docUpload_rule fv1) as Hrule1 by done.
  destruct (run_validate_spec window_i18n (validate rule) (value field)
              (match files field with Some l => head l | None => None end)
              fv1 Hrule1) as (error & Hrun & Htruthy).
  rewrite (exec_bind_run _ _ _ _ _ Hrun).
  destruct error as [message|].
  - rewrite (Htruthy message eq_refl).
    eexists false, _. split; [reflexivity|]. simpl. split; [done|].
    split; [done|]. intros _. by exists message.
  - eexists true, _. split; [reflexivity|]. simpl. split; [done|].
    split; [|done]. intros _. apply JsMap_delete_absent, JsMap_get_delete.
Qed.

(** The loop of [validateForm]: the flag is true exactly while no message is
    stored, as long as the rules still to visit have distinct plain names
    that are not among the stored messages. *)
Lemma validateForm_loop_errors (entries : list (string * Rule)) (b : bool) (fv : t) :
  has_docUpload_rule fv → NoDup entries.*1 →
  Forall (λ entry, plain_name entry.1 = true) entries →
  (∀ key, key ∈ entries.*1 →
          JsMap.get key (errors fv) = None ∧ is_Some (JsMap.get key (rules fv))) →
  (b = true ↔ errors fv = []) →
  ∃ b' fv',
    validateForm_loop window_i18n selector_engine entries b fv = Normal (b', fv')
    ∧ (b' = true ↔ errors fv' = []).
Proof.
  revert b fv. induction entries as [|[fieldName rule] entries IH];
    intros b fv Hrule Hnodup Hplain Hkeys Hflag.
  - by exists b, fv.
  - rewrite fmap_cons in Hnodup, Hkeys. cbn [fst] in Hnodup, Hkeys.
    apply NoDup_cons in Hnodup as [Hfresh Hnodup].
    apply Forall_cons in Hplain as [Hname Hplain]. cbn [fst] in Hname.
    simpl. unfold mbind at 1, Exec_bind at 1. unfold lift at 1, get at 1.
    unfold mbind at 1, Exec_bind at 1. unfold call at 1.
    pose proof (querySelector_name fieldName fv) as Hquery.
    rewrite (querySelector_plain selector_engine fieldName fv Hname) in Hquery |- *.
    destruct (list_find _ _) as [[position field]|].
    2:{ apply IH; [done..| |done]. intros key Hkey. apply Hkeys. by right. }
    specialize (Hquery position field Hname eq_refl).
    destruct (Hkeys fieldName) as [Habsent Hsome]; [left|].
    rewrite <- Hquery in Habsent, Hsome.
    destruct (validateField_errors position field fv Hrule Hsome)
      as (ok & fv1 & Hrun & Hrules & Hok & Hko).
    rewrite (exec_bind_run _ _ _ _ _ Hrun).
    rewrite (JsMap_delete_absent _ _ Habsent) in Hok, Hko.
    apply IH.
    + unfold has_docUpload_rule. by rewrite Hrules.
    + done.
    + done.
    + intros key Hkey. rewrite Hrules.
      destruct (Hkeys key) as [Hnone Hthere]; [by right|]. split; [|done].
      destruct ok; [by rewrite Hok|].
      destruct (Hko eq_refl) as [message ->].
      rewrite JsMap_get_set_ne; [done|]. rewrite Hquery. by intros ->.
    + destruct ok; [by rewrite Hok|].
      destruct (Hko eq_refl) as [message ->]. split; [done|].
      by intros ?%JsMap_set_not_nil.
Qed.

Lemma validateForm_errors (fv : t) :
  built_in_rules fv →
  ∃ b fv',
    validateForm window_i18n selector_engine fv = Normal (b, fv')
    ∧ isValid fv' = b ∧ rules fv' = rules fv
    ∧ (b = true ↔ errors fv' = []).
Proof.
  intros Hrule.
  assert (NoDup (rules fv).*1) as Hnodup.
  { rewrite Hrule. simpl. apply NoDup_cons. split; [|apply NoDup_singleton].
    by intros ?%list_elem_of_singleton. }
  destruct (validateForm_loop_errors (rules fv) true (set_errors [] fv))
    as (b & fv1 & Hloop & Hflag);
    [by apply built_in_has_docUpload|done|by apply built_in_plain| |done|].
  { intros key Hkey. split; [done|]. simpl.
    destruct (JsMap.get key (rules fv)) eqn:Hget; [by eexists|].
    by apply JsMap_get_None_key in Hget. }
  destruct (validateForm_loop_spec window_i18n selector_engine (rules fv) true
              (set_errors [] fv))
    as (b0 & fv0 & Hloop0 & Hrules0);
    [by apply built_in_plain|by apply built_in_has_docUpload|].
  rewrite Hloop in Hloop0. injection Hloop0 as <- <-.
  exists b, (set_isValid b fv1). split; [|done].
  unfold validateForm, mbind, Exec_bind, lift, modify, get. simpl.
  change (rules fv) with (rules (set_errors [] fv)) in Hloop.
  simpl in Hloop. by rewrite Hloop.
Qed.

(** X13: on the validator that the constructor builds on a form, after any
    events, [validateForm] completes, writes its answer to the flag and
    answers true exactly when it leaves no message stored, so [hasErrors]
    answers the opposite right after it. *)
Theorem validateForm_answer_matches_errors (formElement : list Field)
    (events : list ValidatorEvent.t) :
  ∃ fv b fv',
    validator_after window_i18n selector_engine formElement events
    = Normal (tt, fv)
    ∧ validateForm window_i18n selector_engine fv = Normal (b, fv')
    ∧ isValid fv' = b
    ∧ (b = true ↔ errors fv' = [])
    ∧ hasErrors fv' = Normal (negb b, fv').
Proof.
  destruct (validator_after_spec window_i18n selector_engine formElement events)
    as (fv & Hfv & Hrule & _).
  destruct (validateForm_errors fv Hrule) as (b & fv' & Hrun & Hflag & _ & Hiff).
  exists fv, b, fv'. split; [done|]. split; [done|]. split; [done|]. split; [done|].
  unfold hasErrors, mbind, Exec_bind, lift, get, mret, Exec_ret. do 2 f_equal.
  destruct b.
  - rewrite (proj1 Hiff eq_refl). done.
  - destruct (errors fv') as [|entry l]; [by pose proof (proj2 Hiff eq_refl)|].
    apply bool_decide_eq_true. simpl. lia.
Qed.

End ValidatorErrors.

(** ** The icon of a file *)

Section FileIcon.

Import MultipleItemsManager.

Lemma getFileIcon_spec (fileName : string) :
  ∃ ext,
    text_after_last_dot fileName ext
    ∧ JsString.pop (JsString.split "." fileName) = Some ext
    ∧ (Utils.isFileTypeAllowed fileName Utils.default_allowedTypes = true
       ↔ JsString.toLowerCase ext ∈ ["pdf"; "docx"; "txt"])
    ∧ (getFileIcon fileName ∈ ["pdf"; "word"; "text"]
       ↔ JsString.toLowerCase ext ∈ ["pdf"; "docx"; "doc"; "txt"]).
Proof.
  destruct (FileTypeFacts.pop_split_complete fileName) as (ext & Hpop & Hext).
  exists ext. split; [done|]. split; [done|].
  unfold Utils.isFileTypeAllowed, Utils.default_allowedTypes, getFileIcon.
  rewrite Hpop. simpl. set (e := JsString.toLowerCase ext). clearbody e.
  rewrite bool_decide_eq_true. change ("." +:+ e) with (String "." e). split.
  - rewrite !elem_of_cons, !elem_of_nil. split.
    + intros [H|[H|[H|[]]]]; injection H as ->; auto.
    + intros [->|[->|[->|[]]]]; auto.
  - repeat case_bool_decide; subst; simpl; rewrite !elem_of_cons, !elem_of_nil;
      split; auto; intros Hor; decompose [or] Hor; try done; auto 10.
Qed.

(** X14: the icon and the type check read the same extension.  A name passes
    the type check exactly when its icon is one of pdf, word and text and the
    lower-cased text after its last dot is not doc: every file of the
    collection gets a specific icon, and a .doc name, which has the word
    icon, is never in the collection. *)
Theorem getFileIcon_of_allowed_name (fileName : string) :
  Utils.isFileTypeAllowed fileName Utils.default_allowedTypes = true
  ↔ getFileIcon fileName ∈ ["pdf"; "word"; "text"]
    ∧ ¬ ∃ ext, text_after_last_dot fileName ext ∧ JsString.toLowerCase ext = "doc".
Proof.
  destruct (getFileIcon_spec fileName) as (ext & Hext & Hpop & Hallowed & Hicon).
  rewrite Hallowed, Hicon. rewrite !elem_of_cons, !elem_of_nil. split.
  - intros H. split; [tauto|]. intros (ext' & Hext' & Hdoc).
    apply FileTypeFacts.pop_split_sound in Hext'.
    assert (ext' = ext) as -> by congruence. rewrite Hdoc in H.
    decompose [or] H; done.
  - intros [H Hdoc].
    destruct H as [H|[H|[H|[H|[]]]]]; auto.
    destruct Hdoc. by exists ext.
Qed.

End FileIcon.

(** ** Languages *)

Section Languages.

Import I18nManager.

Lemma detect_from_browser_spec (browserLang : option string) (env env' : Env) :
  detect_from_browser browserLang env = Some env' →
  env' = env
  ∨ ∃ language, language ∈ supportedLanguages
                ∧ env' = set_currentLanguage language env.
Proof.
  unfold detect_from_browser. destruct browserLang as [browserLang|]; [|done].
  destruct (List.find _ supportedLanguages) as [matchedLang|] eqn:Hfind;
    [|intros [= <-]; by left].
  apply find_some in Hfind as [Hin _]. apply list_elem_of_In in Hin.
  destruct (JsString.truthy matchedLang); intros [= <-]; [right|by left].
  by exists matchedLang.
Qed.

Lemma detectLanguage_spec (browserLang : option string) (env env' : Env) :
  detectLanguage browserLang env = Some env' →
  env' = env
  ∨ ∃ language, language ∈ supportedLanguages
                ∧ env' = set_currentLanguage language env.
Proof.
  unfold detectLanguage.
  destruct (preferred_language env) as [savedLang|];
    [|apply detect_from_browser_spec].
  destruct (JsString.truthy savedLang && bool_decide (savedLang ∈ supportedLanguages))
    eqn:Hsaved; [|apply detect_from_browser_spec].
  apply andb_true_iff in Hsaved as [_ Hsaved%bool_decide_eq_true].
  intros [= <-]. right. by exists savedLang.
Qed.

Lemma startup_supported (browserLang storage : option string) :
  currentLanguage (manager (startup browserLang storage)) ∈ supportedLanguages.
Proof.
  unfold startup, init. cbv zeta.
  destruct (detectLanguage browserLang (mkEnv new storage)) as [env|] eqn:Hdetect;
    simpl; [|by left].
  apply detectLanguage_spec in Hdetect as [->|(language & Hin & ->)]; [by left|done].
Qed.

Lemma setLanguage_supported (language : string) (env : Env) :
  currentLanguage (manager env) ∈ supportedLanguages →
  currentLanguage (manager (setLanguage language env)) ∈ supportedLanguages.
Proof. unfold setLanguage. by case_bool_decide. Qed.

(** X15: the current language is always one of the three supported ones:
    after the start, whatever the saved preference and the language of the
    browser are and also when the detection throws, and after any calls of
    [setLanguage], whatever their arguments. *)
Theorem language_stays_supported (browserLang storage : option string)
    (languages : list string) :
  getCurrentLanguage
    (manager (foldl (λ env language, setLanguage language env)
                (startup browserLang storage) languages))
  ∈ supportedLanguages.
Proof.
  unfold getCurrentLanguage.
  pose proof (startup_supported browserLang storage) as Hstart.
  revert Hstart. generalize (startup browserLang storage).
  induction languages as [|language languages IH]; intros env Henv; [done|].
  simpl. by apply IH, setLanguage_supported.
Qed.

(** X16: a supported language passed to [setLanguage] becomes the current
    one, is saved, and is the current language again after a new start with
    the saved item, whatever the language of the browser is, also when the
    browser reports none. *)
Theorem setLanguage_survives_reload (language : string) (env : Env)
    (browserLang : option string) :
  language ∈ supportedLanguages →
  getCurrentLanguage (manager (setLanguage language env)) = language
  ∧ preferred_language (setLanguage language env) = Some language
  ∧ getCurrentLanguage
      (manager (startup browserLang (preferred_language (setLanguage language env))))
    = language.
Proof.
  intros Hin. unfold setLanguage. rewrite bool_decide_eq_true_2 by done.
  split; [done|]. split; [done|]. simpl.
  unfold startup, init, detectLanguage. simpl.
  rewrite (bool_decide_eq_true_2 _ Hin).
  assert (JsString.truthy language = true) as ->; [|done].
  unfold supportedLanguages in Hin.
  rewrite !elem_of_cons, elem_of_nil in Hin. by destruct Hin as [->|[->|[->|[]]]].
Qed.

(** X17: without a saved preference, a browser language of two code units or
    more selects the supported language that begins with the same two code
    units, compared as they are, and leaves the current language alone when
    there is none: en-GB gives en-US, while EN-us and fr-FR change nothing. *)
Theorem detectLanguage_matches_two_letters (browserLang : string) (env : Env) :
  preferred_language env = None →
  (2 ≤ String.length browserLang)%nat →
  (∀ language,
     language ∈ supportedLanguages →
     JsString.substr 0 2 language = JsString.substr 0 2 browserLang →
     detectLanguage (Some browserLang) env
     = Some (set_currentLanguage language env))
  ∧ ((∀ language,
        language ∈ supportedLanguages →
        JsString.substr 0 2 language ≠ JsString.substr 0 2 browserLang) →
     detectLanguage (Some browserLang) env = Some env).
Proof.
  intros Hnone Hlen.
  destruct browserLang as [|c1 [|c2 rest]]; [simpl in Hlen; lia..|]. clear Hlen.
  unfold detectLanguage, detect_from_browser. rewrite Hnone.
  assert (JsString.substr 0 2 (String c1 (String c2 rest))
          = String c1 (String c2 "")) as -> by by destruct rest.
  split.
  - intros language Hin Heq. unfold supportedLanguages in Hin.
    rewrite !elem_of_cons, elem_of_nil in Hin.
    destruct Hin as [->|[->|[->|[]]]]; injection Heq as <- <-; reflexivity.
  - intros Hnomatch.
    assert (∀ language, language ∈ supportedLanguages →
                        String.prefix (String c1 (String c2 "")) language = false)
      as Hprefix.
    { intros language Hin. specialize (Hnomatch language Hin).
      unfold supportedLanguages in Hin. rewrite !elem_of_cons, elem_of_nil in Hin.
      destruct Hin as [->|[->|[->|[]]]]; simpl in *;
        repeat (destruct (ascii_dec _ _) as [->|?]; [|done]); done. }
    unfold supportedLanguages in *. cbn [List.find].
    rewrite !Hprefix; [done|set_solver..].
Qed.

(** Every key of the Portuguese table has a text that is not empty in each
    of the three tables. *)
Lemma tables_complete (language key : string) :
  language ∈ supportedLanguages → key ∈ pt_BR.*1 →
  ∃ table text,
    translation_tables !! language = Some table
    ∧ table !! key = Some text ∧ JsString.truthy text = true.
Proof.
  assert (forallb
            (λ language,
               forallb
                 (λ key,
                    match translation_tables !! language with
                    | Some table =>
                        match table !! key with
                        | Some text => JsString.truthy text
                        | None => false
                        end
                    | None => false
                    end) pt_BR.*1) supportedLanguages = true) as Hcheck
    by (vm_compute; reflexivity).
  intros Hlanguage Hkey.
  apply list_elem_of_In in Hlanguage. apply list_elem_of_In in Hkey.
  rewrite forallb_forall in Hcheck. specialize (Hcheck language Hlanguage).
  rewrite forallb_forall in Hcheck. specialize (Hcheck key Hkey).
  destruct (translation_tables !! language) as [table|]; [|done].
  destruct (table !! key) as [text|] eqn:Htext; [|done]. by exists table, text.
Qed.

(** The English and the Spanish table list the keys of the Portuguese one
    and no other. *)
Lemma tables_same_keys :
  dom (list_to_map en_US : gmap string string)
  = dom (list_to_map pt_BR : gmap string string)
  ∧ dom (list_to_map es_ES : gmap string string)
    = dom (list_to_map pt_BR : gmap string string).
Proof.
  assert (∀ l1 l2 : list (string * string),
            forallb (λ key, bool_decide (key ∈ l2.*1)) l1.*1 = true →
            forallb (λ key, bool_decide (key ∈ l1.*1)) l2.*1 = true →
            dom (list_to_map l1 : gmap string string)
            = dom (list_to_map l2 : gmap string string)) as Hdom.
  { intros l1 l2 H12 H21. rewrite !dom_list_to_map_L.
    rewrite forallb_forall in H12, H21. apply set_eq. intros key.
    rewrite !elem_of_list_to_set. split; intros Hkey%list_elem_of_In.
    - by apply H12, bool_decide_eq_true in Hkey.
    - by apply H21, bool_decide_eq_true in Hkey. }
  split; apply Hdom; vm_compute; reflexivity.
Qed.

Lemma reached_manager (browserLang storage : option string) (env0 : Env)
    (languages : list string) :
  init browserLang (mkEnv new storage) = Some env0 →
  let i18n := manager (foldl (λ env language, setLanguage language env)
                         env0 languages) in
  translations i18n = translation_tables
  ∧ currentLanguage i18n ∈ supportedLanguages.
Proof.
  intros Hinit. cbv zeta.
  assert (translations (manager env0) = translation_tables
          ∧ currentLanguage (manager env0) ∈ supportedLanguages) as Hstart.
  { unfold init in Hinit.
    destruct (detectLanguage browserLang (mkEnv new storage)) as [env|] eqn:Hdetect;
      [|done].
    injection Hinit as <-. split; [done|].
    apply detectLanguage_spec in Hdetect as [->|(language & Hin & ->)];
      [by left|done]. }
  revert Hstart. generalize env0.
  induction languages as [|language languages IH]; intros env Henv; [done|].
  simpl. apply IH. destruct Henv as [Htables Hcurrent].
  split; [|by apply setLanguage_supported].
  unfold setLanguage. by case_bool_decide.
Qed.

(** X18: once [init] has completed, and after any calls of [setLanguage],
    every key of the Portuguese table is translated in the current language:
    each of the three tables has a text that is not empty for it, so
    [getTranslation] returns the text of the current table and never echoes
    such a key. *)
Theorem every_listed_key_is_translated (browserLang storage : option string)
    (env0 : Env) (languages : list string) (key : string) :
  init browserLang (mkEnv new storage) = Some env0 →
  key ∈ pt_BR.*1 →
  let i18n := manager (foldl (λ env language, setLanguage language env)
                         env0 languages) in
  ∃ table text,
    translation_tables !! getCurrentLanguage i18n = Some table
    ∧ table !! key = Some text
    ∧ text ≠ ""
    ∧ getTranslation i18n key = text.
Proof.
  intros Hinit Hkey. cbv zeta.
  destruct (reached_manager browserLang storage env0 languages Hinit)
    as [Htables Hcurrent].
  cbv zeta in Htables, Hcurrent.
  set (i18n := manager (foldl _ env0 languages)) in *.
  destruct (tables_complete (currentLanguage i18n) key Hcurrent Hkey)
    as (table & text & Htable & Htext & Htruthy).
  exists table, text. split; [done|]. split; [done|].
  split; [by destruct text|].
  unfold getTranslation. by rewrite Htables, Htable, Htext, Htruthy.
Qed.

(** X19: when the browser reports no language and no supported language is
    saved, the detection throws; the start logs the error and keeps the
    manager of the constructor, without tables, so every lookup echoes its
    key and the message [validateSignerField] shows for an empty name is the
    key name-required itself. *)
Theorem failed_detection_echoes_keys (storage : option string) (key : string) :
  (∀ language, storage = Some language → language ∉ supportedLanguages) →
  init None (mkEnv new storage) = None
  ∧ getTranslation (manager (startup None storage)) key = key
  ∧ MultipleItemsManager.signer_field_error
      (Some (manager (startup None storage))) MultipleItemsManager.NameInput ""
    = "name-required".
Proof.
  intros Hstorage.
  assert (init None (mkEnv new storage) = None) as Hinit.
  { unfold init, detectLanguage. simpl. destruct storage as [language|]; [|done].
    rewrite (bool_decide_eq_false_2 _ (Hstorage language eq_refl)).
    by rewrite andb_false_r. }
  split; [done|]. unfold startup. cbv zeta. rewrite Hinit. by split.
Qed.

End Languages.

(** ** The start of the application *)

Section Start.

Import DigitalSignerAppInit.

Lemma poll_spec (i18n_loaded : nat → bool) (remaining attempts : nat) :
  let attempts' := poll i18n_loaded attempts remaining in
  (attempts ≤ attempts' ≤ attempts + remaining)%nat
  ∧ (∀ k, (attempts ≤ k < attempts')%nat → i18n_loaded k = false)
  ∧ ((attempts' < attempts + remaining)%nat → i18n_loaded attempts' = true).
Proof.
  revert attempts. induction remaining as [|remaining IH]; intros attempts; simpl.
  - split; [lia|]. split; intros; lia.
  - destruct (i18n_loaded attempts) eqn:Hloaded; simpl.
    + split; [lia|]. split; [intros; lia|done].
    + destruct (IH (S attempts)) as (Hrange & Hbefore & Hfound).
      split; [lia|]. split.
      * intros k Hk. destruct (decide (k = attempts)) as [->|Hne]; [done|].
        apply Hbefore. lia.
      * intros Hlt. apply Hfound. lia.
Qed.

Lemma waitForDependencies_spec (i18n_loaded : nat → bool) :
  match waitForDependencies i18n_loaded with
  | Normal attempts =>
      (attempts ≤ 50)%nat ∧ i18n_loaded attempts = true
      ∧ ∀ k, (k < attempts)%nat → i18n_loaded k = false
  | Throw error =>
      error = "i18n dependency failed to load"
      ∧ ∀ k, (k ≤ 50)%nat → i18n_loaded k = false
  end.
Proof.
  unfold waitForDependencies. cbv zeta.
  destruct (poll_spec i18n_loaded 50 0) as (Hrange & Hbefore & Hfound).
  cbv zeta in *. set (attempts := poll i18n_loaded 0 50) in *.
  destruct (i18n_loaded attempts) eqn:Hloaded; simpl.
  - split; [lia|]. split; [done|]. intros k Hk. apply Hbefore. lia.
  - split; [done|]. intros k Hk.
    destruct (decide (attempts < 50)%nat) as [Hlt|Hge].
    { assert (false = true) by (apply Hfound; lia). done. }
    destruct (decide (k = attempts)) as [->|Hne]; [done|]. apply Hbefore. lia.
Qed.

(** X20: [waitForDependencies] waits at most 50 times.  It returns at the
    first of its checks that finds [window.i18n], and it throws exactly when
    none of the 51 checks, before the first wait and after each of the 50
    waits, finds it. *)
Theorem waitForDependencies_waits_at_most_50_times (i18n_loaded : nat → bool) :
  match waitForDependencies i18n_loaded with
  | Normal attempts =>
      (attempts ≤ 50)%nat ∧ i18n_loaded attempts = true
      ∧ ∀ k, (k < attempts)%nat → i18n_loaded k = false
  | Throw error =>
      error = "i18n dependency failed to load"
      ∧ ∀ k, (k ≤ 50)%nat → i18n_loaded k = false
  end.
Proof. apply waitForDependencies_spec. Qed.

Lemma checkBrowserSupport_spec (w : Window) (p : Page) :
  let required :=
    window_File w && window_FileReader w && window_FileList w && window_Blob w
    && window_localStorage w && window_addEventListener w
    && document_querySelector w in
  if required then checkBrowserSupport w p = (Normal tt, p)
  else ∃ message error,
         checkBrowserSupport w p
         = (Throw error,
            set_alerts (alerts p ++ [Alert.mk message Alert.error 0])
              (set_clock_calls (S (clock_calls p)) p)).
Proof.
  destruct w as [[] [] [] [] [] ? [] [] ?]; cbv zeta; cbn [window_File
    window_FileReader window_FileList window_Blob window_localStorage
    window_addEventListener document_querySelector andb];
    solve [ by destruct p | eexists _, _; reflexivity ].
Qed.

Lemma app_cons_ne {A} (l l' : list A) (x : A) : l ++ x :: l' ≠ l.
Proof.
  intros H. apply (f_equal length) in H. rewrite length_app in H. simpl in H. lia.
Qed.

(** X21: the notices of [init].  It adds none exactly when one of the 51
    checks finds [window.i18n] and the browser has File, FileReader,
    FileList, Blob, localStorage, addEventListener and querySelector; fetch
    and sessionStorage play no part.  Otherwise it adds one or two error
    notices, none of which expires. *)
Theorem init_is_silent_iff (i18n_loaded : nat → bool) (w : Window) (p : Page) :
  let p' := (init i18n_loaded w p).2 in
  (∃ notices,
     alerts p' = alerts p ++ notices ∧ (length notices ≤ 2)%nat
     ∧ Forall (λ a, Alert.type a = Alert.error ∧ Alert.duration a = 0) notices)
  ∧ (alerts p' = alerts p
     ↔ (∃ n, (n ≤ 50)%nat ∧ i18n_loaded n = true)
       ∧ window_File w = true ∧ window_FileReader w = true
       ∧ window_FileList w = true ∧ window_Blob w = true
       ∧ window_localStorage w = true ∧ window_addEventListener w = true
       ∧ document_querySelector w = true).
Proof.
  cbv zeta. unfold init.
  pose proof (waitForDependencies_spec i18n_loaded) as Hwait.
  destruct (waitForDependencies i18n_loaded) as [attempts|error].
  2:{ destruct Hwait as [_ Hnever]. unfold handleCriticalError.
      rewrite showAlert_run. cbn [snd alerts set_alerts]. split.
      - eexists [_]. split; [reflexivity|]. split; [simpl; lia|].
        by repeat constructor.
      - split; [by intros ?%app_cons_ne|].
        intros [(n & Hn & Hloaded) _]. rewrite Hnever in Hloaded; done. }
  destruct Hwait as (Hle & Hloaded & _). rewrite bind_run.
  pose proof (checkBrowserSupport_spec w p) as Hsupport. cbv zeta in Hsupport.
  destruct (window_File w && window_FileReader w && window_FileList w
            && window_Blob w && window_localStorage w
            && window_addEventListener w && document_querySelector w) eqn:Hrequired.
  - rewrite Hsupport. simpl. split.
    + exists []. rewrite app_nil_r. split; [done|]. split; [simpl; lia|constructor].
    + split; [|done]. intros _. split; [by exists attempts|].
      repeat (apply andb_true_iff in Hrequired as [Hrequired ?]). done.
  - destruct Hsupport as (message & error & ->). cbn [fst snd].
    unfold handleCriticalError. rewrite showAlert_run.
    cbn [snd alerts set_alerts set_clock_calls]. split.
    + eexists [_; _]. rewrite <- app_assoc. split; [reflexivity|].
      split; [simpl; lia|]. by repeat constructor.
    + split.
      * rewrite <- app_assoc. by intros ?%app_cons_ne.
      * intros (_ & H1 & H2 & H3 & H4 & H5 & H6 & H7).
        by rewrite H1, H2, H3, H4, H5, H6, H7 in Hrequired.
Qed.

End Start.

(** ** Adding and taking back *)

Section RoundTrips.

Variable formatFileSize : Z → string.

Import MultipleItemsManager.

Lemma validateFile_accepts (file : File.t) (p : Page) :
  File.size file ≤ maxFileSize →
  Utils.isFileTypeAllowed (File.name file) [".pdf"; ".docx"; ".txt"] = true →
  (File.name file, File.size file) ∉ file_key <$> selectedFiles p →
  validateFile formatFileSize file p = (true, p).
Proof.
  intros Hsize Htype Hkey.
  destruct (validateFile_spec formatFileSize file p) as [(-> & _)|[alert Halert]];
    [done|].
  exfalso. revert Halert. unfold validateFile, Utils.showAlert. run_state.
  rewrite (proj2 (Z.ltb_ge _ _)) by done. rewrite Htype. simpl.
  destruct (existsb _ (selectedFiles p)) eqn:Hdup; [|done].
  apply existsb_exists in Hdup
    as (f & Hf & [Hname%bool_decide_eq_true Hsz%bool_decide_eq_true]%andb_true_iff).
  destruct Hkey. apply list_elem_of_fmap. exists f.
  split; [|by apply list_elem_of_In]. unfold file_key. by rewrite Hname, Hsz.
Qed.

(** X22: a file that passes the checks is appended under the id made from
    the next draw, without a notice, and removing that id gives the
    collection back as it was, provided no earlier record bears the id.  The
    id is not compared with the earlier ones: when an earlier record bears
    it, it is that record which is removed and the new one stays. *)
Theorem selectFile_then_removeFile (file : File.t) (p : Page) :
  (length (selectedFiles p) < maxFiles)%nat →
  File.size file ≤ maxFileSize →
  Utils.isFileTypeAllowed (File.name file) [".pdf"; ".docx"; ".txt"] = true →
  (File.name file, File.size file) ∉ file_key <$> selectedFiles p →
  let id := "id-" +:+ JsString.substr 2 9
                        (Draw.base36 (random_source p (random_calls p))) in
  let record :=
    FileObj.mk id file (File.name file) (File.size file) (File.type file) in
  let p1 := (handleFileSelection formatFileSize [file] p).2 in
  selectedFiles p1 = selectedFiles p ++ [record]
  ∧ alerts p1 = alerts p
  ∧ ((∀ f, f ∈ selectedFiles p → FileObj.id f ≠ id) →
     selectedFiles (removeFile id p1).2 = selectedFiles p)
  ∧ (∀ before f after,
       selectedFiles p = before ++ f :: after →
       FileObj.id f = id →
       (∀ g, g ∈ before → FileObj.id g ≠ id) →
       selectedFiles (removeFile id p1).2 = before ++ after ++ [record]).
Proof.
  intros Hroom Hsize Htype Hkey. cbv zeta.
  set (id := "id-" +:+ JsString.substr 2 9
                         (Draw.base36 (random_source p (random_calls p)))).
  set (record := FileObj.mk id file (File.name file) (File.size file)
                   (File.type file)).
  assert (∃ matrix,
            (handleFileSelection formatFileSize [file] p).2
            = set_assignmentMatrix matrix
                (set_selectedFiles (selectedFiles p ++ [record])
                   (set_random_calls (S (random_calls p)) p))) as [matrix ->].
  { unfold handleFileSelection. rewrite bind_run. simpl.
    rewrite bool_decide_eq_false_2 by lia.
    rewrite !bind_run. unfold updateFileDisplay at 1. simpl.
    rewrite (validateFile_accepts file p Hsize Htype Hkey). simpl.
    unfold addFile, Utils.generateId, Math_random. run_state.
    match goal with |- context [updateDocumentAssignmentMatrix ?q] =>
      destruct (updateDocumentAssignmentMatrix_spec q) as [m ->] end.
    by exists m. }
  split; [done|]. split; [done|].
  assert (∀ before after : list FileObj.t,
            ∀ f, selectedFiles p ++ [record] = before ++ f :: after →
                 FileObj.id f = id →
                 (∀ g, g ∈ before → FileObj.id g ≠ id) →
                 selectedFiles
                   (removeFile id
                      (set_assignmentMatrix matrix
                         (set_selectedFiles (selectedFiles p ++ [record])
                            (set_random_calls (S (random_calls p)) p)))).2
                 = before ++ after) as Hremove.
  { intros before after f Hsel Hf Hbefore. unfold removeFile.
    rewrite bind_run. simpl. rewrite Hsel. rewrite findIndex_first.
    - rewrite !bind_run. simpl.
      match goal with |- context [updateDocumentAssignmentMatrix ?q] =>
        destruct (matrix_frame q) as (-> & _) end.
      simpl. apply delete_middle.
    - intros g Hg. apply bool_decide_eq_false. by apply Hbefore.
    - by apply bool_decide_eq_true. }
  split.
  - intros Hfresh. rewrite (Hremove (selectedFiles p) [] record); try done.
    by rewrite app_nil_r.
  - intros before f after Hsel Hf Hbefore.
    rewrite (Hremove before (after ++ [record]) f); try done.
    rewrite Hsel. by rewrite <- app_assoc.
Qed.

(** X23: below the limit [addSigner] appends a blank row whose index
    attribute is the number of rows before, and removing that row gives the
    rows back as they were, with the signers [getFormData] reads. *)
Theorem addSigner_then_removeSigner (p : Page) :
  (1 ≤ length (signersContainer p) < maxSigners)%nat →
  let count := length (signersContainer p) in
  let p1 := (addSigner p).2 in
  signersContainer p1 = signersContainer p ++ [SignerItem.blank count]
  ∧ alerts p1 = alerts p
  ∧ signersContainer (removeSigner count p1).2 = signersContainer p
  ∧ FormData.signers (getFormData (removeSigner count p1).2).1
    = FormData.signers (getFormData p).1.
Proof.
  intros Hcount. cbv zeta.
  assert (∃ matrix,
            (addSigner p).2
            = set_assignmentMatrix matrix
                (set_signersContainer
                   (signersContainer p
                    ++ [SignerItem.blank (length (signersContainer p))]) p))
    as [matrix ->].
  { unfold addSigner. rewrite bind_run. simpl.
    rewrite bool_decide_eq_false_2 by lia. rewrite !bind_run. simpl.
    match goal with |- context [updateDocumentAssignmentMatrix ?q] =>
      destruct (updateDocumentAssignmentMatrix_spec q) as [m ->] end.
    by exists m. }
  split; [done|]. split; [done|].
  assert (signersContainer
            (removeSigner (length (signersContainer p))
               (set_assignmentMatrix matrix
                  (set_signersContainer
                     (signersContainer p
                      ++ [SignerItem.blank (length (signersContainer p))]) p))).2
          = signersContainer p) as Hrows.
  { unfold removeSigner. rewrite bind_run. simpl.
    rewrite bool_decide_eq_false_2 by (rewrite length_app; simpl; lia).
    rewrite !bind_run. simpl.
    match goal with |- context [updateDocumentAssignmentMatrix ?q] =>
      destruct (matrix_frame q) as (_ & -> & _) end.
    simpl. rewrite delete_middle. apply app_nil_r. }
  split; [done|]. simpl. by rewrite Hrows.
Qed.

End RoundTrips.

(** ** The matrix follows the collections *)

Section MatrixInvariant.

Variable formatFileSize : Z → string.
Variable window_i18n : option I18nManager.t.

Import MultipleItemsManager.

Lemma row_files_checked (matrix : list Checkbox.t) (k : nat) :
  Forall (λ box, Checkbox.checked box = true) matrix →
  row_files matrix k = ticked_files matrix k.
Proof.
  unfold row_files, ticked_files.
  induction 1 as [|box matrix Hbox _ IH]; [done|].
  rewrite !filter_cons. destruct (decide (Checkbox.signer box = k)) as [Hk|Hk].
  - rewrite decide_True by done. by rewrite !fmap_cons, IH.
  - rewrite decide_False by tauto. done.
Qed.

Lemma row_files_alter (f : Checkbox.t → Checkbox.t) (position : nat)
    (matrix : list Checkbox.t) (k : nat) :
  (∀ box, Checkbox.signer (f box) = Checkbox.signer box
          ∧ Checkbox.file (f box) = Checkbox.file box) →
  row_files (alter f position matrix) k = row_files matrix k.
Proof.
  intros Hf. unfold row_files. revert position.
  induction matrix as [|box matrix IH]; intros [|position]; try done.
  - cbn [alter list_alter]. rewrite !filter_cons. destruct (Hf box) as [-> Hfile].
    case_decide; [|done]. by rewrite !fmap_cons, Hfile.
  - cbn [alter list_alter]. rewrite !filter_cons.
    case_decide; rewrite ?fmap_cons; by rewrite (IH position).
Qed.

Lemma rendered_in_step (q : Page) :
  assignmentMatrix q = rendered_matrix (signersContainer q) (selectedFiles q) →
  matrix_in_step q.
Proof.
  intros Hq k. rewrite Hq.
  destruct (rendered_matrix_spec (signersContainer q) (selectedFiles q))
    as (Hall & _ & Hticked).
  by rewrite row_files_checked.
Qed.

Lemma in_step_ext (p q : Page) :
  assignmentMatrix q = assignmentMatrix p →
  length (signersContainer q) = length (signersContainer p) →
  selectedFiles q = selectedFiles p →
  matrix_in_step p → matrix_in_step q.
Proof. unfold matrix_in_step. by intros -> -> ->. Qed.

Lemma sublist_Forall {A} (P : A → Prop) (k l : list A) :
  k `sublist_of` l → Forall P l → Forall P k.
Proof.
  induction 1 as [|x k l _ IH|x k l _ IH]; intros Hl; [done| |].
  - apply Forall_cons in Hl as [? ?]. constructor; auto.
  - apply Forall_cons in Hl as [? ?]. auto.
Qed.

(** The names of the collection stay free of double quotes when the files
    that come in are. *)
Lemma handle_titles_safe (e : Event) (p : Page) :
  event_titles_safe e → titles_safe (selectedFiles p) →
  titles_safe (selectedFiles (handle formatFileSize window_i18n e p).2).
Proof.
  intros He Hp. destruct e; simpl.
  - destruct (select_event_frame formatFileSize files p) as (-> & _).
    unfold selectFiles. rewrite bind_run. simpl.
    destruct (handleFileSelection_added formatFileSize files (set_docUpload files p))
      as (added & -> & Hsub & Hcopy).
    apply Forall_app. split; [done|].
    simpl in He. apply (sublist_Forall _ _ _ Hsub) in He.
    rewrite Forall_fmap in He.
    apply Forall_forall. intros f Hf.
    rewrite Forall_forall in He, Hcopy.
    destruct (Hcopy f Hf) as (-> & _). by apply He.
  - unfold removeFile. rewrite bind_run. simpl. destruct (findIndex _ _); [|done].
    rewrite !bind_run. simpl.
    destruct (matrix_frame (set_selectedFiles (delete n (selectedFiles p)) p))
      as (-> & _). simpl.
    by apply (sublist_Forall _ _ _ (sublist_delete _ _)).
  - unfold clearAllFiles. rewrite !bind_run. simpl.
    destruct (matrix_frame (set_selectedFiles [] p)) as (-> & _). constructor.
  - unfold addSigner. rewrite bind_run. simpl. case_bool_decide.
    + by rewrite showAlert_run.
    + rewrite !bind_run. simpl.
      match goal with |- context [updateDocumentAssignmentMatrix ?q] =>
        destruct (matrix_frame q) as (-> & _) end. done.
  - unfold removeSigner. rewrite bind_run. simpl. case_bool_decide.
    + by rewrite showAlert_run.
    + rewrite !bind_run. simpl.
      match goal with |- context [updateDocumentAssignmentMatrix ?q] =>
        destruct (matrix_frame q) as (-> & _) end. done.
  - unfold typeSignerField, clearSignerError. by run_state.
  - unfold blurSignerField. by run_state.
  - unfold setEnableDocumentAssignment. rewrite bind_run. simpl.
    destruct checked; [|done].
    match goal with |- context [updateDocumentAssignmentMatrix ?q] =>
      destruct (matrix_frame q) as (-> & _) end. done.
  - unfold setAssignmentCheckbox. by run_state.
  - unfold setSequentialSigning. by run_state.
  - rewrite bind_run. simpl.
    by destruct (handleFormSubmit_frame window_i18n p) as [-> _].
Qed.

(** Every event keeps the matrix in step while assignment mode is on and the
    names of the collection are free of double quotes. *)
Lemma handle_matrix_in_step (e : Event) (p : Page) :
  (enableDocumentAssignment p = true → matrix_in_step p) →
  titles_safe (selectedFiles (handle formatFileSize window_i18n e p).2) →
  enableDocumentAssignment (handle formatFileSize window_i18n e p).2 = true →
  matrix_in_step (handle formatFileSize window_i18n e p).2.
Proof.
  intros Hp. destruct e; simpl.
  - destruct (select_event_frame formatFileSize files p) as (Hs1 & Hs2 & Hs3 & Hs4).
    cbv zeta in Hs1, Hs2, Hs3, Hs4. rewrite Hs1, Hs4. intros Hsafe Hon.
    apply (in_step_ext (selectFiles formatFileSize files p).2);
      [done|by rewrite Hs2|done|].
    revert Hsafe Hon. clear Hs1 Hs2 Hs3 Hs4.
    unfold selectFiles, handleFileSelection. rewrite !bind_run. simpl.
    case_bool_decide as Hcap.
    + rewrite showAlert_run. simpl. intros _ Hon.
      by apply (in_step_ext p); [..|apply Hp].
    + rewrite !bind_run. unfold updateFileDisplay. simpl.
      intros Hsafe Hon. by apply rendered_in_step, update_renders.
  - unfold removeFile. rewrite !bind_run. simpl.
    destruct (findIndex _ (selectedFiles p)) as [index|]; [|by intros _].
    rewrite !bind_run. unfold updateFileDisplay. simpl.
    intros Hsafe Hon. by apply rendered_in_step, update_renders.
  - unfold clearAllFiles. rewrite !bind_run. unfold updateFileDisplay. simpl.
    intros Hsafe Hon.
    match goal with |- matrix_in_step (set_docUpload [] ?q) =>
      apply (in_step_ext q); [done..|] end.
    by apply rendered_in_step, update_renders.
  - unfold addSigner. rewrite !bind_run. simpl. case_bool_decide as Hmax.
    + rewrite showAlert_run. simpl. intros _ Hon.
      by apply (in_step_ext p); [..|apply Hp].
    + rewrite !bind_run. unfold updateRemoveButtons. simpl.
      intros Hsafe Hon. by apply rendered_in_step, update_renders.
  - unfold removeSigner. rewrite !bind_run. simpl. case_bool_decide as Hmin.
    + rewrite showAlert_run. simpl. intros _ Hon.
      by apply (in_step_ext p); [..|apply Hp].
    + rewrite !bind_run. unfold updateRemoveButtons. simpl.
      intros Hsafe Hon. by apply rendered_in_step, update_renders.
  - unfold typeSignerField, clearSignerError. run_state. intros _ Hon.
    apply (in_step_ext p); [done| |done|by apply Hp].
    simpl. by rewrite !length_alter.
  - unfold blurSignerField. run_state. intros _ Hon.
    apply (in_step_ext p); [done| |done|by apply Hp].
    simpl. by rewrite !length_alter.
  - unfold setEnableDocumentAssignment. rewrite !bind_run. simpl.
    destruct checked; [|by intros _].
    intros Hsafe Hon. by apply rendered_in_step, update_renders.
  - unfold setAssignmentCheckbox. run_state. intros _ Hon k.
    unfold matrix_in_step in Hp. simpl. rewrite row_files_alter by done.
    by apply Hp.
  - unfold setSequentialSigning. run_state. intros _ Hon.
    by apply (in_step_ext p); [..|apply Hp].
  - rewrite bind_run. simpl.
    destruct (handleFormSubmit_entries window_i18n p)
      as (Hfiles & _ & _ & Hflag & Hmatrix & _).
    destruct (handleFormSubmit_frame window_i18n p) as [_ Hrows].
    cbv zeta in *. intros _ Hon. rewrite Hflag in Hon.
    by apply (in_step_ext p); [..|apply Hp].
Qed.

Lemma run_invariant_on (P : Page → Prop) (E : Event → Prop)
    (events : list Event) (p : Page) :
  (∀ e q, E e → P q → P (handle formatFileSize window_i18n e q).2) →
  Forall E events → P p → P (run formatFileSize window_i18n events p).2.
Proof.
  intros Hstep Hevents. revert p. unfold run.
  induction Hevents as [|e events He _ IH]; intros p Hp; [done|].
  rewrite forEach_cons. apply IH, Hstep; done.
Qed.

(** X24: while assignment mode is on the matrix is in step with the two
    collections, as long as no file name holds a double quote, which would
    end the [title] attribute of a box and let the rest of the name be read
    as markup.  After any sequence of events from a page on which the mode is
    off, with such names in the collection and in the selections, if the mode
    is on then every signer row has one box per selected file, in the order
    of the collection, ticked or not, and there is no box for any other
    position: the request never carries a file or a position that is no
    longer there. *)
Theorem matrix_follows_collections (events : list Event) (p : Page) :
  enableDocumentAssignment p = false →
  Forall (λ file, title_safe (FileObj.name file) = true) (selectedFiles p) →
  Forall event_titles_safe events →
  let p' := (run formatFileSize window_i18n events p).2 in
  enableDocumentAssignment p' = true →
  ∀ k, row_files (assignmentMatrix p') k
       = if decide (k < length (signersContainer p'))%nat
         then FileObj.id <$> selectedFiles p' else [].
Proof.
  intros Hoff Hsafe Hevents. cbv zeta.
  apply (run_invariant_on
           (λ q, titles_safe (selectedFiles q)
                 ∧ (enableDocumentAssignment q = true → matrix_in_step q))
           event_titles_safe events p); [|done|].
  - intros e q He [Hq Hstep].
    pose proof (handle_titles_safe e q He Hq) as Hq'.
    split; [done|]. by apply handle_matrix_in_step.
  - split; [done|]. intros Hon. congruence.
Qed.

End MatrixInvariant.

(** ** The two checks of a file *)

(** X25: the rule [docUpload] of a form validator fresh from the constructor
    and [validateFile] of the multiple-items manager judge a first file
    alike: for a file selected while the collection is empty, the rule
    answers [null] exactly when [validateFile] answers true, that is when the
    size is at most 10 MB and the extension is allowed. *)
Theorem first_file_checks_agree (window_i18n : option I18nManager.t)
    (formatFileSize : Z → string) (formElement : list FormValidator.Field)
    (value : string) (file : File.t) (p : Page) :
  selectedFiles p = [] →
  ∃ fv,
    FormValidator.new formElement = Normal (tt, fv)
    ∧ (FormValidator.run_validate window_i18n FormValidator.validate_docUpload
         value (Some file) fv = Normal (None, fv)
       ↔ (MultipleItemsManager.validateFile formatFileSize file p).1 = true)
    ∧ ((MultipleItemsManager.validateFile formatFileSize file p).1 = true
       ↔ File.size file ≤ 10 * 1024 * 1024
         ∧ Utils.isFileTypeAllowed (File.name file) [".pdf"; ".docx"; ".txt"]
           = true).
Proof.
  intros Hempty.
  exists (FormValidator.mk formElement
            [("docUpload", FormValidator.docUpload_rule);
             ("signerName", FormValidator.signerName_rule)] [] false).
  split; [reflexivity|].
  generalize FormValidator.signerName_rule. intros rule.
  unfold FormValidator.run_validate, MultipleItemsManager.validateFile,
    Utils.default_allowedTypes, Utils.showAlert,
    MultipleItemsManager.maxFileSize.
  unfold mbind, Exec_bind, State_bind, lift, get, mret, Exec_ret, State_ret,
    modify. rewrite Hempty. simpl.
  destruct (Utils.isFileTypeAllowed (File.name file) [".pdf"; ".docx"; ".txt"]);
    simpl; repeat case_match;
    repeat match goal with
           | H : (_ <? _) = true |- _ => apply Z.ltb_lt in H
           | H : (_ <? _) = false |- _ => apply Z.ltb_ge in H
           end;
    try lia; simpl;
    (split; split; try done; try (intros [? ?]; done || lia);
     try (intros _; split; [lia|done])).
Qed.

(** ** The further theorems at the sample runs *)

(** A name of two characters with a chosen role: the name field is marked and
    the row shows no message. *)
Lemma validateAll_marks_rows_witness :
  signersContainer short_name_page !! 0%nat
  = Some (SignerItem.mk 0 (Input.mk "Al" false) (Input.mk "ana@example.com" false)
            (Input.mk "assinante" false) "")
  ∧ ∃ item',
      signersContainer (MultipleItemsManager.validateAll None short_name_page).2
      !! 0%nat = Some item'
      ∧ Input.field_error (SignerItem.name_input item') = true
      ∧ SignerItem.error_message item' = "".
Proof.
  assert (signersContainer short_name_page !! 0%nat
          = Some (SignerItem.mk 0 (Input.mk "Al" false)
                    (Input.mk "ana@example.com" false)
                    (Input.mk "assinante" false) "")) as H by reflexivity.
  split; [exact H|].
  destruct (validateAll_marks_rows None short_name_page 0 _ H)
    as (item' & Hitem' & _ & _ & Hname & _ & _ & Hmessage).
  exists item'. split; [exact Hitem'|]. split; [|exact Hmessage].
  destruct (Input.field_error (SignerItem.name_input item')); [reflexivity|].
  apply proj1 in Hname. specialize (Hname eq_refl). vm_compute in Hname. lia.
Defined.


(** A row is added on the page whose first box was unticked; the only file
    is contract.pdf. *)
Lemma rendering_ticks_every_box_witness :
  renders_matrix AddSigner filtered_page
  ∧ enableDocumentAssignment
      (handle sample_formatFileSize None AddSigner filtered_page).2 = true
  ∧ Forall (λ file, MultipleItemsManager.title_safe (FileObj.name file) = true)
      (selectedFiles (handle sample_formatFileSize None AddSigner filtered_page).2)
  ∧ Checkbox.checked <$> assignmentMatrix filtered_page = [false; true]
  ∧ Forall (λ box, Checkbox.checked box = true)
      (assignmentMatrix (handle sample_formatFileSize None AddSigner filtered_page).2).
Proof.
  assert (renders_matrix AddSigner filtered_page) as Hgoes by (vm_compute; lia).
  assert (enableDocumentAssignment
            (handle sample_formatFileSize None AddSigner filtered_page).2 = true)
    as Hon by (vm_compute; reflexivity).
  assert (Forall (λ file, MultipleItemsManager.title_safe (FileObj.name file) = true)
            (selectedFiles
               (handle sample_formatFileSize None AddSigner filtered_page).2))
    as Hsafe.
  { assert (selectedFiles
              (handle sample_formatFileSize None AddSigner filtered_page).2
            = [contract_record]) as -> by (vm_compute; reflexivity).
    by repeat constructor. }
  split; [exact Hgoes|]. split; [exact Hon|]. split; [exact Hsafe|].
  split; [vm_compute; reflexivity|].
  apply (rendering_ticks_every_box sample_formatFileSize None AddSigner
           filtered_page Hgoes Hon Hsafe).
Defined.

(** The page whose first signer is unticked for the only file: the object
    has no entry for position 0 and lists the file under position 1. *)
Lemma getFormData_lists_ticked_files_witness :
  enableDocumentAssignment filtered_page = true
  ∧ ∃ documentAssignments,
      FormData.documentAssignments
        (MultipleItemsManager.getFormData filtered_page).1
      = Some documentAssignments
      ∧ documentAssignments !! 0%nat = None
      ∧ documentAssignments !! 1%nat = Some ["id-i"].
Proof.
  assert (enableDocumentAssignment filtered_page = true) as Hon by reflexivity.
  split; [exact Hon|].
  destruct (getFormData_lists_ticked_files filtered_page Hon) as (da & Hda & Hk).
  exists da. split; [exact Hda|]. split; rewrite Hk; reflexivity.
Defined.

(** On the same page the second signer is among the signers of the file and
    the first one is not. *)
Lemma fileSigners_are_the_ticked_positions_witness :
  enableDocumentAssignment filtered_page = true
  ∧ Signer.mk "Bruno Costa" "bruno@example.com" "testemunha" 1
    ∈ DigitalSignerApp.fileSigners
        (MultipleItemsManager.getFormData filtered_page).1 contract_record.
Proof.
  assert (enableDocumentAssignment filtered_page = true) as Hon by reflexivity.
  split; [exact Hon|].
  destruct (fileSigners_are_the_ticked_positions filtered_page contract_record Hon)
    as (Hmember & _ & _).
  apply Hmember. exists 1%nat. split; [reflexivity|].
  assert (ticked_files (assignmentMatrix filtered_page) 1 = ["id-i"]) as ->
    by reflexivity.
  apply list_elem_of_here.
Defined.

(** Assignment mode on and the only box unticked: the submission resolves
    and its only document has no signer. *)
Lemma submission_with_nothing_ticked_witness :
  enableDocumentAssignment unticked_page = true
  ∧ Checkbox.checked <$> assignmentMatrix unticked_page = [false]
  ∧ (failure_draw unticked_page <? 0.05)%float = false
  ∧ ∃ outcome,
      (DigitalSignerApp.handleFormSubmit None unticked_page).1
      = Some (Resolved outcome)
      ∧ length (SigningOutcome.signingResults outcome) = 1%nat
      ∧ Forall (λ doc, DocumentResult.signers doc = [])
          (SigningOutcome.signingResults outcome).
Proof.
  assert (enableDocumentAssignment unticked_page = true) as Hon by reflexivity.
  assert (Forall (λ box, Checkbox.checked box = false)
            (assignmentMatrix unticked_page)) as Hunticked
    by (repeat constructor).
  assert (selectedFiles unticked_page ≠ []) as Hfiles by discriminate.
  assert (Forall row_complete (signersContainer unticked_page)) as Hrows.
  { assert (signersContainer unticked_page
            = [SignerItem.mk 0 (Input.mk "Ana Silva" false)
                 (Input.mk "ana@example.com" false)
                 (Input.mk "assinante" false) ""]) as -> by reflexivity.
    constructor; [|constructor]. split; [|split].
    - vm_compute. lia.
    - exists "ana", "example", "com". repeat split; discriminate.
    - discriminate. }
  assert ((failure_draw unticked_page <? 0.05)%float = false) as Hdraw
    by (vm_compute; reflexivity).
  split; [exact Hon|]. split; [reflexivity|]. split; [exact Hdraw|].
  apply (submission_with_nothing_ticked None unticked_page
           Hon Hunticked Hfiles Hrows Hdraw).
Defined.

(** English is chosen in a Portuguese browser and found again at the next
    start. *)
Lemma setLanguage_survives_reload_witness :
  "en-US" ∈ I18nManager.supportedLanguages
  ∧ I18nManager.getCurrentLanguage
      (I18nManager.manager
         (I18nManager.startup (Some "pt-PT")
            (I18nManager.preferred_language
               (I18nManager.setLanguage "en-US"
                  (I18nManager.startup (Some "pt-PT") None)))))
    = "en-US".
Proof.
  assert ("en-US" ∈ I18nManager.supportedLanguages) as H
    by (apply list_elem_of_further, list_elem_of_here).
  split; [exact H|].
  apply (setLanguage_survives_reload "en-US"
           (I18nManager.startup (Some "pt-PT") None) (Some "pt-PT") H).
Defined.

(** A British browser without a saved preference gets the English table. *)
Lemma detectLanguage_matches_two_letters_witness :
  I18nManager.preferred_language (I18nManager.mkEnv I18nManager.new None) = None
  ∧ (2 ≤ String.length "en-GB")%nat
  ∧ I18nManager.detectLanguage (Some "en-GB")
      (I18nManager.mkEnv I18nManager.new None)
    = Some (I18nManager.mkEnv (I18nManager.mk "en-US" ∅) None).
Proof.
  assert (2 ≤ String.length "en-GB")%nat as Hlen by (vm_compute; lia).
  split; [reflexivity|]. split; [exact Hlen|].
  apply (detectLanguage_matches_two_letters "en-GB"
           (I18nManager.mkEnv I18nManager.new None) eq_refl Hlen).
  - apply list_elem_of_further, list_elem_of_here.
  - reflexivity.
Defined.

(** A Mexican browser: the key of the message for a missing name is looked up
    in the Spanish table. *)
Lemma every_listed_key_is_translated_witness :
  I18nManager.init (Some "es-MX") (I18nManager.mkEnv I18nManager.new None)
  = Some (I18nManager.mkEnv
            (I18nManager.mk "es-ES" I18nManager.translation_tables) None)
  ∧ "name-required" ∈ I18nManager.pt_BR.*1
  ∧ ∃ table text,
      I18nManager.translation_tables !! "es-ES" = Some table
      ∧ table !! "name-required" = Some text
      ∧ text ≠ ""
      ∧ I18nManager.getTranslation
          (I18nManager.mk "es-ES" I18nManager.translation_tables) "name-required"
        = text.
Proof.
  assert (I18nManager.init (Some "es-MX") (I18nManager.mkEnv I18nManager.new None)
          = Some (I18nManager.mkEnv
                    (I18nManager.mk "es-ES" I18nManager.translation_tables) None))
    as Hinit by reflexivity.
  assert ("name-required" ∈ I18nManager.pt_BR.*1) as Hkey
    by (apply (bool_decide_unpack _); vm_compute; exact I).
  split; [exact Hinit|]. split; [exact Hkey|].
  apply (every_listed_key_is_translated (Some "es-MX") None _ [] "name-required"
           Hinit Hkey).
Defined.

(** A saved language that is not supported and a browser that reports none. *)
Lemma failed_detection_echoes_keys_witness :
  (∀ language, Some "fr-FR" = Some language →
               language ∉ I18nManager.supportedLanguages)
  ∧ I18nManager.getTranslation
      (I18nManager.manager (I18nManager.startup None (Some "fr-FR"))) "sign-button"
    = "sign-button".
Proof.
  assert (∀ language, Some "fr-FR" = Some language →
                      language ∉ I18nManager.supportedLanguages) as H.
  { intros language [= <-]. apply (bool_decide_unpack _). vm_compute. exact I. }
  split; [exact H|].
  apply (failed_detection_echoes_keys (Some "fr-FR") "sign-button" H).
Defined.

(** A second file is selected on the page with one file, and removed. *)
Lemma selectFile_then_removeFile_witness :
  (length (selectedFiles one_by_one_page) < MultipleItemsManager.maxFiles)%nat
  ∧ File.size notes_txt ≤ MultipleItemsManager.maxFileSize
  ∧ Utils.isFileTypeAllowed (File.name notes_txt) [".pdf"; ".docx"; ".txt"] = true
  ∧ ((File.name notes_txt, File.size notes_txt)
     ∉ file_key <$> selectedFiles one_by_one_page)
  ∧ FileObj.id
    <$> selectedFiles
          (MultipleItemsManager.handleFileSelection sample_formatFileSize
             [notes_txt] one_by_one_page).2 = ["id-i"; "id-9"]
  ∧ selectedFiles
      (MultipleItemsManager.removeFile "id-9"
         (MultipleItemsManager.handleFileSelection sample_formatFileSize
            [notes_txt] one_by_one_page).2).2
    = selectedFiles one_by_one_page.
Proof.
  assert (length (selectedFiles one_by_one_page) < MultipleItemsManager.maxFiles)%nat
    as Hroom by (vm_compute; lia).
  assert (File.size notes_txt ≤ MultipleItemsManager.maxFileSize) as Hsize
    by (vm_compute; discriminate).
  assert (Utils.isFileTypeAllowed (File.name notes_txt) [".pdf"; ".docx"; ".txt"]
          = true) as Htype by (vm_compute; reflexivity).
  assert ((File.name notes_txt, File.size notes_txt)
          ∉ file_key <$> selectedFiles one_by_one_page) as Hkey
    by (apply (bool_decide_unpack _); vm_compute; exact I).
  split; [exact Hroom|]. split; [exact Hsize|]. split; [exact Htype|].
  split; [exact Hkey|]. split; [reflexivity|].
  destruct (selectFile_then_removeFile sample_formatFileSize notes_txt
              one_by_one_page Hroom Hsize Htype Hkey) as (_ & _ & Hfresh & _).
  apply Hfresh. intros f Hf.
  change (selectedFiles one_by_one_page) with [contract_record] in Hf.
  apply list_elem_of_singleton in Hf. rewrite Hf. discriminate.
Defined.

(** A second row is added on the fresh page, and removed. *)
Lemma addSigner_then_removeSigner_witness :
  (1 ≤ length (signersContainer sample_page) < MultipleItemsManager.maxSigners)%nat
  ∧ signersContainer
      (MultipleItemsManager.removeSigner 1
         (MultipleItemsManager.addSigner sample_page).2).2
    = signersContainer sample_page.
Proof.
  assert (1 ≤ length (signersContainer sample_page)
          < MultipleItemsManager.maxSigners)%nat as H by (vm_compute; lia).
  split; [exact H|].
  apply (addSigner_then_removeSigner sample_page H).
Defined.

(** On the page with one file and one row assignment mode is switched on,
    a second file is selected and the first box is unticked: the row has one
    box for each of the two files. *)
Lemma matrix_follows_collections_witness :
  enableDocumentAssignment one_by_one_page = false
  ∧ Forall (λ file, MultipleItemsManager.title_safe (FileObj.name file) = true)
      (selectedFiles one_by_one_page)
  ∧ Forall event_titles_safe
      [SetEnableDocumentAssignment true; SelectFiles [notes_txt];
       SetAssignmentCheckbox 0 false]
  ∧ enableDocumentAssignment
      (run sample_formatFileSize None
         [SetEnableDocumentAssignment true; SelectFiles [notes_txt];
          SetAssignmentCheckbox 0 false] one_by_one_page).2 = true
  ∧ row_files
      (assignmentMatrix
         (run sample_formatFileSize None
            [SetEnableDocumentAssignment true; SelectFiles [notes_txt];
             SetAssignmentCheckbox 0 false] one_by_one_page).2) 0
    = ["id-i"; "id-9"].
Proof.
  assert (enableDocumentAssignment one_by_one_page = false) as Hoff
    by (vm_compute; reflexivity).
  assert (Forall (λ file, MultipleItemsManager.title_safe (FileObj.name file) = true)
            (selectedFiles one_by_one_page)) as Hsafe.
  { assert (selectedFiles one_by_one_page = [contract_record]) as ->
      by (vm_compute; reflexivity).
    by repeat constructor. }
  assert (Forall event_titles_safe
            [SetEnableDocumentAssignment true; SelectFiles [notes_txt];
             SetAssignmentCheckbox 0 false]) as Hevents.
  { constructor; [exact I|]. constructor; [|by repeat constructor].
    by repeat constructor. }
  assert (enableDocumentAssignment
            (run sample_formatFileSize None
               [SetEnableDocumentAssignment true; SelectFiles [notes_txt];
                SetAssignmentCheckbox 0 false] one_by_one_page).2 = true) as Hon
    by (vm_compute; reflexivity).
  split; [exact Hoff|]. split; [exact Hsafe|]. split; [exact Hevents|].
  split; [exact Hon|].
  rewrite (matrix_follows_collections sample_formatFileSize None
             [SetEnableDocumentAssignment true; SelectFiles [notes_txt];
              SetAssignmentCheckbox 0 false]
             one_by_one_page Hoff Hsafe Hevents Hon 0%nat).
  vm_compute. reflexivity.
Defined.

(** The first file of the sample runs passes both checks. *)
Lemma first_file_checks_agree_witness :
  selectedFiles sample_page = []
  ∧ ∃ fv,
      FormValidator.new sample_form = Normal (tt, fv)
      ∧ FormValidator.run_validate None FormValidator.validate_docUpload ""
          (Some contract_pdf) fv = Normal (None, fv).
Proof.
  assert (selectedFiles sample_page = []) as H by reflexivity.
  split; [exact H|].
  destruct (first_file_checks_agree None sample_formatFileSize sample_form ""
              contract_pdf sample_page H) as (fv & Hnew & Hagree & _).
  exists fv. split; [exact Hnew|]. apply Hagree. vm_compute. reflexivity.
Defined.
